(** * Name request state and action engine (namex)

    A shallow embedding of the request handlers of

      - api/namex/resources/requests.py            ([Request.patch], [Request.put])
      - api/namex/resources/payment_societies.py   ([PaymentSocieties.post])
      - api/namex/resources/name_requests/name_request.py
                                                   ([NameRequestResource.put],
                                                    [NameRequestFields.patch] and its handlers)

    The handlers are Python methods that read and mutate SQLAlchemy rows,
    commit them with [save_to_db], call external collaborators (payment
    gateway, notification queue, search index, event recorder) and leave
    either by [return make_response(..)] or by an exception.  They are
    embedded as computations in a state monad with early exit over

      - the session (rows as the handler sees them, mutated in place), and
      - the world (committed rows and the logs of the calls made to the
        collaborators). *)

From Stdlib Require Import ZArith QArith String Ascii List Bool Lia DecimalString.
From Stdlib Require Import SpecFloat.
From stdpp Require Import gmap strings list.

Open Scope Z_scope.
Open Scope string_scope.

(** ** JSON payload fields

    A key of a JSON object is absent, present with [null], or present with
    a value; [dict.get] and [key in dict] tell them apart. *)

Inductive field (A : Type) : Type :=
| Absent
| Null
| Value (a : A).
Arguments Absent {A}.
Arguments Null {A}.
Arguments Value {A} a.

(** [d.get(k, default)] *)
Definition get {A : Type} (f : field A) (default : option A) : option A :=
  match f with
  | Absent => default
  | Null => None
  | Value a => Some a
  end.

(** [k in d.keys()] *)
Definition has_key {A : Type} (f : field A) : bool :=
  match f with
  | Absent => false
  | _ => true
  end.

(** Truth value of an optional string: [None] and [''] are falsy. *)
Definition truthy (o : option string) : bool :=
  match o with
  | Some s => negb (String.eqb s "")
  | None => false
  end.

(** The double-quote character, for messages that quote a key. *)
Definition dquote : string := String (ascii_of_nat 34) EmptyString.

(** [x in xs] for a list of strings. *)
Definition str_in (x : string) (xs : list string) : bool :=
  existsb (String.eqb x) xs.

(** [x in xs] where [x] may be [None]: no list of state codes holds [None]. *)
Definition opt_in (x : option string) (xs : list string) : bool :=
  match x with
  | Some s => str_in s xs
  | None => false
  end.

(** ** Models *)

(** State codes of [namex.models.State]. *)
Module State.
Definition DRAFT := "DRAFT".
Definition COND_RESERVE := "COND_RESERVE".
Definition RESERVED := "RESERVED".
Definition PENDING_PAYMENT := "PENDING_PAYMENT".
Definition INPROGRESS := "INPROGRESS".
Definition HOLD := "HOLD".
Definition APPROVED := "APPROVED".
Definition CONDITIONAL := "CONDITIONAL".
Definition REJECTED := "REJECTED".
Definition CONSUMED := "CONSUMED".
Definition EXPIRED := "EXPIRED".
Definition CANCELLED := "CANCELLED".
Definition REFUND_REQUESTED := "REFUND_REQUESTED".

(** Modelled from the spec: the list [State.VALID_STATES] is declared in
    namex.models, which is not among the sources; the spec gives the
    closed set of states. *)
Definition VALID_STATES : list string :=
  [DRAFT; COND_RESERVE; RESERVED; PENDING_PAYMENT; INPROGRESS; HOLD;
   APPROVED; CONDITIONAL; REJECTED; CONSUMED; EXPIRED; CANCELLED;
   REFUND_REQUESTED].

(** Modelled from the spec: [State.COMPLETED_STATE], declared in
    namex.models; the spec gives the completed-state group. *)
Definition COMPLETED_STATE : list string :=
  [APPROVED; REJECTED; CONDITIONAL; CONSUMED; EXPIRED].
End State.

(** A name choice of a request ([namex.models.Name]). *)
Module Name.
Record t : Type := mk {
  choice : Z;
  name : option string;
  state : option string;
  consumptionDate : option Z;
  corpNum : option string
}.

(** Modelled from the spec: the lifecycle states [Name.APPROVED] and
    [Name.CONDITION] are declared in namex.models. *)
Definition APPROVED := "APPROVED".
Definition CONDITION := "CONDITION".

(** [nrd_name.consumptionDate = d; nrd_name.corpNum = c] *)
Definition consume (d : Z) (c : option string) (n : t) : t :=
  {| choice := choice n; name := name n; state := state n;
     consumptionDate := Some d; corpNum := c |}.
End Name.

(** Payment status codes and actions ([namex.constants.PaymentState],
    [Payment.PaymentActions]). *)
Module PaymentState.
Definition APPROVED := "APPROVED".
Definition COMPLETED := "COMPLETED".
Definition PARTIAL := "PARTIAL".
Definition REFUND_REQUESTED := "REFUND_REQUESTED".
End PaymentState.

Module Payment.
Record t : Type := mk {
  payment_token : string;
  payment_status_code : string;
  payment_action : option string
}.

Definition REAPPLY := "REAPPLY".

Definition set_payment_status_code (s : string) (p : t) : t :=
  {| payment_token := payment_token p; payment_status_code := s;
     payment_action := payment_action p |}.
End Payment.

(** A name request row ([namex.models.Request]) with its name choices and
    payments.  Dates are instants (seconds); the row's primary key is its
    key in the table. *)
Record Request : Type := mkRequest {
  nrNum : string;
  stateCd : string;
  previousStateCd : option string;
  userId : option Z;
  furnished : string;
  expirationDate : option Z;
  hasBeenReset : option bool;
  consentFlag : option string;
  checkedOutBy : option string;
  checkedOutDt : option Z;
  entity_type_cd : option string;
  request_action_cd : option string;
  requestTypeCd : option string;
  names : list Name.t;
  payments : list Payment.t
}.

Definition set_nrNum (v : string) (r : Request) : Request :=
  mkRequest v (stateCd r) (previousStateCd r) (userId r) (furnished r)
    (expirationDate r) (hasBeenReset r) (consentFlag r) (checkedOutBy r)
    (checkedOutDt r) (entity_type_cd r) (request_action_cd r)
    (requestTypeCd r) (names r) (payments r).

Definition set_stateCd (v : string) (r : Request) : Request :=
  mkRequest (nrNum r) v (previousStateCd r) (userId r) (furnished r)
    (expirationDate r) (hasBeenReset r) (consentFlag r) (checkedOutBy r)
    (checkedOutDt r) (entity_type_cd r) (request_action_cd r)
    (requestTypeCd r) (names r) (payments r).

Definition set_previousStateCd (v : option string) (r : Request) : Request :=
  mkRequest (nrNum r) (stateCd r) v (userId r) (furnished r)
    (expirationDate r) (hasBeenReset r) (consentFlag r) (checkedOutBy r)
    (checkedOutDt r) (entity_type_cd r) (request_action_cd r)
    (requestTypeCd r) (names r) (payments r).

Definition set_userId (v : option Z) (r : Request) : Request :=
  mkRequest (nrNum r) (stateCd r) (previousStateCd r) v (furnished r)
    (expirationDate r) (hasBeenReset r) (consentFlag r) (checkedOutBy r)
    (checkedOutDt r) (entity_type_cd r) (request_action_cd r)
    (requestTypeCd r) (names r) (payments r).

Definition set_furnished (v : string) (r : Request) : Request :=
  mkRequest (nrNum r) (stateCd r) (previousStateCd r) (userId r) v
    (expirationDate r) (hasBeenReset r) (consentFlag r) (checkedOutBy r)
    (checkedOutDt r) (entity_type_cd r) (request_action_cd r)
    (requestTypeCd r) (names r) (payments r).

Definition set_expirationDate (v : option Z) (r : Request) : Request :=
  mkRequest (nrNum r) (stateCd r) (previousStateCd r) (userId r) (furnished r)
    v (hasBeenReset r) (consentFlag r) (checkedOutBy r)
    (checkedOutDt r) (entity_type_cd r) (request_action_cd r)
    (requestTypeCd r) (names r) (payments r).

Definition set_hasBeenReset (v : option bool) (r : Request) : Request :=
  mkRequest (nrNum r) (stateCd r) (previousStateCd r) (userId r) (furnished r)
    (expirationDate r) v (consentFlag r) (checkedOutBy r)
    (checkedOutDt r) (entity_type_cd r) (request_action_cd r)
    (requestTypeCd r) (names r) (payments r).

Definition set_consentFlag (v : option string) (r : Request) : Request :=
  mkRequest (nrNum r) (stateCd r) (previousStateCd r) (userId r) (furnished r)
    (expirationDate r) (hasBeenReset r) v (checkedOutBy r)
    (checkedOutDt r) (entity_type_cd r) (request_action_cd r)
    (requestTypeCd r) (names r) (payments r).

Definition set_checkedOutBy (v : option string) (r : Request) : Request :=
  mkRequest (nrNum r) (stateCd r) (previousStateCd r) (userId r) (furnished r)
    (expirationDate r) (hasBeenReset r) (consentFlag r) v
    (checkedOutDt r) (entity_type_cd r) (request_action_cd r)
    (requestTypeCd r) (names r) (payments r).

Definition set_checkedOutDt (v : option Z) (r : Request) : Request :=
  mkRequest (nrNum r) (stateCd r) (previousStateCd r) (userId r) (furnished r)
    (expirationDate r) (hasBeenReset r) (consentFlag r) (checkedOutBy r)
    v (entity_type_cd r) (request_action_cd r)
    (requestTypeCd r) (names r) (payments r).

Definition set_names (v : list Name.t) (r : Request) : Request :=
  mkRequest (nrNum r) (stateCd r) (previousStateCd r) (userId r) (furnished r)
    (expirationDate r) (hasBeenReset r) (consentFlag r) (checkedOutBy r)
    (checkedOutDt r) (entity_type_cd r) (request_action_cd r)
    (requestTypeCd r) v (payments r).

Definition set_payments (v : list Payment.t) (r : Request) : Request :=
  mkRequest (nrNum r) (stateCd r) (previousStateCd r) (userId r) (furnished r)
    (expirationDate r) (hasBeenReset r) (consentFlag r) (checkedOutBy r)
    (checkedOutDt r) (entity_type_cd r) (request_action_cd r)
    (requestTypeCd r) (names r) v.

(** A comment row ([namex.models.Comment]). *)
Record Comment : Type := mkComment {
  comment : string;
  examiner : Z;
  nrId : Z
}.

(** A payment-society row ([namex.models.PaymentSociety]). *)
Record PaymentSociety : Type := mkPaymentSociety {
  ps_nrNum : string;
  ps_corpNum : option string;
  ps_paymentCompletionDate : option string;
  ps_paymentStatusCode : option string;
  ps_paymentFeeCode : option string;
  ps_paymentType : option string;
  ps_paymentAmount : option Q;
  ps_paymentJson : option string;
  ps_paymentAction : option string
}.

(** ** Session, world and the handler monad *)

(** The rows of the database. *)
Record Tables : Type := mkTables {
  requests : gmap Z Request;
  comments : list Comment;
  payment_societies : list PaymentSociety
}.

(** An entry of the audit trail written by [EventRecorder.record]. *)
Record Event : Type := mkEvent {
  ev_user : Z;
  ev_action : string;
  ev_nr : Z
}.

(** A message handed to [publish_email_notification]. *)
Record Notification : Type := mkNotification {
  nt_nrNum : string;
  nt_option : string;
  nt_refund_value : option string
}.

(** What persists after a handler has run: the committed rows and the calls
    received by the collaborators, newest last. *)
Record World : Type := mkWorld {
  db : Tables;
  events : list Event;
  notifications : list Notification;
  refund_calls : list string;
  solr_deleted : list string
}.

(** The state a handler runs in: its session, the world, and the number of
    clock readings made so far. *)
Record St : Type := mkSt {
  sess : Tables;
  world : World;
  ticks : nat
}.

(** Exceptions a handler can leave with. *)
Inductive Exn : Type :=
| NameRequestIsInProgressError
| InvalidInputError (msg : string)
| KeyError
| AttributeError
| TypeError
| SBCPaymentException.

(** The body of a response: a message, the report of an exception
    ([handle_exception]), the JSON of a request, the reduced answers to
    CHECKOUT and CHECKIN, or the JSON of a payment-society row. *)
Inductive Body : Type :=
| Message (msg : string)
| Failure (e : Exn)
| Entity (r : Request)
| CheckoutInfo (id : Z) (checked_out_by : option string)
    (checked_out_dt : option Z) (state_cd : string)
| CheckinInfo (id : Z) (state_cd : string)
| SocietyEntity (ps : PaymentSociety).

(** An HTTP response. *)
Record Response : Type := mkResponse {
  status : Z;
  body : Body
}.

(** A step either yields a value, returns a response from the handler, or
    raises. *)
Inductive outcome (A : Type) : Type :=
| Val (a : A)
| Ret (r : Response)
| Raise (e : Exn).
Arguments Val {A} a.
Arguments Ret {A} r.
Arguments Raise {A} e.

Definition M (A : Type) : Type := St -> outcome A * St.

Definition ret {A : Type} (a : A) : M A := fun s => (Val a, s).

Definition bind {A B : Type} (m : M A) (k : A -> M B) : M B :=
  fun s =>
    match m s with
    | (Val a, s') => k a s'
    | (Ret r, s') => (Ret r, s')
    | (Raise e, s') => (Raise e, s')
    end.

#[export] Instance M_ret : MRet M := @ret.
#[export] Instance M_bind : MBind M := fun A B k m => bind m k.

(** [return make_response(jsonify(message=msg), code)] *)
Definition make_response {A : Type} (code : Z) (msg : string) : M A :=
  fun s => (Ret (mkResponse code (Message msg)), s).

(** [return make_response(jsonify(data), code)] *)
Definition respond {A : Type} (code : Z) (b : Body) : M A :=
  fun s => (Ret (mkResponse code b), s).

Definition raise {A : Type} (e : Exn) : M A := fun s => (Raise e, s).

(** [try: m  except Exception as e: h e] *)
Definition try_except {A : Type} (m : M A) (h : Exn -> M A) : M A :=
  fun s =>
    match m s with
    | (Raise e, s') => h e s'
    | r => r
    end.

Definition when (b : bool) (m : M unit) : M unit :=
  if b then m else ret tt.

(** Session access. *)
Definition get_row (k : Z) : M (option Request) :=
  fun s => (Val (requests (sess s) !! k), s).

Definition set_sess (t : Tables) (s : St) : St :=
  mkSt t (world s) (ticks s).

Definition set_world (w : World) (s : St) : St :=
  mkSt (sess s) w (ticks s).

Definition set_requests (m : gmap Z Request) (t : Tables) : Tables :=
  mkTables m (comments t) (payment_societies t).

(** An attribute assignment on the row [k] of the session. *)
Definition update_row (k : Z) (f : Request -> Request) : M unit :=
  fun s => (Val tt, set_sess (set_requests (alter f k (requests (sess s))) (sess s)) s).

(** [row.save_to_db()]: [db.session.add(row); db.session.commit()] writes
    the session to the database. *)
Definition save_to_db : M unit :=
  fun s =>
    (Val tt,
     set_world (mkWorld (sess s) (events (world s)) (notifications (world s))
                  (refund_calls (world s)) (solr_deleted (world s))) s).

(** [EventRecorder.record(user, action, nr, data)] *)
Definition record_event (user : Z) (action : string) (nr : Z) : M unit :=
  fun s =>
    (Val tt,
     set_world (mkWorld (db (world s)) (events (world s) ++ [mkEvent user action nr])
                  (notifications (world s)) (refund_calls (world s))
                  (solr_deleted (world s))) s).

(** [publish_email_notification(nr_num, option, refund_value)] *)
Definition publish_email_notification (nr_num opt : string)
    (refund_value : option string) : M unit :=
  fun s =>
    (Val tt,
     set_world (mkWorld (db (world s)) (events (world s))
                  (notifications (world s) ++ [mkNotification nr_num opt refund_value])
                  (refund_calls (world s)) (solr_deleted (world s))) s).

(** A handler starts with a session that mirrors the database and ends by
    dropping what it did not commit. *)
Definition run (h : M Response) (on_exn : Exn -> Response) (w : World)
    : Response * World :=
  match h (mkSt (db w) w 0) with
  | (Val r, s) => (r, world s)
  | (Ret r, s) => (r, world s)
  | (Raise e, s) => (on_exn e, world s)
  end.

(** ** Collaborators

    What the handlers obtain from code that is not theirs: the identity of
    the caller, the transition policy, the name request service, the
    payment gateway and the clock. *)

Record User : Type := mkUser {
  user_id : Z;
  username : string
}.

(** Python floats: the numbers of IEEE 754 binary64, with the
    operations rounded to the nearest float, ties to even. *)
Module Float.

Definition prec : Z := 53.
Definition emax : Z := 1024.

Definition t : Type := spec_float.

(** [float(z)], for an integer within the range of the floats. *)
Definition of_Z (z : Z) : t := binary_normalize prec emax z 0 false.

(** The float that Python reads from the decimal text of [n / 10^k],
    which is the float nearest to it: [decimal 2675 3] is [2.675].  The
    quotient of two floats is rounded once, and [n] and [10^k] are
    floats themselves as long as [n] is below [2^53] and [k] is at most
    22. *)
Definition decimal (n : Z) (k : nat) : t :=
  SFdiv prec emax (of_Z n) (of_Z (10 ^ Z.of_nat k)).

(** [x + y] *)
Definition add (x y : t) : t := SFadd prec emax x y.

(** [x != 0] *)
Definition nonzero (x : t) : bool :=
  match x with
  | S754_zero _ => false
  | _ => true
  end.

(** The magnitude of the finite float of mantissa [m] and exponent [e],
    which is [m * 2^e], as an exact rational. *)
Definition magnitude (m : positive) (e : Z) : Q :=
  match e with
  | Zneg p => Qmake (Zpos m) (2 ^ p)
  | _ => Qmake (Zpos m * 2 ^ e) 1
  end.

End Float.

(** The answer of the payment gateway to [get_payment(token)]; the
    amounts are JSON numbers with a fraction, that is Python floats. *)
Record PaymentInvoice : Type := mkPaymentInvoice {
  total : Float.t;
  receipts : list Float.t
}.

(** A call of [refund_payment(token, {})] comes back with the gateway's
    HTTP status, which the caller does not look at, or raises. *)
Inductive RefundOutcome : Type :=
| RefundReturned (http_status : Z)
| RefundRaised.

(** The partial update of [nr_action] requests: the keys of the JSON body
    that the modelled code reads. *)
Record RequestData : Type := mkRequestData {
  rd_stateCd : field string;
  rd_checkedOutBy : field string;
  rd_checkedOutDt : field Z
}.

Record Env : Type := mkEnv {
  (** [get_or_create_user_by_jwt(g.jwt_oidc_token_info)] *)
  jwt_user : User;
  (** [valid_state_transition(user, nr, state)] of namex.services *)
  valid_state_transition : User -> Request -> string -> bool;
  (** [convert_to_ascii] of namex.utils.common *)
  convert_to_ascii : string -> string;
  (** [NameRequestService.get_expiry_days(request_action_cd, requestTypeCd)] *)
  get_expiry_days : option string -> option string -> Z;
  (** [NameRequestService.create_expiry_date(start, expires_in_days)] *)
  create_expiry_date : Z -> Z -> Z;
  (** the successive readings of [datetime.utcnow()] / [datetime.now()] *)
  clock : nat -> Z;
  (** [add_new_nr_number]: the formal NR number that replaces a temporary one *)
  formal_nr_num : string -> string;
  (** [full_access_to_name_request(request)] *)
  full_access_to_name_request : bool;
  (** the id of [User.find_by_username('name_request_service_account')] *)
  service_account_id : Z;
  (** the token drawn by [uuid4()] *)
  uuid4 : string;
  (** [request_editable_states], [contact_editable_states] of
      name_requests/constants.py *)
  request_editable_states : list string;
  contact_editable_states : list string;
  (** the callback [handle_nr_update] of the full replace *)
  handle_nr_update : RequestData -> Request -> Request;
  (** the payment gateway *)
  get_payment : string -> PaymentInvoice;
  refund_payment : string -> RefundOutcome
}.

(** [datetime.utcnow()] *)
Definition utcnow (env : Env) : M Z :=
  fun s => (Val (clock env (ticks s)), mkSt (sess s) (world s) (S (ticks s))).

(** Attribute access on the row [k]; on a missing row it is an access on
    [None]. *)
Definition row (k : Z) : M Request :=
  o ← get_row k;
  match o with
  | Some r => mret r
  | None => raise AttributeError
  end.

(** The key of a row of [t] that satisfies [p], if there is one. *)
Definition find_row (p : Request -> bool) (t : gmap Z Request) : option Z :=
  fst <$> List.find (fun kv => p (snd kv)) (map_to_list t).

(** The row of [t] with the NR number [nr]. *)
Definition nr_key (nr : string) (t : Tables) : option Z :=
  find_row (fun r => String.eqb (nrNum r) nr) (requests t).

(** Modelled from the spec: [RequestDAO.find_by_nr] is declared in
    namex.models, which is not among the sources; it is the
    load-by-NR-number of the persistence interface. *)
Definition find_by_nr (nr : string) : M (option Z) :=
  fun s => (Val (nr_key nr (sess s)), s).

Definition is_inprogress_of (user : User) (r : Request) : bool :=
  bool_decide (userId r = Some (user_id user))
  && String.eqb (stateCd r) State.INPROGRESS.

(** The row of [t] that [user] has in progress. *)
Definition inprogress_key (user : User) (t : Tables) : option Z :=
  find_row (is_inprogress_of user) (requests t).

(** Modelled from the spec: [RequestDAO.get_inprogress] is declared in
    namex.models; it is the find-in-progress-for-user of the persistence
    interface. *)
Definition get_inprogress (user : User) : M (option Z) :=
  fun s => (Val (inprogress_key user (sess s)), s).

(** [s.replace('%20', ' ')] *)
Fixpoint replace_percent20 (s : string) : string :=
  match s with
  | String "%" (String "2" (String "0" rest)) => String " " (replace_percent20 rest)
  | String c rest => String c (replace_percent20 rest)
  | EmptyString => EmptyString
  end.

(** ** api/namex/resources/requests.py: class [Request] *)

Module RequestResource.

(** An entry of the [comments] list of the body. *)
Record CommentInput : Type := mkCommentInput {
  ci_id : field Z;
  ci_comment : field string
}.

(** The JSON body of PATCH and PUT, a JSON object: the keys that the
    modelled code reads, and whether the object has a key besides them. *)
Record Input : Type := mkInput {
  in_nrNum : field string;
  in_state : field string;
  in_previousStateCd : field string;
  in_corpNum : field string;
  in_comments : field (list CommentInput);
  in_names : field (list (option string * Z));
  in_others : bool
}.

(** [not json_input], for an object: the object has no key. *)
Definition is_empty (json_input : Input) : bool :=
  negb (has_key (in_nrNum json_input) || has_key (in_state json_input)
        || has_key (in_previousStateCd json_input) || has_key (in_corpNum json_input)
        || has_key (in_comments json_input) || has_key (in_names json_input)
        || in_others json_input).

Definition Event_PATCH := "PATCH".

Section Handlers.
Variable env : Env.

(** The names bound in [patch] when [start_state in locals()] is
    evaluated. *)
Definition patch_locals : list string :=
  ["nr"; "args"; "kwargs"; "json_input"; "user"; "nrd"; "start_state";
   "state"; "existing_nr"].

(** [patch], lines 841-849: the caller's in-progress request goes back to
    its previous state, or to HOLD, and is saved. *)
Definition revert_existing (r : Request) : Request :=
  if truthy (previousStateCd r)
  then set_previousStateCd None (set_stateCd (default "" (previousStateCd r)) r)
  else set_stateCd State.HOLD r.

Definition patch_demote_inprogress (user : User) : M unit :=
  existing_nr ← get_inprogress user;
  match existing_nr with
  | Some k => update_row k revert_existing;; save_to_db
  | None => mret tt
  end.

(** [patch], lines 869-881: comments without an id (or with the id 0) are
    new; a new comment with a text becomes a [Comment] row of the examiner
    for this request, which the spec has appended. *)
Definition is_new_comment (c : CommentInput) : bool :=
  match ci_id c with
  | Absent => true
  | Null => true
  | Value i => Z.eqb i 0
  end.

Definition add_comment (c : Comment) : M unit :=
  fun s =>
    (Val tt,
     set_sess (mkTables (requests (sess s)) (comments (sess s) ++ [c])
                 (payment_societies (sess s))) s).

Fixpoint add_new_comments (user : User) (nrd : Z) (cs : list CommentInput)
    : M unit :=
  match cs with
  | [] => mret tt
  | in_comment :: rest =>
      (if is_new_comment in_comment
       then match ci_comment in_comment with
            | Absent => raise KeyError
            | Null => mret tt
            | Value c =>
                add_comment (mkComment (convert_to_ascii env c) (user_id user) nrd)
            end
       else mret tt);;
      add_new_comments user nrd rest
  end.

(** [patch], lines 830-883: the STATE block. *)
Definition patch_state (user : User) (nrd : Z) (start_state : string)
    (json_input : Input) (state : string) : M unit :=
  if negb (str_in state State.VALID_STATES)
  then make_response 406 "not a valid state"
  else
    r ← row nrd;
    if negb (valid_state_transition env user r state)
    then make_response 401 "Name Request state transition validation failed."
    else
      patch_demote_inprogress user;;
      update_row nrd (set_stateCd state);;
      update_row nrd (set_userId (Some (user_id user)));;
      when (str_in start_state patch_locals
            && negb (String.eqb start_state State.INPROGRESS)
            && String.eqb state State.INPROGRESS)
        (update_row nrd (set_furnished "N"));;
      when (str_in state (State.COMPLETED_STATE ++ [State.CANCELLED]))
        (update_row nrd (set_hasBeenReset (Some false));;
         r ← row nrd;
         when (String.eqb (stateCd r) State.CONDITIONAL
               && bool_decide (consentFlag r = None))
           (update_row nrd (set_consentFlag (Some "Y"))));;
      match get (in_comments json_input) None with
      | Some (c :: cs) => add_new_comments user nrd (c :: cs)
      | _ => mret tt
      end.

(** [patch], lines 890-900: the expiration date. *)
Definition patch_expiration (nrd : Z) : M unit :=
  r ← row nrd;
  when (str_in (stateCd r) [State.APPROVED; State.REJECTED; State.CONDITIONAL]
        && String.eqb (furnished r) "N"
        && bool_decide (expirationDate r = None))
    (now ← utcnow env;
     let expiry_days :=
       get_expiry_days env (request_action_cd r) (requestTypeCd r) in
     update_row nrd (set_expirationDate (Some (create_expiry_date env now expiry_days)));;
     update_row nrd (set_furnished "Y")).

(** The loop of [consumeName] over [nrd.names]. *)
Fixpoint consume_names (corp : option string) (ns : list Name.t)
    : M (list Name.t * bool) :=
  match ns with
  | [] => mret ([], false)
  | nrd_name :: rest =>
      if opt_in (Name.state nrd_name) [Name.APPROVED; Name.CONDITION]
      then
        now ← utcnow env;
        '(rest', _) ← consume_names corp rest;
        mret (Name.consume now corp nrd_name :: rest', true)
      else
        '(rest', consumed) ← consume_names corp rest;
        mret (nrd_name :: rest', consumed)
  end.

(** [consumeName(nrd, json_input)] *)
Definition consumeName (nrd : Z) (json_input : Input)
    : M (bool * string) :=
  if negb (truthy (get (in_corpNum json_input) None))
  then mret (false, dquote ++ "corpNum" ++ dquote
                    ++ " is required and cannot be empty.")
  else
    r ← row nrd;
    '(ns, consumed) ← consume_names (get (in_corpNum json_input) None) (names r);
    update_row nrd (set_names ns);;
    if negb consumed
    then mret (false, "Cannot find an Approved or Condition name to be consumed.")
    else mret (true, "").

(** [Request.patch(nr)] *)
Definition patch_handler (nr : string) (json_input : option Input)
    : M Response :=
  let nr := replace_percent20 nr in
  match json_input with
  | None => make_response 400 "No input data provided"
  | Some json_input =>
      if is_empty json_input
      then make_response 400 "No input data provided"
      else
      let user := jwt_user env in
      found ← find_by_nr nr;
      match found with
      | None => make_response 404 ("Request:" ++ nr ++ " not found")
      | Some nrd =>
          r ← row nrd;
          let start_state := stateCd r in
          let state := get (in_state json_input) None in
          try_except
            ((if truthy state
              then patch_state user nrd start_state json_input (default "" state)
              else mret tt);;
             when (has_key (in_previousStateCd json_input))
               (update_row nrd
                  (set_previousStateCd (get (in_previousStateCd json_input) None)));;
             patch_expiration nrd;;
             (if bool_decide (state = Some State.CONSUMED)
              then
                '(success, error_message) ← consumeName nrd json_input;
                if negb success then make_response 406 error_message else mret tt
              else mret tt);;
             save_to_db;;
             record_event (user_id user) Event_PATCH nrd)
            (fun _ => make_response 500 "Internal server error");;
          (* no local named [warnings] exists: the 206 answer is never given *)
          r ← row nrd;
          when (opt_in state [State.APPROVED; State.CONDITIONAL; State.REJECTED])
            (publish_email_notification (nrNum r) (default "" state) None);;
          make_response 200 ("Request:" ++ nr ++ " - patched")
      end
  end.

Definition patch (nr : string) (json_input : option Input) (w : World)
    : Response * World :=
  run (patch_handler nr json_input)
    (fun e => mkResponse 500 (Failure e)) w.

(** *** Vocabulary of the statements about [patch] *)

(** A comment of the body that [patch] can read: when it is new, its
    text is there (if only as [null]). *)
Definition comment_ok (c : CommentInput) : bool :=
  negb (is_new_comment c) || has_key (ci_comment c).

Definition comments_ok (j : Input) : bool :=
  match get (in_comments j) None with
  | Some cs => forallb comment_ok cs
  | None => true
  end.

(** The decision states. *)
Definition decision_states : list string :=
  [State.APPROVED; State.REJECTED; State.CONDITIONAL].

(** A name choice that [consumeName] consumes. *)
Definition consumable (n : Name.t) : bool :=
  opt_in (Name.state n) [Name.APPROVED; Name.CONDITION].

(** [n'] is [n] after [consumeName]: when [n] is approved or
    conditional, [n'] has a consumption date and the corp number [corp];
    otherwise it has the consumption date and the corp number of [n].  Its
    choice, name and state are those of [n]. *)
Definition consumed_as (corp : option string) (n n' : Name.t) : Prop :=
  Name.choice n' = Name.choice n
  /\ Name.name n' = Name.name n
  /\ Name.state n' = Name.state n
  /\ if consumable n
     then Name.consumptionDate n' <> None /\ Name.corpNum n' = corp
     else Name.consumptionDate n' = Name.consumptionDate n
          /\ Name.corpNum n' = Name.corpNum n.

(** Every request of [w] is still in the database of [w'], with the
    name choices it had. *)
Definition names_untouched (w w' : World) : Prop :=
  forall k r, requests (db w) !! k = Some r ->
    exists r', requests (db w') !! k = Some r' /\ names r' = names r.

(** The message of [consumeName] about the corp number. *)
Definition corpNum_required : string :=
  dquote ++ "corpNum" ++ dquote ++ " is required and cannot be empty.".

(** [put], lines 989-996: which name choices the body fills in. *)
Definition name_choice_exists (ns : list (option string * Z)) (c : Z) : bool :=
  existsb (fun n => truthy (fst n) && Z.eqb (snd n) c) ns.

(** [put], lines 998-1002: the caller's in-progress request is put on
    HOLD and saved. *)
Definition put_demote_inprogress (user : User) : M unit :=
  existing_nr ← get_inprogress user;
  match existing_nr with
  | Some k => update_row k (set_stateCd State.HOLD);; save_to_db
  | None => mret tt
  end.

(** [Request.put(nr)], lines 955-1002: the checks of the body and the
    demotion of the caller's in-progress request.  The replacement of
    the header, the applicant, the names and the partner records, which
    follows, is not embedded; it runs after the demotion was committed. *)
Definition put_until_demotion (nr : string) (json_input : option Input)
    : M unit :=
  match json_input with
  | None => make_response 400 "No input data provided"
  | Some json_input =>
      if is_empty json_input
      then make_response 400 "No input data provided"
      else
      let nr_num := get (in_nrNum json_input) None in
      if truthy nr_num && negb (bool_decide (nr_num = Some nr))
      then make_response 400 "Data contains a different NR# than this resource"
      else
        let state := get (in_state json_input) None in
        if negb (truthy state)
        then make_response 406 "state not set"
        else if negb (opt_in state State.VALID_STATES)
        then make_response 406 "not a valid state"
        else
          let user := jwt_user env in
          found ← find_by_nr nr;
          match found with
          | None => make_response 404 ("Request:" ++ nr ++ " not found")
          | Some nrd =>
              r ← row nrd;
              if negb (valid_state_transition env user r (default "" state))
              then make_response 401 "you are not authorized to make these changes"
              else
                match get (in_names json_input) None with
                | None => raise TypeError
                | Some ns =>
                    if negb (name_choice_exists ns 1)
                    then make_response 400 "Data does not include a name choice 1"
                    else if negb (name_choice_exists ns 2) && name_choice_exists ns 3
                    then make_response 400
                           "Data contains a name choice 3 without a name choice 2"
                    else put_demote_inprogress user
                end
          end
  end.

(** The response, if [put] has left before the replacement, and the
    world at that point. *)
Definition put (nr : string) (json_input : option Input) (w : World)
    : option Response * World :=
  match put_until_demotion nr json_input (mkSt (db w) w 0) with
  | (Val _, s) => (None, world s)
  | (Ret r, s) => (Some r, world s)
  | (Raise e, s) => (Some (mkResponse 500 (Failure e)), world s)
  end.

End Handlers.
End RequestResource.

(** ** api/namex/resources/payment_societies.py: class [PaymentSocieties] *)

Module PaymentSocieties.

(** The JSON body of POST, a JSON object: the keys that [post] reads,
    and whether the object has a key besides them. *)
Record Input : Type := mkInput {
  in_nrNum : field string;
  in_corpNum : field string;
  in_paymentCompletionDate : field string;
  in_paymentStatusCode : field string;
  in_paymentFeeCode : field string;
  in_paymentType : field string;
  in_paymentAmount : field Q;
  in_paymentJson : field string;
  in_paymentAction : field string;
  in_others : bool
}.

(** [not json_input], for an object: the object has no key. *)
Definition is_empty (json_input : Input) : bool :=
  negb (has_key (in_nrNum json_input) || has_key (in_corpNum json_input)
        || has_key (in_paymentCompletionDate json_input)
        || has_key (in_paymentStatusCode json_input)
        || has_key (in_paymentFeeCode json_input)
        || has_key (in_paymentType json_input)
        || has_key (in_paymentAmount json_input)
        || has_key (in_paymentJson json_input)
        || has_key (in_paymentAction json_input)
        || in_others json_input).

Section Handlers.
Variable env : Env.

(** Modelled from the spec: [add_new_nr_number] is a method of
    [AbstractNameRequestResource], which is not among the sources; by the
    comment at its call it replaces a temporary NR number by a formal
    one. *)
Definition add_new_nr_number (nrd : Z) : M unit :=
  r ← row nrd;
  update_row nrd (set_nrNum (formal_nr_num env (nrNum r))).

(** [ps_instance.save_to_db()] *)
Definition save_payment_society (ps : PaymentSociety) : M unit :=
  (fun s =>
     (Val tt,
      set_sess (mkTables (requests (sess s)) (comments (sess s))
                  (payment_societies (sess s) ++ [ps])) s));;
  save_to_db.

(** [PaymentSocieties.post()] *)
Definition post_handler (json_input : option Input) : M Response :=
  match json_input with
  | None => make_response 400 "No input data provided"
  | Some json_input =>
      if is_empty json_input
      then make_response 400 "No input data provided"
      else
      let nr_num := get (in_nrNum json_input) None in
      if negb (truthy nr_num)
      then make_response 406 "nr_num not set in json input"
      else
        found ← find_by_nr (default "" nr_num);
        match found with
        | None =>
            make_response 404
              ("Request: " ++ default "" nr_num ++ " not found in requests table")
        | Some nrd =>
            try_except (add_new_nr_number nrd)
              (fun _ =>
                 make_response 404
                   "NR had an internal error. Please double check the json input file format");;
            r ← row nrd;
            let ps_instance :=
              {| ps_nrNum := nrNum r;
                 ps_corpNum := get (in_corpNum json_input) None;
                 ps_paymentCompletionDate := get (in_paymentCompletionDate json_input) None;
                 ps_paymentStatusCode := get (in_paymentStatusCode json_input) None;
                 ps_paymentFeeCode := get (in_paymentFeeCode json_input) None;
                 ps_paymentType := get (in_paymentType json_input) None;
                 ps_paymentAmount := get (in_paymentAmount json_input) None;
                 ps_paymentJson := get (in_paymentJson json_input) None;
                 ps_paymentAction := get (in_paymentAction json_input) None |} in
            save_payment_society ps_instance;;
            when (String.eqb (stateCd r) State.PENDING_PAYMENT)
              (update_row nrd (set_stateCd "DRAFT"));;
            save_to_db;;
            respond 200 (SocietyEntity ps_instance)
        end
  end.

Definition post (json_input : option Input) (w : World) : Response * World :=
  run (post_handler json_input) (fun e => mkResponse 500 (Failure e)) w.

(** The payment-society row that [post] builds from the body [j] for
    the request numbered [nr_num]. *)
Definition society_of (j : Input) (nr_num : string) : PaymentSociety :=
  {| ps_nrNum := nr_num;
     ps_corpNum := get (in_corpNum j) None;
     ps_paymentCompletionDate := get (in_paymentCompletionDate j) None;
     ps_paymentStatusCode := get (in_paymentStatusCode j) None;
     ps_paymentFeeCode := get (in_paymentFeeCode j) None;
     ps_paymentType := get (in_paymentType j) None;
     ps_paymentAmount := get (in_paymentAmount j) None;
     ps_paymentJson := get (in_paymentJson j) None;
     ps_paymentAction := get (in_paymentAction j) None |}.

End Handlers.
End PaymentSocieties.

(** ** api/namex/resources/name_requests/name_request.py *)

(** [str.upper()], for a text of ASCII characters: the letters a-z are
    folded and nothing else is.  (Python folds the letters beyond ASCII
    too; the texts of this development are taken to be ASCII.) *)
Definition upper_ascii (c : ascii) : ascii :=
  let n := nat_of_ascii c in
  if (Nat.leb 97 n && Nat.leb n 122)%bool then ascii_of_nat (n - 32) else c.

Fixpoint upper (s : string) : string :=
  match s with
  | EmptyString => EmptyString
  | String c rest => String (upper_ascii c) (upper rest)
  end.

(** [', '.join(xs)] *)
Fixpoint join (sep : string) (xs : list string) : string :=
  match xs with
  | [] => ""
  | [x] => x
  | x :: rest => x ++ sep ++ join sep rest
  end.

(** The integer nearest to the rational [q], ties to even. *)
Definition round_half_even (q : Q) : Z :=
  let n := Qnum q in
  let d := Zpos (Qden q) in
  let fl := n / d in
  let r2 := 2 * (n mod d) in
  if Z.ltb r2 d then fl
  else if Z.ltb d r2 then fl + 1
  else if Z.even fl then fl else fl + 1.

Definition digits (n : Z) : string :=
  NilZero.string_of_uint (N.to_uint (Z.to_N n)).

(** ['{:.2f}'.format(x)] for a float [x].  Python writes the decimal
    with two places that is nearest to the exact value of the float, ties
    to even, after the sign of the float; the value of the float is not
    the decimal it was read from, so that [2.675], which is a little less
    than 2.675 as a float, is written [2.67]. *)
Definition format_2f (x : Float.t) : string :=
  let sign (s : bool) := if s then "-" else "" in
  match x with
  | S754_nan => "nan"
  | S754_infinity s => sign s ++ "inf"
  | S754_zero s => sign s ++ "0.00"
  | S754_finite s m e =>
      let c := round_half_even (Float.magnitude m e * 100) in
      let frac := c mod 100 in
      sign s ++ digits (c / 100) ++ "."
      ++ (if Z.ltb frac 10 then "0" else "") ++ digits frac
  end.

(** Modelled from the spec: the enumeration [NameRequestPatchActions] is
    declared in namex.constants, which is not among the sources; the spec
    lists its members, each named as its value. *)
Module NameRequestPatchActions.
Inductive t : Type :=
| CHECKOUT
| CHECKIN
| EDIT
| CANCEL
| RESEND
| REQUEST_REFUND.

Definition value (a : t) : string :=
  match a with
  | CHECKOUT => "CHECKOUT"
  | CHECKIN => "CHECKIN"
  | EDIT => "EDIT"
  | CANCEL => "CANCEL"
  | RESEND => "RESEND"
  | REQUEST_REFUND => "REQUEST_REFUND"
  end.

Definition members : list t :=
  [CHECKOUT; CHECKIN; EDIT; CANCEL; RESEND; REQUEST_REFUND].

(** [NameRequestPatchActions.has_value(v)] *)
Definition has_value (v : string) : bool :=
  existsb (fun a => String.eqb (value a) v) members.

(** [NameRequestPatchActions[name]] *)
Definition by_name (n : string) : option t :=
  List.find (fun a => String.eqb (value a) n) members.
End NameRequestPatchActions.

Module NameRequest.
Import NameRequestPatchActions.

Definition Event_PUT := "PUT".
Definition Event_PATCH := "PATCH".

Section Handlers.
Variable env : Env.

(** Modelled from the spec: [is_request_editable] is declared in
    namex.services.name_request.name_request_state, which is not among
    the sources; a state is request-editable when it belongs to the
    request-editable state set. *)
Definition is_request_editable (nr_state : string) : bool :=
  str_in nr_state (request_editable_states env).

(** Modelled from the spec: [is_name_request_refundable], declared in
    the same module; the refundable state is DRAFT only. *)
Definition is_name_request_refundable (nr_state : string) : bool :=
  str_in nr_state [State.DRAFT].

(** Modelled from the spec: [update_nr], its callback [handle_nr_patch]
    and the state change they apply are methods of the base resource
    and of the name request service, which are not among the sources.
    By the spec a state change sets the state code, resets the
    furnished flag on entering INPROGRESS from another state, clears
    the reset flag on entering a completed or cancelled state and
    clears the consent flag when the state changes to one other than
    CONDITIONAL; a partial edit writes the fields that are present in
    the payload and no others; the request is then persisted.  The
    demotion of the caller's other request in progress and the
    bookkeeping of the previous state, the owner and the expiration
    date, which the spec also gives to a state change, are the code of
    [Request.patch] in requests.py (lines 841-852 and 886-899) and are
    embedded there; [update_nr] is taken to write the request that it
    is given, and no other. *)
Definition apply_state_change (new_state : string) (r : Request) : Request :=
  let changed := negb (String.eqb (stateCd r) new_state) in
  let r1 := set_stateCd new_state r in
  let r2 :=
    if String.eqb new_state State.INPROGRESS && changed
    then set_furnished "N" r1 else r1 in
  let r3 :=
    if str_in new_state (State.COMPLETED_STATE ++ [State.CANCELLED])
    then set_hasBeenReset (Some false) r2 else r2 in
  if negb (String.eqb new_state State.CONDITIONAL) && changed
  then set_consentFlag None r3 else r3.

Definition handle_nr_patch (data : RequestData) (r : Request) : Request :=
  let r1 :=
    if has_key (rd_checkedOutBy data)
    then set_checkedOutBy (get (rd_checkedOutBy data) None) r else r in
  if has_key (rd_checkedOutDt data)
  then set_checkedOutDt (get (rd_checkedOutDt data) None) r1 else r1.

Definition update_nr (nr_model : Z) (new_state : string)
    (on_state_changed : Request -> Request) : M unit :=
  update_row nr_model (fun r => on_state_changed (apply_state_change new_state r));;
  save_to_db.

(** [delete_solr_doc(core, nr_num)] *)
Definition delete_solr_doc (nr_num : string) : M unit :=
  fun s =>
    (Val tt,
     set_world (mkWorld (db (world s)) (events (world s))
                  (notifications (world s)) (refund_calls (world s))
                  (solr_deleted (world s) ++ [nr_num])) s).

(** The entity types whose documents are deleted from the search
    index, as listed in [handle_patch_rollback]. *)
Definition solr_entity_types : list string :=
  ["CR"; "UL"; "BC"; "CP"; "PA"; "XCR"; "XUL"; "XCP"; "CC"; "FI"].

(** Modelled from the spec: [update_solr] is a method of the base
    resource; it synchronizes the deletion with the search index for
    the applicable entity types. *)
Definition update_solr (nr_model : Z) : M unit :=
  r ← row nr_model;
  when (opt_in (entity_type_cd r) solr_entity_types)
    (delete_solr_doc (nrNum r)).

(** *** [NameRequestResource.put] *)

Definition valid_update_states : list string :=
  [State.DRAFT; State.COND_RESERVE; State.RESERVED; State.PENDING_PAYMENT].

(** Attribute access on the body of the request, [None] when there is
    none. *)
Definition body_of (request_data : option RequestData) : M RequestData :=
  match request_data with
  | Some d => mret d
  | None => raise AttributeError
  end.

Definition validate_put_request (data : RequestData) : bool * string :=
  (opt_in (get (rd_stateCd data) None) valid_update_states, "").

Definition put_handler (nr_id : Z) (request_json : option RequestData)
    : M Response :=
  if negb (full_access_to_name_request env)
  then respond 403 (Message "You do not have access to this NameRequest.")
  else
    (* self.initialize() *)
    let request_data := request_json in
    nr_model ← row nr_id;
    data ← body_of request_data;
    let '(is_valid_put, validation_msg) := validate_put_request data in
    let validation_msg :=
      if negb (Nat.ltb 0 (String.length validation_msg))
      then validation_msg else "Invalid request for PUT" in
    (if negb is_valid_put
     then raise (InvalidInputError validation_msg) else mret tt);;
    when (str_in (stateCd nr_model) valid_update_states)
      (update_nr nr_id (stateCd nr_model) (handle_nr_update env data);;
       record_event (user_id (jwt_user env)) Event_PUT nr_id);;
    nr_model ← row nr_id;
    respond 200 (Entity nr_model).

Definition put (nr_id : Z) (request_json : option RequestData) (w : World)
    : Response * World :=
  run (put_handler nr_id request_json) (fun e => mkResponse 500 (Failure e)) w.

(** *** [NameRequestFields.patch] *)

(** Lines 180-187: the action of the path, upper-cased, or EDIT. *)
Definition resolve_action (nr_action : string) : M string :=
  let nr_action := upper nr_action in
  if has_value nr_action
  then match by_name nr_action with
       | Some a => mret (value a)
       | None => raise KeyError
       end
  else mret (value EDIT).

(** The local function [initialize] of [patch]; it yields
    [self.request_data]. *)
Definition initialize (nr_action : string) (nr_id : Z)
    (request_json : option RequestData) : M (option RequestData) :=
  if String.eqb nr_action (value CHECKOUT) then
    nr_model ← row nr_id;
    match checkedOutBy nr_model with
    | None =>
        if negb (is_request_editable (stateCd nr_model))
        then raise NameRequestIsInProgressError else mret tt
    | Some holder =>
        j ← body_of request_json;
        if negb (bool_decide (Some holder = get (rd_checkedOutBy j) None))
        then raise NameRequestIsInProgressError else mret tt
    end;;
    update_row nr_id (set_userId (Some (service_account_id env)));;
    now ← utcnow env;
    mret (Some {| rd_stateCd := Absent;
                  rd_checkedOutBy := Value (uuid4 env);
                  rd_checkedOutDt := Value now |})
  else if String.eqb nr_action (value CHECKIN) then
    mret (Some {| rd_stateCd := Absent;
                  rd_checkedOutBy := Null;
                  rd_checkedOutDt := Null |})
  else if String.eqb nr_action (value REQUEST_REFUND) then
    nr_model ← row nr_id;
    if negb (is_name_request_refundable (stateCd nr_model))
    then raise NameRequestIsInProgressError
    else mret request_json
  else mret request_json.

(** The local function [validate_patch_request] of [patch]. *)
Definition validate_patch_request (nr_action : string) (nr_model : Request)
    (data : RequestData) : M (bool * string) :=
  let request_state := get (rd_stateCd data) (Some (stateCd nr_model)) in
  '(is_valid, msg) ←
    (if opt_in request_state (request_editable_states env) then mret (true, "")
     else if opt_in request_state (contact_editable_states env) then mret (true, "")
     else
       match get (rd_stateCd data) (Some "") with
       | Some st =>
           mret (false,
                 "Invalid state change requested - the Name Request state cannot be changed to ["
                 ++ st ++ "]")
       | None => raise TypeError
       end);
  if negb (has_value nr_action)
  then mret (false,
             "Invalid Name Request PATCH action, please use one of ["
             ++ join ", " (map value members) ++ "]")
  else mret (is_valid, msg).

Definition handle_patch_checkout (data : RequestData) (nr_id : Z) : M unit :=
  update_nr nr_id State.INPROGRESS (handle_nr_patch data);;
  record_event (user_id (jwt_user env)) (Event_PATCH ++ " [checkout]") nr_id.

Definition handle_patch_checkin (data : RequestData) (nr_id : Z) : M unit :=
  update_nr nr_id State.DRAFT (handle_nr_patch data);;
  record_event (user_id (jwt_user env)) (Event_PATCH ++ " [checkin]") nr_id.

Definition handle_patch_edit (data : RequestData) (nr_id : Z) : M unit :=
  nr_model ← row nr_id;
  update_nr nr_id (stateCd nr_model) (handle_nr_patch data);;
  save_to_db;;
  record_event (user_id (jwt_user env)) (Event_PATCH ++ " [edit]") nr_id.

Definition handle_patch_resend (data : RequestData) (nr_id : Z) : M unit :=
  nr_model ← row nr_id;
  update_nr nr_id (stateCd nr_model) (handle_nr_patch data);;
  record_event (user_id (jwt_user env)) (Event_PATCH ++ " [re-send]") nr_id.

Definition handle_patch_cancel (data : RequestData) (nr_id : Z) : M unit :=
  update_nr nr_id State.CANCELLED (handle_nr_patch data);;
  update_solr nr_id;;
  record_event (user_id (jwt_user env)) (Event_PATCH ++ " [cancel]") nr_id.

(** [refund_payment(token, {})]: the call reaches the gateway, then
    returns or raises. *)
Definition call_refund_payment (token : string) : M unit :=
  fun s =>
    let s' :=
      set_world (mkWorld (db (world s)) (events (world s))
                   (notifications (world s)) (refund_calls (world s) ++ [token])
                   (solr_deleted (world s))) s in
    match refund_payment env token with
    | RefundReturned _ => (Val tt, s')
    | RefundRaised => (Raise SBCPaymentException, s')
    end.

Definition valid_states : list string :=
  [PaymentState.APPROVED; PaymentState.COMPLETED; PaymentState.PARTIAL].

Definition is_reapply (payment : Payment.t) : bool :=
  bool_decide (Payment.payment_action payment = Some Payment.REAPPLY).

(** [payment.payment_status_code = v; payment.save_to_db()] for the
    payment at position [i] of the request. *)
Definition mark_payment (nr_id : Z) (i : nat) (v : string) : M unit :=
  update_row nr_id
    (fun r => set_payments (alter (Payment.set_payment_status_code v) i (payments r)) r);;
  save_to_db.

(** The loop of [handle_patch_request_refund], lines 412-425, from the
    payment at position [i] on; it yields [refund_value].  The int [0]
    of the code is the float [0.0] here: Python converts an int that is
    added to a float, and writes the int [0] as it writes [0.0]. *)
Fixpoint refund_payments (nr_id : Z) (i : nat) (ps : list Payment.t)
    (refund_value : Float.t) : M Float.t :=
  match ps with
  | [] => mret refund_value
  | payment :: rest =>
      if str_in (Payment.payment_status_code payment) valid_states
      then
        let payment_response := get_payment env (Payment.payment_token payment) in
        when (Float.nonzero (total payment_response))
          (call_refund_payment (Payment.payment_token payment));;
        mark_payment nr_id i PaymentState.REFUND_REQUESTED;;
        refund_payments nr_id (S i) rest
          (Float.add refund_value
             match receipts payment_response with
             | receiptAmount :: _ => receiptAmount
             | [] => Float.of_Z 0
             end)
      else refund_payments nr_id (S i) rest refund_value
  end.

Definition handle_patch_request_refund (data : RequestData) (nr_id : Z)
    : M unit :=
  update_nr nr_id State.REFUND_REQUESTED (handle_nr_patch data);;
  nr_model ← row nr_id;
  refund_value ←
    (if negb (existsb is_reapply (payments nr_model))
     then refund_payments nr_id 0 (payments nr_model) (Float.of_Z 0)
     else mret (Float.of_Z 0));
  publish_email_notification (nrNum nr_model) "refund"
    (Some (format_2f refund_value));;
  update_solr nr_id;;
  record_event (user_id (jwt_user env)) (Event_PATCH ++ " [request-refund]") nr_id.

(** The local function [handle_patch_actions] of [patch]. *)
Definition handle_patch_actions (action : string) (data : RequestData)
    (nr_id : Z) : M unit :=
  match by_name action with
  | Some CHECKOUT => handle_patch_checkout data nr_id
  | Some CHECKIN => handle_patch_checkin data nr_id
  | Some EDIT => handle_patch_edit data nr_id
  | Some CANCEL => handle_patch_cancel data nr_id
  | Some RESEND => handle_patch_resend data nr_id
  | Some REQUEST_REFUND => handle_patch_request_refund data nr_id
  | None => raise TypeError
  end.

Definition patch_handler (nr_id : Z) (nr_action : string)
    (request_json : option RequestData) : M Response :=
  if negb (full_access_to_name_request env)
  then respond 403 (Message "You do not have access to this NameRequest.")
  else
    nr_action ← resolve_action nr_action;
    request_data ← initialize nr_action nr_id request_json;
    nr_model ← row nr_id;
    data ← body_of request_data;
    '(is_valid_patch, validation_msg) ←
      validate_patch_request nr_action nr_model data;
    let validation_msg :=
      if negb (Nat.ltb 0 (String.length validation_msg))
      then validation_msg else "Invalid request for PATCH" in
    (if negb is_valid_patch
     then raise (InvalidInputError validation_msg) else mret tt);;
    handle_patch_actions nr_action data nr_id;;
    nr_model ← row nr_id;
    if String.eqb nr_action (value CHECKOUT)
    then respond 200 (CheckoutInfo nr_id (checkedOutBy nr_model)
                        (checkedOutDt nr_model) (stateCd nr_model))
    else if String.eqb nr_action (value CHECKIN)
    then respond 200 (CheckinInfo nr_id (stateCd nr_model))
    else respond 200 (Entity nr_model).

(** The [except] clauses of [patch]. *)
Definition patch_on_exn (e : Exn) : Response :=
  match e with
  | NameRequestIsInProgressError => mkResponse 423 (Failure e)
  | _ => mkResponse 500 (Failure e)
  end.

Definition patch (nr_id : Z) (nr_action : string)
    (request_json : option RequestData) (w : World) : Response * World :=
  run (patch_handler nr_id nr_action request_json) patch_on_exn w.

(** *** Vocabulary of the statements about [patch] *)

(** The body [data] passes the state check of [validate_patch_request]
    for the request [r]. *)
Definition patchable (r : Request) (data : RequestData) : bool :=
  let request_state := get (rd_stateCd data) (Some (stateCd r)) in
  opt_in request_state (request_editable_states env)
  || opt_in request_state (contact_editable_states env).

(** A payment the refund loop processes. *)
Definition eligible (p : Payment.t) : bool :=
  str_in (Payment.payment_status_code p) valid_states.

(** A payment after the loop has processed it. *)
Definition mark_refund_requested (p : Payment.t) : Payment.t :=
  if eligible p
  then Payment.set_payment_status_code PaymentState.REFUND_REQUESTED p
  else p.

(** The receipt amount the loop adds for the payment of [token]. *)
Definition receipt_amount (token : string) : Float.t :=
  match receipts (get_payment env token) with
  | receiptAmount :: _ => receiptAmount
  | [] => Float.of_Z 0
  end.

(** A payment for which the loop calls [refund_payment]. *)
Definition needs_refund_call (p : Payment.t) : bool :=
  eligible p
  && Float.nonzero (total (get_payment env (Payment.payment_token p))).

Definition refund_tokens (ps : list Payment.t) : list string :=
  map Payment.payment_token (List.filter needs_refund_call ps).

(** The sum of the receipt amounts of the eligible payments, added to
    [v] from left to right, each addition rounded as floats are. *)
Definition refunded_total (ps : list Payment.t) (v : Float.t) : Float.t :=
  fold_left
    (fun v p =>
       if eligible p then Float.add v (receipt_amount (Payment.payment_token p)) else v)
    ps v.

(** The refund call for [p] comes back, whatever the gateway answers. *)
Definition refund_returns (p : Payment.t) : Prop :=
  exists http_status,
    refund_payment env (Payment.payment_token p) = RefundReturned http_status.

(** The data [initialize] prepares for CHECKOUT. *)
Definition checkout_data : RequestData :=
  {| rd_stateCd := Absent;
     rd_checkedOutBy := Value (uuid4 env);
     rd_checkedOutDt := Value (clock env 0) |}.

End Handlers.
End NameRequest.

(** ** What a change of state leaves alone *)

(** The fields that a change of state, owner or flags does not touch. *)
Definition core (r : Request) :=
  (nrNum r, furnished r, expirationDate r, checkedOutBy r, checkedOutDt r,
   entity_type_cd r, request_action_cd r, requestTypeCd r, names r, payments r).

Definition kept (r r' : Request) : Prop := core r' = core r.

(** Every row of [m] is still in [m'], with its core. *)
Definition rows_kept (m m' : gmap Z Request) : Prop :=
  forall k r, m !! k = Some r -> exists r', m' !! k = Some r' /\ kept r r'.

(** ** A registry to run the handlers on *)

Module Examples.

(** The examiner (user 7) calls; the gateway answers 400 to every refund
  but the one of payment [pay-b], on which the call raises.  The invoices
  are of 30.0 with a receipt of 30.0, but for [pay-f], of 2.675 with its
  receipt, and [pay-h], which has no receipt. *)
Definition env : Env :=
{| jwt_user := mkUser 7 "examiner";
   valid_state_transition := fun _ _ _ => true;
   convert_to_ascii := fun s => s;
   get_expiry_days := fun _ _ => 56;
   create_expiry_date := fun start days => start + days * 86400;
   clock := fun n => 1000 + Z.of_nat n;
   formal_nr_num := fun s => s;
   full_access_to_name_request := true;
   service_account_id := 99;
   uuid4 := "8c2f7f0e";
   request_editable_states := ["DRAFT"; "RESERVED"; "COND_RESERVE"; "PENDING_PAYMENT"];
   contact_editable_states := ["APPROVED"; "REJECTED"; "CONDITIONAL"];
   handle_nr_update := fun _ r => r;
   get_payment :=
     fun token =>
       if String.eqb token "pay-f"
       then mkPaymentInvoice (Float.decimal 2675 3) [Float.decimal 2675 3]
       else if String.eqb token "pay-h"
       then mkPaymentInvoice (Float.of_Z 30) []
       else mkPaymentInvoice (Float.of_Z 30) [Float.of_Z 30];
   refund_payment :=
     fun token => if String.eqb token "pay-b" then RefundRaised else RefundReturned 400 |}.

(** The same callers and collaborators, later in the day. *)
Definition later : Env :=
  {| jwt_user := jwt_user env;
     valid_state_transition := valid_state_transition env;
     convert_to_ascii := convert_to_ascii env;
     get_expiry_days := get_expiry_days env;
     create_expiry_date := create_expiry_date env;
     clock := fun n => 9000 + Z.of_nat n;
     formal_nr_num := formal_nr_num env;
     full_access_to_name_request := full_access_to_name_request env;
     service_account_id := service_account_id env;
     uuid4 := "51d0a6b3";
     request_editable_states := request_editable_states env;
     contact_editable_states := contact_editable_states env;
     handle_nr_update := handle_nr_update env;
     get_payment := get_payment env;
     refund_payment := refund_payment env |}.

Definition blank_request (nr_num state : string) : Request :=
mkRequest nr_num state None None "N" None None None None None None None None [] [].

(** A draft with three refundable payments; the refund of the second raises. *)
Definition nr1 : Request :=
set_payments
  [Payment.mk "pay-0" "CREATED" None; Payment.mk "pay-a" "APPROVED" None;
   Payment.mk "pay-b" "COMPLETED" None; Payment.mk "pay-c" "PARTIAL" None]
  (blank_request "NR 0000001" "DRAFT").

(** The examiner's request in progress, checked out under [tok-A]; it was
  a draft before. *)
Definition nr2 : Request :=
set_names
  [Name.mk 1 (Some "ACME HOLDINGS LTD.") (Some "APPROVED") None None;
   Name.mk 2 (Some "ACME VENTURES LTD.") (Some "NE") None None]
  (set_checkedOutDt (Some 5)
     (set_checkedOutBy (Some "tok-A")
        (set_userId (Some 7)
           (set_previousStateCd (Some "DRAFT")
              (blank_request "NR 0000002" "INPROGRESS"))))).

(** A renewed draft: one of its payments is a REAPPLY. *)
Definition nr3 : Request :=
set_payments
  [Payment.mk "pay-d" "COMPLETED" (Some "REAPPLY"); Payment.mk "pay-e" "APPROVED" None]
  (blank_request "NR 0000003" "DRAFT").

(** A draft whose refunds all come back. *)
Definition nr4 : Request :=
set_payments
  [Payment.mk "pay-f" "APPROVED" None; Payment.mk "pay-g" "CREATED" None;
   Payment.mk "pay-h" "PARTIAL" None]
  (blank_request "NR 0000004" "DRAFT").

(** An approved request, furnished, with its expiration date. *)
Definition nr5 : Request :=
set_expirationDate (Some 777) (set_furnished "Y" (blank_request "NR 0000005" "APPROVED")).

(** A request that waits for its payment. *)
Definition nr6 : Request := blank_request "NR 0000006" "PENDING_PAYMENT".

Definition registry : World :=
mkWorld
  (mkTables
     (<[1 := nr1]> (<[2 := nr2]> (<[3 := nr3]> (<[4 := nr4]> (<[5 := nr5]> (<[6 := nr6]> ∅))))))
     [] [])
  [] [] [] [].

Definition no_fields : RequestData := mkRequestData Absent Absent Absent.

(** [{"state": st}] *)
Definition state_only (st : string) : RequestResource.Input :=
RequestResource.mkInput Absent (Value st) Absent Absent Absent Absent false.

(** [{"state": "CONSUMED", "corpNum": corp}] *)
Definition consume_with (corp : field string) : RequestResource.Input :=
RequestResource.mkInput Absent (Value "CONSUMED") Absent corp Absent Absent false.

(** [{"state": "DRAFT", "names": [{"name": "ACME HOLDINGS LTD.", "choice": 1}]}] *)
Definition replace_draft : RequestResource.Input :=
RequestResource.mkInput Absent (Value "DRAFT") Absent Absent Absent
  (Value [(Some "ACME HOLDINGS LTD.", 1)]) false.

(** [{"nrNum": nr_num, "paymentStatusCode": "COMPLETED"}] *)
Definition society_payment (nr_num : string) : PaymentSocieties.Input :=
PaymentSocieties.mkInput (Value nr_num) Absent Absent (Value "COMPLETED") Absent
  Absent Absent Absent Absent false.

End Examples.

(** ** Assertions on the runs of a handler *)

(** [triple P m Q E F]: from a state that satisfies [P], the step [m]
    yields a value [a] in a state that satisfies [Q a], or returns a
    response [r] in a state that satisfies [E r], or raises [e] in a state
    that satisfies [F e]. *)
Definition triple {A : Type} (P : St -> Prop) (m : M A)
    (Q : A -> St -> Prop) (E : Response -> St -> Prop)
    (F : Exn -> St -> Prop) : Prop :=
  forall s, P s ->
    match m s with
    | (Val a, s') => Q a s'
    | (Ret r, s') => E r s'
    | (Raise e, s') => F e s'
    end.

(** [m] keeps [I] as long as it goes on, and ensures [E] when it returns
    a response and [F] when it raises. *)
Definition keeps {A : Type} (I : St -> Prop) (m : M A)
    (E : Response -> St -> Prop) (F : Exn -> St -> Prop) : Prop :=
  triple I m (fun _ => I) E F.

(** [I] holds after [m], however [m] ends, when it held before. *)
Definition inv {A : Type} (I : St -> Prop) (m : M A) : Prop :=
  keeps I m (fun _ => I) (fun _ => I).

(** The row [k] is [X], in the session and in the database. *)
Definition untouched (k : Z) (X : option Request) (s : St) : Prop :=
  requests (sess s) !! k = X /\ requests (db (world s)) !! k = X.

(** The payment-society rows are [ps], in the session and in the
    database, and the calls received by the payment gateway and by the
    search index are [rc] and [sd]. *)
Definition bystanders (ps : list PaymentSociety) (rc sd : list string)
    (s : St) : Prop :=
  payment_societies (sess s) = ps
  /\ payment_societies (db (world s)) = ps
  /\ refund_calls (world s) = rc
  /\ solr_deleted (world s) = sd.

(** ** api/namex/resources/payment_societies.py: class [PaymentSocietiesSearch] *)

Module PaymentSocietiesSearch.

(** An entry of the transaction history: the payment-society row with its
    [id], which is its position in the table. *)
Record Transaction : Type := mkTransaction {
  tx_id : nat;
  tx_row : PaymentSociety
}.

(** The answer of GET: a message, or the history with its count. *)
Inductive Answer : Type :=
| Message (msg : string)
| History (count : nat) (transactions : list Transaction).

(** [PaymentSocietyDAO.query.filter_by(nrNum=nr).order_by('id').all()] *)
Definition filter_by_nrNum (nr : string) (t : Tables) : list Transaction :=
  List.filter (fun tx => String.eqb (ps_nrNum (tx_row tx)) nr)
    (imap mkTransaction (payment_societies t)).

(** The loop of [get]: each row is inserted at the head of the history. *)
Definition txn_history (results : list Transaction) : list Transaction :=
  fold_left (fun history tx => tx :: history) results [].

(** [PaymentSocietiesSearch.get(nr)]; it reads the database and writes
    nothing. *)
Definition get (nr : string) (w : World) : Z * Answer :=
  match nr_key nr (db w) with
  | None => (404, Message ("Request: " ++ nr ++ " not found in requests table"))
  | Some _ =>
      match head (filter_by_nrNum nr (db w)) with
      | None =>
          (404, Message ("Request: " ++ nr ++ " not found in payment_societies table"))
      | Some _ =>
          let payment_society_txn_history := txn_history (filter_by_nrNum nr (db w)) in
          if Nat.eqb (length payment_society_txn_history) 0
          then (404, Message ("No valid payment societies for " ++ nr ++ " found"))
          else (200, History (length payment_society_txn_history)
                       payment_society_txn_history)
      end
  end.

End PaymentSocietiesSearch.

(** ** name_request.py: class [NameRequestRollback] *)

Module NameRequestRollback.

Section Handlers.
Variable env : Env.

(** The values of the enumeration [NameRequestRollbackActions], which is
    declared in namex.constants. *)
Variable rollback_actions : list string.

(** [NameRequestRollbackActions.has_value(action)] *)
Definition has_value (action : string) : bool :=
  str_in action rollback_actions.

(** The local function [validate_patch_request] of [patch]. *)
Definition validate_patch_request (action : string) : bool * string :=
  if has_value action then (true, "") else (false, "Invalid rollback action").

(** The entity types for which [handle_patch_rollback] deletes the
    document of the request from the search index, as it lists them. *)
Definition solr_entity_types : list string :=
  ["CR"; "UL"; "BC"; "CP"; "PA"; "XCR"; "XUL"; "XCP"; "CC"; "FI"; "XCR"; "XUL"; "XCP"].

(** [handle_patch_rollback(nr_model, action)] *)
Definition handle_patch_rollback (data : RequestData) (nr_id : Z)
    (action : string) : M unit :=
  NameRequest.update_nr nr_id State.CANCELLED (NameRequest.handle_nr_patch data);;
  nr_model ← row nr_id;
  when (opt_in (entity_type_cd nr_model) solr_entity_types)
    (NameRequest.delete_solr_doc (nrNum nr_model));;
  record_event (user_id (jwt_user env)) (NameRequest.Event_PATCH ++ " [rollback]") nr_id.

(** [NameRequestRollback.patch(nr_id, action)]; the body of the call is
    the data of the update. *)
Definition patch_handler (nr_id : Z) (action : string)
    (request_json : option RequestData) : M Response :=
  if negb (full_access_to_name_request env)
  then respond 403 (Message "You do not have access to this NameRequest.")
  else
    nr_model ← row nr_id;
    let '(is_valid_patch, validation_msg) := validate_patch_request action in
    let validation_msg :=
      if negb (Nat.ltb 0 (String.length validation_msg))
      then validation_msg else "Invalid request for PATCH" in
    (if negb is_valid_patch
     then raise (InvalidInputError validation_msg) else mret tt);;
    data ← NameRequest.body_of request_json;
    handle_patch_rollback data nr_id action;;
    nr_model ← row nr_id;
    respond 200 (Entity nr_model).

Definition patch (nr_id : Z) (action : string)
    (request_json : option RequestData) (w : World) : Response * World :=
  run (patch_handler nr_id action request_json)
    (fun e => mkResponse 500 (Failure e)) w.

End Handlers.
End NameRequestRollback.

(** ** requests.py: class [Requests], the sort order of the list *)

(** [str.lower()] on the letters A-Z. *)
Definition lower_ascii (c : ascii) : ascii :=
  let n := nat_of_ascii c in
  if (Nat.leb 65 n && Nat.leb n 90)%bool then ascii_of_nat (n + 32) else c.

Fixpoint lower (s : string) : string :=
  match s with
  | EmptyString => EmptyString
  | String c rest => String (lower_ascii c) (lower rest)
  end.

(** [s.split(sep)] for a separator of one character: the pieces of [s]
    between the separators, of which there is always one. *)
Fixpoint split_on (sep : ascii) (s : string) : list string :=
  match s with
  | EmptyString => [EmptyString]
  | String c rest =>
      if Ascii.eqb c sep then EmptyString :: split_on sep rest
      else match split_on sep rest with
           | piece :: pieces => String c piece :: pieces
           | [] => [String c EmptyString]
           end
  end.

(** The number of occurrences of the character [c] in [s]. *)
Fixpoint count_char (c : ascii) (s : string) : nat :=
  match s with
  | EmptyString => 0
  | String x rest => (if Ascii.eqb x c then 1 else 0) + count_char c rest
  end.

Module RequestsList.

Section Order.
(** [inspect(RequestDAO).columns]: the attributes of the model, each with
    the text of its column. *)
Variable cols : list (string * string).

Definition col_keys : list string := map fst cols.

(** [cols[k]], for a key of [cols]. *)
Definition col (k : string) : string :=
  match List.find (fun kc => String.eqb (fst kc) k) cols with
  | Some kc => snd kc
  | None => ""
  end.

(** [get], lines 230-239: the loop over the items of [order].  Each item
    is unpacked into [k, v]; an item that does not split into two pieces
    at the colons makes the unpacking raise [ValueError], here [None]. *)
Fixpoint order_loop (items : list string) (sort_by order_list : string)
    : option (string * string) :=
  match items with
  | [] => Some (sort_by, order_list)
  | x :: rest =>
      match split_on ":" x with
      | [k; v] =>
          let vl := lower v in
          if str_in k col_keys && (String.eqb vl "asc" || String.eqb vl "desc")
          then
            let '(sort_by, order_list) :=
              if Nat.ltb 0 (String.length sort_by)
              then (sort_by ++ ", ", order_list ++ ", ")
              else (sort_by, order_list) in
            order_loop rest
              (sort_by ++ col k ++ " " ++ vl ++ " NULLS LAST")
              (order_list ++ k ++ " " ++ vl ++ " NULLS LAST")
          else order_loop rest sort_by order_list
      | _ => None
      end
  end.

(** [sort_by] and [order_list] for the parameter [order]. *)
Definition sort_order (order : string) : option (string * string) :=
  order_loop (split_on "," order) "" "".

(** *** Vocabulary of the statements about the sort order *)

(** An item [k:v] of the order, as the pair of its pieces. *)
Definition item_pair (x : string) : option (string * string) :=
  match split_on ":" x with
  | [k; v] => Some (k, v)
  | _ => None
  end.

(** An item that the loop takes: its attribute is one of the model and
    its direction, in lower case, is [asc] or [desc]. *)
Definition taken (kv : string * string) : bool :=
  str_in (fst kv) col_keys
  && (String.eqb (lower (snd kv)) "asc" || String.eqb (lower (snd kv)) "desc").

Definition sort_by_term (kv : string * string) : string :=
  col (fst kv) ++ " " ++ lower (snd kv) ++ " NULLS LAST".

Definition order_list_term (kv : string * string) : string :=
  fst kv ++ " " ++ lower (snd kv) ++ " NULLS LAST".

End Order.
End RequestsList.

(** ** requests.py: class [RequestSearch], the page of [post] *)

Module RequestSearch.

Section Page.
Context {A : Type}.

(** [r.update(additional_fields)]: a row with the actions of its request
    type. *)
Variable with_actions : A -> A.

(** [post], lines 717-735.  [matching] are the rows that the filters of
    the query leave, in the order in which the database gives them;
    [q.offset((page - 1) * limit).limit(limit + 1)] fetches the rows of
    the page and one more, whose presence is [hasMore]; the rows of the
    answer are [requests[:limit]].  It yields the rows and [hasMore]. *)
Definition page_of (matching : list A) (page limit : Z) : list A * bool :=
  let requests :=
    firstn (Z.to_nat (limit + 1))
      (skipn (Z.to_nat ((page - 1) * limit)) matching) in
  let has_more := Z.ltb limit (Z.of_nat (length requests)) in
  (map with_actions (firstn (Z.to_nat limit) requests), has_more).

End Page.
End RequestSearch.

(** ** services/emailer: namex_emailer/email_processors/name_request.py *)

Module NameRequestEmail.

(** The message of the queue, [email_info.data], with the keys that
    [process] reads; [None] is a key that is absent. *)
Record Header : Type := mkHeader {
  hd_nrNum : option string
}.

Record RequestPart : Type := mkRequestPart {
  rq_header : option Header;
  rq_paymentToken : option string
}.

Record Message : Type := mkMessage {
  msg_request : option RequestPart
}.

(** A payment of the request, as the API lists it. *)
Record PaymentEntry : Type := mkPaymentEntry {
  pe_id : Z;
  pe_token : string
}.

(** The name request, as the API gives it: the keys that [process]
    reads. *)
Record NrData : Type := mkNrData {
  nd_id : Z;
  nd_request_action_cd : string;
  nd_emailAddress : string
}.

Record Attachment : Type := mkAttachment {
  fileName : string;
  fileBytes : string;
  fileUrl : string;
  attachOrder : string
}.

Record Email : Type := mkEmail {
  recipients : string;
  requestBy : string;
  subject : string;
  body : string;
  attachments : list Attachment
}.

Section Processor.
(** [get_bearer_token()] *)
Variable get_bearer_token : option string.
(** [query_nr_number(nr_number)]: the status and the JSON of the answer *)
Variable query_nr_number : string -> Z * NrData.
(** GET [/payments/{nr_id}] *)
Variable get_nr_payments : Z -> Z * list PaymentEntry.
(** POST [/payments/{payment_id}/receipt]: the status and the content *)
Variable post_receipt : Z -> Z * string.
(** [base64.b64encode(content).decode('utf-8')] *)
Variable b64encode : string -> string.
(** The template of the request action, filled and rendered for the
    number of the request. *)
Variable render : string -> string -> string.

Definition HTTPStatus_OK : Z := 200.

(** [_get_pdfs], lines 86-89: the loop over the payments, which keeps the
    id of a payment that has the token and goes on. *)
Definition find_payment_id (payment_token : string)
    (payments : list PaymentEntry) : option Z :=
  fold_left
    (fun payment_id payment =>
       if String.eqb payment_token (pe_token payment)
       then Some (pe_id payment) else payment_id)
    payments None.

(** [_get_pdfs(nr_id, payment_token)] *)
Definition _get_pdfs (nr_id : Z) (payment_token : string) : list Attachment :=
  if negb (truthy get_bearer_token) || Z.eqb nr_id 0 || String.eqb payment_token ""
  then []
  else
    let nr_payments := get_nr_payments nr_id in
    if negb (Z.eqb (fst nr_payments) HTTPStatus_OK) then []
    else
      match find_payment_id payment_token (snd nr_payments) with
      | None => []
      | Some payment_id =>
          if Z.eqb payment_id 0 then []
          else
            let receipt := post_receipt payment_id in
            if negb (Z.eqb (fst receipt) HTTPStatus_OK) then []
            else [ {| fileName := "Receipt.pdf";
                      fileBytes := b64encode (snd receipt);
                      fileUrl := "";
                      attachOrder := "1" |} ]
      end.

(** [email_info.data.get('request', {}).get('header', {}).get('nrNum', '')] *)
Definition nrNum_of (email_info : Message) : string :=
  match msg_request email_info with
  | Some request =>
      match rq_header request with
      | Some header => default "" (hd_nrNum header)
      | None => ""
      end
  | None => ""
  end.

(** [email_info.data.get('request', {}).get('paymentToken', '')] *)
Definition paymentToken_of (email_info : Message) : string :=
  match msg_request email_info with
  | Some request => default "" (rq_paymentToken request)
  | None => ""
  end.

(** [process(email_info)]; the empty dict is [None]. *)
Definition process (email_info : Message) : option Email :=
  let nr_number := nrNum_of email_info in
  let payment_token := paymentToken_of email_info in
  let nr_response := query_nr_number nr_number in
  if negb (Z.eqb (fst nr_response) HTTPStatus_OK) then None
  else
    let nr_data := snd nr_response in
    let html_out := render (nd_request_action_cd nr_data) nr_number in
    let pdfs := _get_pdfs (nd_id nr_data) payment_token in
    match pdfs with
    | [] => None
    | _ =>
        let recipients := nd_emailAddress nr_data in
        if String.eqb recipients "" then None
        else Some {| recipients := recipients;
                     requestBy := "BCRegistries@gov.bc.ca";
                     subject := nr_number ++ " - Receipt from Corporate Registry";
                     body := html_out;
                     attachments := pdfs |}
    end.

End Processor.
End NameRequestEmail.

(** ** More to run the handlers on *)

Module Scenarios.

(** [{"state": "INPROGRESS", "previousStateCd": "DRAFT"}] *)
Definition take_up : RequestResource.Input :=
  RequestResource.mkInput Absent (Value "INPROGRESS") (Value "DRAFT") Absent Absent Absent
    false.

(** [{"previousStateCd": null, "comments": [{"comment": "seen"}]}] *)
Definition forget_previous : RequestResource.Input :=
  RequestResource.mkInput Absent Absent Null Absent
    (Value [RequestResource.mkCommentInput Absent (Value "seen")]) Absent false.

(** The empty object, and an object with a key that the handlers do not
    read: [{}] and [{"priorityCd": "Y"}]. *)
Definition empty_body : RequestResource.Input :=
  RequestResource.mkInput Absent Absent Absent Absent Absent Absent false.

Definition unread_key : RequestResource.Input :=
  RequestResource.mkInput Absent Absent Absent Absent Absent Absent true.

(** [{"state": "DRAFT", "names": [{"name": "ACME HOLDINGS LTD.",
    "choice": 1}, {"name": "ACME GROUP LTD.", "choice": 3}]}] *)
Definition third_without_second : RequestResource.Input :=
  RequestResource.mkInput Absent (Value "DRAFT") Absent Absent Absent
    (Value [(Some "ACME HOLDINGS LTD.", 1); (Some "ACME GROUP LTD.", 3)]) false.

(** [{}] and [{"corpNum": "S0012345"}], as bodies of a payment. *)
Definition empty_payment : PaymentSocieties.Input :=
  PaymentSocieties.mkInput Absent Absent Absent Absent Absent Absent Absent Absent Absent
    false.

Definition payment_without_number : PaymentSocieties.Input :=
  PaymentSocieties.mkInput Absent (Value "S0012345") Absent Absent Absent Absent Absent
    Absent Absent false.

(** An enumeration of rollback actions with the one action [cancel]. *)
Definition rollback_actions : list string := ["cancel"].

(** The attributes of the model by which the list is sorted. *)
Definition cols : list (string * string) :=
  [("submittedDate", "requests.submitted_date"); ("stateCd", "requests.state_cd")].

(** The emailer's collaborators: the API knows NR 0000001, which has
    two payments under the token [tok-1]; every receipt is there. *)
Definition query_nr_number (nr : string) : Z * NameRequestEmail.NrData :=
  if String.eqb nr "NR 0000001"
  then (200, NameRequestEmail.mkNrData 1 "NEW" "applicant@example.com")
  else (404, NameRequestEmail.mkNrData 0 "" "").

Definition get_nr_payments (nr_id : Z) : Z * list NameRequestEmail.PaymentEntry :=
  (200, [NameRequestEmail.mkPaymentEntry 11 "tok-1";
         NameRequestEmail.mkPaymentEntry 12 "tok-2";
         NameRequestEmail.mkPaymentEntry 13 "tok-1"]).

Definition post_receipt (payment_id : Z) : Z * string :=
  (200, if Z.eqb payment_id 13 then "receipt-13" else "receipt").

Definition paid : NameRequestEmail.Message :=
  NameRequestEmail.mkMessage
    (Some (NameRequestEmail.mkRequestPart
             (Some (NameRequestEmail.mkHeader (Some "NR 0000001"))) (Some "tok-1"))).

End Scenarios.

(** * Properties of the handlers *)

Open Scope list_scope.

(** Running a handler on a known state: the glue of the monad is unfolded,
    then the projections of the states that have become explicit. *)
Ltac exec :=
  lazy beta iota zeta delta
    [mbind M_bind bind mret M_ret ret update_row get_row row save_to_db
     when make_response respond raise try_except find_by_nr
     get_inprogress record_event publish_email_notification utcnow run
     default from_option id set_sess set_world set_requests];
  cbn [negb andb orb sess world ticks requests comments
       payment_societies db events notifications refund_calls solr_deleted
       fst snd].

Tactic Notation "exec" "in" hyp(H) :=
  lazy beta iota zeta delta
    [mbind M_bind bind mret M_ret ret update_row get_row row save_to_db
     when make_response respond raise try_except find_by_nr
     get_inprogress record_event publish_email_notification utcnow run
     default from_option id set_sess set_world set_requests] in H;
  cbn [negb andb orb sess world ticks requests comments
       payment_societies db events notifications refund_calls solr_deleted
       fst snd] in H.

(** Reading a field of a row that was written by setters. *)
Ltac fields :=
  cbn [nrNum stateCd previousStateCd userId furnished expirationDate
       hasBeenReset consentFlag checkedOutBy checkedOutDt entity_type_cd
       request_action_cd requestTypeCd names payments
       set_nrNum set_stateCd set_previousStateCd set_userId set_furnished
       set_expirationDate set_hasBeenReset set_consentFlag set_checkedOutBy
       set_checkedOutDt set_names set_payments].

(** Looking up the row that was just altered, [H] being what the table
    held for it. *)
Ltac rows H :=
  rewrite ?lookup_alter_eq, ?H; cbn [fmap option_fmap option_map].

(** The premises of a case of a statement, dropping the case when one of
    them is absurd. *)
Ltac premises :=
  let H1 := fresh in
  let H2 := fresh in
  intro H1; try discriminate H1; try (intro H2; try discriminate H2).

Lemma find_row_Some p (t : gmap Z Request) k :
  find_row p t = Some k -> exists r, t !! k = Some r /\ p r = true.
Proof.
  unfold find_row. destruct (List.find _ _) as [[k' r]|] eqn:E; [|discriminate].
  intros [= <-]. apply find_some in E as [Hin Hp].
  exists r. split; [|exact Hp].
  apply elem_of_map_to_list. apply list_elem_of_In. exact Hin.
Qed.

Lemma kept_refl r : kept r r.
Proof. reflexivity. Qed.

Lemma kept_fields r r' :
  kept r r' ->
  nrNum r' = nrNum r /\ furnished r' = furnished r
  /\ expirationDate r' = expirationDate r /\ names r' = names r
  /\ request_action_cd r' = request_action_cd r
  /\ requestTypeCd r' = requestTypeCd r
  /\ payments r' = payments r.
Proof.
  unfold kept, core. intros H.
  injection H as -> -> -> _ _ _ -> -> -> ->. auto 10.
Qed.

Lemma rows_kept_refl m : rows_kept m m.
Proof. intros k r H. exists r. split; [exact H|apply kept_refl]. Qed.

Lemma rows_kept_alter f k m :
  (forall r, kept r (f r)) -> rows_kept m (alter f k m).
Proof.
  intros Hf j r H. rewrite lookup_alter. case_decide.
  - subst j. rewrite H. exists (f r). split; [reflexivity|apply Hf].
  - exists r. split; [exact H|apply kept_refl].
Qed.

(** A body that gives a state, or the number of a request, has a key: it
    is not the empty object. *)
Lemma state_given j st :
  get (RequestResource.in_state j) None = Some st -> RequestResource.is_empty j = false.
Proof.
  unfold RequestResource.is_empty.
  destruct (RequestResource.in_state j); try discriminate.
  intros _. cbn. rewrite orb_true_r. reflexivity.
Qed.

Lemma society_nrNum_given j nr_num :
  get (PaymentSocieties.in_nrNum j) None = Some nr_num ->
  PaymentSocieties.is_empty j = false.
Proof.
  unfold PaymentSocieties.is_empty.
  destruct (PaymentSocieties.in_nrNum j); try discriminate.
  intros _. reflexivity.
Qed.

(** The test of the body, for a body that is known to have a key. *)
Ltac given :=
  match goal with
  | H : RequestResource.is_empty ?j = false |- _ => rewrite H
  | H : PaymentSocieties.is_empty ?j = false |- _ => rewrite H
  | H : get (RequestResource.in_state ?j) None = Some _ |- _ =>
      rewrite (state_given j _ H)
  | H : get (PaymentSocieties.in_nrNum ?j) None = Some _ |- _ =>
      rewrite (society_nrNum_given j _ H)
  end.

(** ** requests.py *)

Module RequestFacts.
Import RequestResource.

Section Facts.
Variable env : Env.

(** The user's request in progress, if [get_inprogress] finds one, is one
    of the user's and is in progress. *)
Lemma inprogress_key_sound user t k :
  inprogress_key user t = Some k ->
  exists r, requests t !! k = Some r
            /\ userId r = Some (user_id user) /\ stateCd r = State.INPROGRESS.
Proof.
  intros H. apply find_row_Some in H as (r & Hr & Hp).
  exists r. split; [exact Hr|].
  unfold is_inprogress_of in Hp. apply andb_true_iff in Hp as [Hu Hs].
  split; [apply bool_decide_eq_true_1 in Hu; exact Hu|apply String.eqb_eq; exact Hs].
Qed.

Lemma add_new_comments_ok user k cs rq cm ps w n :
  forallb comment_ok cs = true ->
  exists cm', add_new_comments env user k cs (mkSt (mkTables rq cm ps) w n)
              = (Val tt, mkSt (mkTables rq cm' ps) w n).
Proof.
  revert cm. induction cs as [|c cs IH]; intros cm H.
  - exists cm. reflexivity.
  - cbn in H. apply andb_true_iff in H as [Hc Hcs].
    unfold comment_ok in Hc. cbn [add_new_comments]. exec.
    destruct (is_new_comment c); cbn in Hc |- *.
    + destruct (ci_comment c); try discriminate; exec.
      * apply IH; assumption.
      * unfold add_comment. exec. apply IH; assumption.
    + apply IH; assumption.
Qed.

(** What [patch] does to the request it demotes. *)
Lemma revert_existing_state r :
  if truthy (previousStateCd r)
  then previousStateCd r = Some (stateCd (revert_existing r))
       /\ previousStateCd (revert_existing r) = None
  else stateCd (revert_existing r) = State.HOLD
       /\ previousStateCd (revert_existing r) = previousStateCd r.
Proof.
  unfold revert_existing. destruct (previousStateCd r) as [s|] eqn:E; cbn.
  - destruct (String.eqb s ""); cbn; rewrite ?E; auto.
  - rewrite E. auto.
Qed.

Lemma revert_existing_kept r : kept r (revert_existing r).
Proof. unfold revert_existing. destruct (truthy _); reflexivity. Qed.

Lemma patch_demote_runs user rq cm ps w n :
  exists rq' w',
    patch_demote_inprogress user (mkSt (mkTables rq cm ps) w n)
    = (Val tt, mkSt (mkTables rq' cm ps) w' n)
    /\ rows_kept rq rq'
    /\ events w' = events w
    /\ notifications w' = notifications w
    /\ (db w' = db w \/ db w' = mkTables rq' cm ps).
Proof.
  unfold patch_demote_inprogress. exec.
  destruct (inprogress_key user _) as [k0|].
  - exec. eexists _, _. split; [reflexivity|]. cbn.
    split; [|auto]. apply rows_kept_alter, revert_existing_kept.
  - exists rq, w. split; [reflexivity|]. split; [apply rows_kept_refl|auto].
Qed.

(** The demotion of [patch], lines 841-849: the request that the user has
    in progress goes back to its previous state when it has a non-empty
    one, which is then cleared, and to HOLD otherwise; the change is
    committed at once. *)
Lemma patch_demote_reverts user rq cm ps w n k0 r0 :
  inprogress_key user (mkTables rq cm ps) = Some k0 ->
  rq !! k0 = Some r0 ->
  exists rq' w',
    patch_demote_inprogress user (mkSt (mkTables rq cm ps) w n)
    = (Val tt, mkSt (mkTables rq' cm ps) w' n)
    /\ db w' = mkTables rq' cm ps
    /\ rq' !! k0 = Some (revert_existing r0)
    /\ (if truthy (previousStateCd r0)
        then previousStateCd r0 = Some (stateCd (revert_existing r0))
        else stateCd (revert_existing r0) = State.HOLD).
Proof.
  intros Hk Hr. unfold patch_demote_inprogress. exec. rewrite Hk. exec.
  eexists _, _. split; [reflexivity|]. cbn. split; [reflexivity|].
  rewrite lookup_alter_eq, Hr. split; [reflexivity|].
  pose proof (revert_existing_state r0) as H.
  destruct (truthy (previousStateCd r0)); tauto.
Qed.

(** The STATE block of [patch] on a permitted change to a state other than
    INPROGRESS: it ends normally, the request has the new state and its
    core, and what was committed on the way kept every row's core. *)
Lemma patch_state_runs k r st j rq cm ps w n :
  rq !! k = Some r ->
  str_in st State.VALID_STATES = true ->
  st <> State.INPROGRESS ->
  valid_state_transition env (jwt_user env) r st = true ->
  comments_ok j = true ->
  exists rq' cm' w' r1,
    patch_state env (jwt_user env) k (stateCd r) j st (mkSt (mkTables rq cm ps) w n)
    = (Val tt, mkSt (mkTables rq' cm' ps) w' n)
    /\ rq' !! k = Some r1 /\ stateCd r1 = st /\ kept r r1
    /\ events w' = events w
    /\ notifications w' = notifications w
    /\ (db w' = db w
        \/ exists rq0, db w' = mkTables rq0 cm ps /\ rows_kept rq rq0).
Proof.
  intros Hr Hvs Hne Hv Hc.
  unfold patch_state. rewrite Hvs. exec. rewrite Hr. exec. rewrite Hv. exec.
  destruct (patch_demote_runs (jwt_user env) rq cm ps w n)
    as (rq0 & w0 & E & Hk & He & Hn & Hd).
  rewrite E. exec.
  destruct (Hk k r Hr) as (r0 & Hr0 & K0).
  assert (Hni : String.eqb st State.INPROGRESS = false)
    by (apply String.eqb_neq; exact Hne).
  rewrite Hni, andb_false_r. exec.
  assert (Hdb : db w0 = db w
                \/ exists rq1, db w0 = mkTables rq1 cm ps /\ rows_kept rq rq1).
  { destruct Hd as [Hd|Hd]; [left; exact Hd|right; exists rq0; auto]. }
  assert (Hcm : forall rqx, exists cm',
             match get (in_comments j) None with
             | Some (c :: cs) => add_new_comments env (jwt_user env) k (c :: cs)
             | _ => mret tt
             end (mkSt (mkTables rqx cm ps) w0 n)
             = (Val tt, mkSt (mkTables rqx cm' ps) w0 n)).
  { intros rqx. unfold comments_ok in Hc.
    destruct (get (in_comments j) None) as [[|c cs]|].
    - exists cm. reflexivity.
    - apply add_new_comments_ok. exact Hc.
    - exists cm. reflexivity. }
  exec in Hcm.
  destruct (str_in st (State.COMPLETED_STATE ++ [State.CANCELLED])).
  - exec. rows Hr0. exec. fields.
    destruct (String.eqb st State.CONDITIONAL && bool_decide (consentFlag r0 = None)).
    + exec.
      match goal with |- context [mkSt (mkTables ?m cm ps) w0 n] =>
        destruct (Hcm m) as (cm' & Ec); rewrite Ec; exists m, cm', w0 end.
      eexists. split; [reflexivity|]. rows Hr0.
      split; [reflexivity|]. split; [reflexivity|]. split; [exact K0|auto].
    + exec.
      match goal with |- context [mkSt (mkTables ?m cm ps) w0 n] =>
        destruct (Hcm m) as (cm' & Ec); rewrite Ec; exists m, cm', w0 end.
      eexists. split; [reflexivity|]. rows Hr0.
      split; [reflexivity|]. split; [reflexivity|]. split; [exact K0|auto].
  - exec.
    match goal with |- context [mkSt (mkTables ?m cm ps) w0 n] =>
      destruct (Hcm m) as (cm' & Ec); rewrite Ec; exists m, cm', w0 end.
    eexists. split; [reflexivity|]. rows Hr0.
    split; [reflexivity|]. split; [reflexivity|]. split; [exact K0|auto].
Qed.

(** C6.  A PATCH that puts an existing request into APPROVED, REJECTED or
    CONDITIONAL (the change is permitted and the comments of the body are
    readable) succeeds and leaves the request in that state; when the request
    was not furnished ([furnished = 'N']) and had no expiration date, it is
    now furnished ([furnished = 'Y']) and has the expiration date computed
    from the clock; when it had an expiration date already, or its furnished
    flag was not ['N'], its expiration date is what it was.  So a second such
    PATCH does not move the date. *)
Theorem patch_decision_expiration nr j w k r st :
  nr_key (replace_percent20 nr) (db w) = Some k ->
  requests (db w) !! k = Some r ->
  get (in_state j) None = Some st ->
  In st decision_states ->
  valid_state_transition env (jwt_user env) r st = true ->
  comments_ok j = true ->
  let res := patch env nr (Some j) w in
  status (fst res) = 200
  /\ exists r',
      requests (db (snd res)) !! k = Some r'
      /\ stateCd r' = st
      /\ (furnished r = "N" -> expirationDate r = None ->
          furnished r' = "Y"
          /\ expirationDate r'
             = Some (create_expiry_date env (clock env 0)
                       (get_expiry_days env (request_action_cd r) (requestTypeCd r))))
      /\ (expirationDate r <> None \/ furnished r <> "N" ->
          expirationDate r' = expirationDate r).
Proof.
  intros Hk Hr Hst Hin Hv Hc res. subst res.
  destruct w as [[rq cm ps] ev nt rc sd]. cbn in Hk, Hr.
  assert (Hfacts : truthy (Some st) = true
                   /\ str_in st State.VALID_STATES = true
                   /\ st <> State.INPROGRESS
                   /\ str_in st [State.APPROVED; State.REJECTED; State.CONDITIONAL] = true
                   /\ bool_decide (Some st = Some State.CONSUMED) = false
                   /\ opt_in (Some st) [State.APPROVED; State.CONDITIONAL; State.REJECTED]
                      = true).
  { destruct Hin as [<-|[<-|[<-|[]]]]; repeat apply conj; try reflexivity; discriminate. }
  destruct Hfacts as (Ht & Hvs & Hni & Hdec & Hcons & Hpub).
  unfold patch, patch_handler. exec. given. exec. rewrite Hk. exec. rewrite Hr. exec.
  rewrite Hst, Ht, Hcons. exec.
  destruct (patch_state_runs k r st j rq cm ps
              (mkWorld (mkTables rq cm ps) ev nt rc sd) 0%nat Hr Hvs Hni Hv Hc)
    as (rq1 & cm1 & w1 & r1 & E & Hr1 & Hs1 & K1 & _).
  rewrite E. exec.
  destruct (kept_fields _ _ K1) as (F1 & F2 & F3 & F4 & F5 & F6 & F7).
  unfold patch_expiration.
  destruct (has_key (in_previousStateCd j)); exec; rows Hr1; exec; fields;
    rewrite Hs1, Hdec, F2, F3; cbn [andb];
    destruct (String.eqb (furnished r) "N") eqn:Ef;
    destruct (bool_decide (expirationDate r = None)) eqn:Ee;
    exec; rows Hr1; exec; fields; rewrite ?Hpub; exec;
    (split; [reflexivity|]);
    rows Hr1; (eexists; split; [reflexivity|]); fields;
    (split; [exact Hs1|]);
    apply String.eqb_eq in Ef || apply String.eqb_neq in Ef;
    apply bool_decide_eq_true_1 in Ee || apply bool_decide_eq_false_1 in Ee;
    rewrite ?F5, ?F6;
    (split; [intros; try congruence; auto | intros [?|?]; try congruence; auto]).
Qed.

(** The loop of [consumeName] ends normally; it consumes the approved and
    the conditional names and tells whether there was one. *)
Lemma consume_names_runs corp ns :
  forall t w n,
    exists ns' n',
      consume_names env corp ns (mkSt t w n)
      = (Val (ns', existsb consumable ns), mkSt t w n')
      /\ Forall2 (consumed_as corp) ns ns'
      /\ (existsb consumable ns = false -> ns' = ns).
Proof.
  induction ns as [|a ns IH]; intros t w n.
  - exists [], n. repeat apply conj; [reflexivity|constructor|reflexivity].
  - cbn [consume_names existsb]. unfold consumable at 1.
    destruct (opt_in (Name.state a) [Name.APPROVED; Name.CONDITION]) eqn:Ea.
    + exec. destruct (IH t w (S n)) as (ns' & n' & E & F & _).
      rewrite E. exec. eexists _, n'. repeat apply conj.
      * reflexivity.
      * constructor; [|exact F]. unfold consumed_as, consumable. rewrite Ea.
        cbn. repeat split; discriminate.
      * unfold consumable at 1. rewrite Ea. discriminate.
    + exec. destruct (IH t w n) as (ns' & n' & E & F & G).
      rewrite E. exec. eexists _, n'. repeat apply conj.
      * reflexivity.
      * constructor; [|exact F]. unfold consumed_as, consumable. rewrite Ea.
        repeat split.
      * unfold consumable at 1. rewrite Ea. intros H. rewrite (G H). reflexivity.
Qed.

Lemma names_untouched_of rq cm ps ev nt rc sd w1 :
  (db w1 = mkTables rq cm ps
   \/ exists rq0, db w1 = mkTables rq0 cm ps /\ rows_kept rq rq0) ->
  names_untouched (mkWorld (mkTables rq cm ps) ev nt rc sd) w1.
Proof.
  intros [H|(rq0 & H & K)] k r Hr; rewrite H; cbn in Hr |- *.
  - exists r. auto.
  - destruct (K k r Hr) as (r' & Hr' & Kr). exists r'. split; [exact Hr'|].
    apply kept_fields in Kr. tauto.
Qed.

(** After [consumeName], a name choice that is approved or conditional
    has a consumption date and the corp number that was given. *)
Lemma consumed_names_have_corp corp ns ns' :
  Forall2 (consumed_as corp) ns ns' ->
  forall n', In n' ns' -> consumable n' = true ->
    Name.consumptionDate n' <> None /\ Name.corpNum n' = corp.
Proof.
  induction 1 as [|n n1 ns ns' Hn _ IH]; intros n' Hin Hc; [destruct Hin|].
  destruct Hin as [<-|Hin]; [|apply IH; assumption].
  destruct Hn as (_ & _ & Hs & Hn). unfold consumable in *.
  rewrite Hs in Hc. rewrite Hc in Hn. exact Hn.
Qed.

(** C7.  A PATCH that sets the state of an existing request to CONSUMED
    (the change is permitted and the comments of the body are readable):
    when the body has no corp number, or an empty one, it answers 406 with
    the message that the corp number is required, and no request has a name
    choice changed; when it has one and no name choice of the request is
    approved or conditional, it answers 406 with the message that no such
    name was found, and again no name choice is changed; when it has one and
    such a name exists, it succeeds and, of the name choices of the request
    in the database, each one that was approved or conditional has a
    consumption date (it is not null) and, as its corp number, the corp
    number of the body, while each other one has the consumption date and
    the corp number that it had; choice, name and state are those that
    they were, so that every approved or conditional name choice of the
    request has a consumption date and the corp number of the body. *)
Theorem patch_consume nr j w k r :
  nr_key (replace_percent20 nr) (db w) = Some k ->
  requests (db w) !! k = Some r ->
  get (in_state j) None = Some State.CONSUMED ->
  valid_state_transition env (jwt_user env) r State.CONSUMED = true ->
  comments_ok j = true ->
  let corp := get (in_corpNum j) None in
  let res := patch env nr (Some j) w in
  (truthy corp = false ->
   fst res = mkResponse 406 (Message corpNum_required)
   /\ names_untouched w (snd res))
  /\ (truthy corp = true -> existsb consumable (names r) = false ->
      fst res = mkResponse 406
                  (Message "Cannot find an Approved or Condition name to be consumed.")
      /\ names_untouched w (snd res))
  /\ (truthy corp = true -> existsb consumable (names r) = true ->
      status (fst res) = 200
      /\ exists r', requests (db (snd res)) !! k = Some r'
                    /\ Forall2 (consumed_as corp) (names r) (names r')
                    /\ (forall n', In n' (names r') ->
                          opt_in (Name.state n') [Name.APPROVED; Name.CONDITION] = true ->
                          Name.consumptionDate n' <> None
                          /\ Name.corpNum n' = get (in_corpNum j) None)).
Proof.
  intros Hk Hr Hst Hv Hc corp res. subst res corp.
  destruct w as [[rq cm ps] ev nt rc sd]. cbn in Hk, Hr.
  unfold patch, patch_handler. exec. given. exec. rewrite Hk. exec. rewrite Hr. exec.
  rewrite Hst.
  change (truthy (Some State.CONSUMED)) with true.
  rewrite bool_decide_eq_true_2 by reflexivity. exec.
  destruct (patch_state_runs k r State.CONSUMED j rq cm ps
              (mkWorld (mkTables rq cm ps) ev nt rc sd) 0%nat Hr eq_refl
              ltac:(discriminate) Hv Hc)
    as (rq1 & cm1 & w1 & r1 & E & Hr1 & Hs1 & K1 & He1 & Hn1 & Hd1).
  rewrite E. exec.
  destruct (kept_fields _ _ K1) as (F1 & F2 & F3 & F4 & F5 & F6 & F7).
  pose proof (names_untouched_of rq cm ps ev nt rc sd w1 Hd1) as Hun.
  unfold patch_expiration, consumeName.
  destruct (has_key (in_previousStateCd j)); exec; rows Hr1; exec; fields;
    rewrite Hs1;
    change (str_in State.CONSUMED [State.APPROVED; State.REJECTED; State.CONDITIONAL])
      with false;
    exec.
  all: destruct (truthy (get (in_corpNum j) None)) eqn:Et; exec.
  all: try (repeat apply conj; premises;
            split; [reflexivity|exact Hun]).
  all: rows Hr1; exec; fields; rewrite F4;
    match goal with |- context [consume_names env ?c ?ns (mkSt ?t ?w ?n)] =>
      destruct (consume_names_runs c ns t w n) as (ns' & n' & Ec & Hf & Hsame);
      rewrite Ec
    end;
    exec;
    destruct (existsb consumable (names r)) eqn:Ex; exec;
    rows Hr1; exec;
    change (opt_in (Some State.CONSUMED)
              [State.APPROVED; State.CONDITIONAL; State.REJECTED]) with false;
    exec;
    repeat apply conj; premises.
  all: try (split; [reflexivity|exact Hun]).
  all: split; [reflexivity|];
    rows Hr1; eexists; (split; [reflexivity|]); fields;
    (split; [exact Hf|exact (consumed_names_have_corp _ _ _ Hf)]).
Qed.

(** [put], whatever the body, once it is past its checks: the request that
    the caller has in progress is on HOLD in the database, its previous
    state ignored and kept. *)
Lemma put_holds_inprogress nr j w k0 r0 :
  fst (put env nr (Some j) w) = None ->
  inprogress_key (jwt_user env) (db w) = Some k0 ->
  requests (db w) !! k0 = Some r0 ->
  requests (db (snd (put env nr (Some j) w))) !! k0
  = Some (set_stateCd State.HOLD r0).
Proof.
  destruct w as [[rq cm ps] ev nt rc sd]. intros Hgo Hk0 Hr0. cbn in Hk0, Hr0.
  revert Hgo. unfold put, put_until_demotion.
  destruct (is_empty j); [discriminate|].
  destruct (truthy (get (in_nrNum j) None) && _); [discriminate|].
  destruct (negb (truthy (get (in_state j) None))); [discriminate|].
  destruct (negb (opt_in (get (in_state j) None) State.VALID_STATES)); [discriminate|].
  exec. destruct (nr_key nr _) as [k|]; [|discriminate].
  exec. destruct (rq !! k) as [r|]; [|discriminate].
  exec. destruct (negb (valid_state_transition env _ _ _)); [discriminate|].
  destruct (get (in_names j) None) as [ns|]; [|discriminate].
  destruct (negb (name_choice_exists ns 1)); [discriminate|].
  destruct (negb (name_choice_exists ns 2) && name_choice_exists ns 3); [discriminate|].
  unfold put_demote_inprogress. exec. rewrite Hk0. exec.
  intros _. rewrite lookup_alter_eq, Hr0. reflexivity.
Qed.

End Facts.

(** On the registry: the examiner approves the draft NR 0000003, which is
    then furnished and expires 56 days after the clock's reading; approving
    it again later, or approving NR 0000005 once more, leaves the date where
    it was. *)
Lemma patch_decision_expiration_witness :
  (status (fst (patch Examples.env "NR%200000003"
                  (Some (Examples.state_only "APPROVED")) Examples.registry)) = 200
   /\ exists r',
       requests (db (snd (patch Examples.env "NR%200000003"
                            (Some (Examples.state_only "APPROVED")) Examples.registry)))
         !! 3 = Some r'
       /\ stateCd r' = "APPROVED" /\ furnished r' = "Y"
       /\ expirationDate r' = Some (1000 + 56 * 86400))
  /\ (exists r',
       requests
         (db (snd (patch Examples.later "NR 0000003"
                     (Some (Examples.state_only "APPROVED"))
                     (snd (patch Examples.env "NR%200000003"
                             (Some (Examples.state_only "APPROVED"))
                             Examples.registry)))))
         !! 3 = Some r'
       /\ expirationDate r' = Some (1000 + 56 * 86400))
  /\ (exists r',
       requests (db (snd (patch Examples.env "NR 0000005"
                            (Some (Examples.state_only "APPROVED")) Examples.registry)))
         !! 5 = Some r'
       /\ expirationDate r' = Some 777).
Proof.
  repeat apply conj.
  - destruct (patch_decision_expiration Examples.env "NR%200000003"
                (Examples.state_only "APPROVED") Examples.registry 3 Examples.nr3
                "APPROVED")
      as (Hs & r' & Hr' & Hst & Hfirst & _).
    + vm_compute. reflexivity.
    + vm_compute. reflexivity.
    + reflexivity.
    + left. reflexivity.
    + reflexivity.
    + reflexivity.
    + exact Hs.
  - destruct (patch_decision_expiration Examples.env "NR%200000003"
                (Examples.state_only "APPROVED") Examples.registry 3 Examples.nr3
                "APPROVED")
      as (Hs & r' & Hr' & Hst & Hfirst & _).
    + vm_compute. reflexivity.
    + vm_compute. reflexivity.
    + reflexivity.
    + left. reflexivity.
    + reflexivity.
    + reflexivity.
    + exists r'. split; [exact Hr'|]. split; [exact Hst|].
      apply Hfirst; reflexivity.
  - destruct (patch_decision_expiration Examples.later "NR 0000003"
                (Examples.state_only "APPROVED")
                (snd (patch Examples.env "NR%200000003"
                        (Some (Examples.state_only "APPROVED")) Examples.registry))
                3
                (set_furnished "Y"
                   (set_expirationDate (Some (1000 + 56 * 86400))
                      (set_hasBeenReset (Some false)
                         (set_userId (Some 7) (set_stateCd "APPROVED" Examples.nr3)))))
                "APPROVED")
      as (_ & r' & Hr' & _ & _ & Hsecond).
    + vm_compute. reflexivity.
    + vm_compute. reflexivity.
    + reflexivity.
    + left. reflexivity.
    + reflexivity.
    + reflexivity.
    + exists r'. split; [exact Hr'|]. rewrite Hsecond; [reflexivity|].
      left. discriminate.
  - destruct (patch_decision_expiration Examples.env "NR 0000005"
                (Examples.state_only "APPROVED") Examples.registry 5 Examples.nr5
                "APPROVED")
      as (_ & r' & Hr' & _ & _ & Hsecond).
    + vm_compute. reflexivity.
    + vm_compute. reflexivity.
    + reflexivity.
    + left. reflexivity.
    + reflexivity.
    + reflexivity.
    + exists r'. split; [exact Hr'|]. rewrite Hsecond; [reflexivity|].
      left. discriminate.
Defined.

(** On the registry: the PATCH of another request takes the examiner's
    NR 0000002 back to DRAFT, its previous state. *)
Lemma patch_demote_reverts_witness :
  exists rq' w',
    patch_demote_inprogress (jwt_user Examples.env)
      (mkSt (mkTables (requests (db Examples.registry)) [] []) Examples.registry 0)
    = (Val tt, mkSt (mkTables rq' [] []) w' 0)
    /\ db w' = mkTables rq' [] []
    /\ rq' !! 2 = Some (set_previousStateCd None (set_stateCd "DRAFT" Examples.nr2)).
Proof.
  destruct (patch_demote_reverts (jwt_user Examples.env)
              (requests (db Examples.registry)) [] [] Examples.registry 0%nat
              2 Examples.nr2)
    as (rq' & w' & E & Hd & Hr & _).
  - vm_compute. reflexivity.
  - vm_compute. reflexivity.
  - exists rq', w'. split; [exact E|]. split; [exact Hd|exact Hr].
Defined.

(** On the registry: consuming NR 0000002 for BC1234567 consumes its
    approved first choice, which gets the date of the call and the corp
    number, and leaves the second, which is not examined; without a corp
    number the PATCH answers 406. *)
Lemma patch_consume_witness :
  (status (fst (patch Examples.env "NR 0000002"
                  (Some (Examples.consume_with (Value "BC1234567"))) Examples.registry))
   = 200
   /\ exists r',
       requests (db (snd (patch Examples.env "NR 0000002"
                            (Some (Examples.consume_with (Value "BC1234567")))
                            Examples.registry))) !! 2 = Some r'
       /\ Forall2 (consumed_as (Some "BC1234567")) (names Examples.nr2) (names r')
       /\ forall n', In n' (names r') ->
            opt_in (Name.state n') [Name.APPROVED; Name.CONDITION] = true ->
            Name.consumptionDate n' <> None /\ Name.corpNum n' = Some "BC1234567")
  /\ (names <$>
        requests (db (snd (patch Examples.env "NR 0000002"
                             (Some (Examples.consume_with (Value "BC1234567")))
                             Examples.registry))) !! 2)
     = Some [Name.mk 1 (Some "ACME HOLDINGS LTD.") (Some "APPROVED") (Some 1000)
               (Some "BC1234567");
             Name.mk 2 (Some "ACME VENTURES LTD.") (Some "NE") None None]
  /\ fst (patch Examples.env "NR 0000002" (Some (Examples.consume_with Absent))
            Examples.registry)
     = mkResponse 406 (Message corpNum_required).
Proof.
  split; [|split].
  - apply (patch_consume Examples.env "NR 0000002"
             (Examples.consume_with (Value "BC1234567")) Examples.registry 2 Examples.nr2);
      try reflexivity; vm_compute; reflexivity.
  - vm_compute. reflexivity.
  - apply (patch_consume Examples.env "NR 0000002"
             (Examples.consume_with Absent) Examples.registry 2 Examples.nr2);
      try reflexivity; vm_compute; reflexivity.
Defined.

(** C9, on the registry.  The examiner has NR 0000002 in progress, a draft
    before ([previousStateCd = 'DRAFT']).  A PATCH of another request takes
    it back to DRAFT; the full replace (PUT) of another request puts it on
    HOLD instead and leaves the previous state recorded. *)
Theorem put_holds_request_with_previous_state :
  previousStateCd Examples.nr2 = Some "DRAFT"
  /\ inprogress_key (jwt_user Examples.env) (db Examples.registry) = Some 2
  /\ fst (put Examples.env "NR 0000003" (Some Examples.replace_draft) Examples.registry)
     = None
  /\ requests (db (snd (put Examples.env "NR 0000003" (Some Examples.replace_draft)
                          Examples.registry))) !! 2
     = Some (set_stateCd "HOLD" Examples.nr2)
  /\ requests (db (snd (patch Examples.env "NR 0000003"
                          (Some (Examples.state_only "DRAFT")) Examples.registry))) !! 2
     = Some (set_previousStateCd None (set_stateCd "DRAFT" Examples.nr2)).
Proof.
  repeat apply conj; vm_compute; reflexivity.
Qed.

End RequestFacts.

(** ** payment_societies.py *)

Module PaymentSocietiesFacts.
Import PaymentSocieties.

Section Facts.
Variable env : Env.

(** C10.  A POST of a payment-society record for an existing request
    succeeds and saves the record; a request that waits for its payment
    (PENDING_PAYMENT) is a DRAFT afterwards, in the database, and a request
    in any other state keeps its state. *)
Theorem post_moves_pending_payment_to_draft j w nr_num k r :
  get (in_nrNum j) None = Some nr_num ->
  nr_num <> "" ->
  nr_key nr_num (db w) = Some k ->
  requests (db w) !! k = Some r ->
  let res := post env (Some j) w in
  let ps := society_of j (formal_nr_num env (nrNum r)) in
  fst res = mkResponse 200 (SocietyEntity ps)
  /\ payment_societies (db (snd res)) = payment_societies (db w) ++ [ps]
  /\ exists r',
      requests (db (snd res)) !! k = Some r'
      /\ stateCd r'
         = (if String.eqb (stateCd r) State.PENDING_PAYMENT
            then State.DRAFT else stateCd r).
Proof.
  intros Hn Hne Hk Hr res ps0. subst res ps0.
  destruct w as [[rq cm ps] ev nt rc sd]. cbn in Hk, Hr.
  unfold post, post_handler. given. rewrite Hn.
  assert (Ht : truthy (Some nr_num) = true).
  { cbn. apply negb_true_iff, String.eqb_neq. exact Hne. }
  rewrite Ht. exec. rewrite Hk. exec.
  unfold add_new_nr_number. exec. rewrite Hr. exec.
  rewrite !lookup_alter_eq, Hr. cbn [fmap option_fmap option_map].
  unfold save_payment_society. exec.
  cbn [stateCd nrNum set_nrNum].
  destruct (String.eqb (stateCd r) State.PENDING_PAYMENT); exec;
    rewrite ?lookup_alter_eq, ?Hr; cbn [fmap option_fmap option_map];
    (repeat apply conj; [reflexivity|reflexivity|eexists; split; reflexivity]).
Qed.

End Facts.

(** On the registry: a payment for NR 0000006, which waits for its payment,
    makes it a draft; one for the draft NR 0000001 leaves it a draft. *)
Lemma post_moves_pending_payment_to_draft_witness :
  (exists r',
     requests (db (snd (post Examples.env (Some (Examples.society_payment "NR 0000006"))
                          Examples.registry))) !! 6 = Some r'
     /\ stateCd r' = "DRAFT")
  /\ length (payment_societies
               (db (snd (post Examples.env (Some (Examples.society_payment "NR 0000006"))
                           Examples.registry)))) = 1%nat.
Proof.
  destruct (post_moves_pending_payment_to_draft Examples.env
              (Examples.society_payment "NR 0000006") Examples.registry "NR 0000006"
              6 Examples.nr6)
    as (_ & Hps & r' & Hr' & Hst).
  - reflexivity.
  - discriminate.
  - vm_compute. reflexivity.
  - vm_compute. reflexivity.
  - split.
    + exists r'. split; [exact Hr'|exact Hst].
    + rewrite Hps. reflexivity.
Defined.

End PaymentSocietiesFacts.

(** ** name_requests/name_request.py *)

Module NameRequestFacts.
Import NameRequestPatchActions NameRequest.

Section Facts.
Variable env : Env.

Lemma resolve_known tok a s :
  upper tok = value a -> resolve_action tok s = (Val (value a), s).
Proof.
  intros H. unfold resolve_action. rewrite H. destruct a; reflexivity.
Qed.

Lemma resolve_unknown tok s :
  has_value (upper tok) = false -> resolve_action tok s = (Val (value EDIT), s).
Proof.
  intros H. unfold resolve_action. rewrite H. reflexivity.
Qed.

Lemma apply_state_change_stateCd ns r : stateCd (apply_state_change ns r) = ns.
Proof. unfold apply_state_change. repeat case_match; reflexivity. Qed.

Lemma apply_state_change_kept ns r :
  checkedOutBy (apply_state_change ns r) = checkedOutBy r
  /\ checkedOutDt (apply_state_change ns r) = checkedOutDt r
  /\ userId (apply_state_change ns r) = userId r
  /\ payments (apply_state_change ns r) = payments r
  /\ nrNum (apply_state_change ns r) = nrNum r
  /\ entity_type_cd (apply_state_change ns r) = entity_type_cd r.
Proof. unfold apply_state_change. repeat case_match; repeat split; reflexivity. Qed.

Lemma handle_nr_patch_kept data r :
  stateCd (handle_nr_patch data r) = stateCd r
  /\ userId (handle_nr_patch data r) = userId r
  /\ payments (handle_nr_patch data r) = payments r
  /\ nrNum (handle_nr_patch data r) = nrNum r
  /\ entity_type_cd (handle_nr_patch data r) = entity_type_cd r.
Proof. unfold handle_nr_patch. repeat case_match; repeat split; reflexivity. Qed.

(** C1.  With access to the request, for the action CHECKOUT in any
    letter case: a request that is not checked out and whose state is
    request-editable is checked out, whatever the body: the answer is 200
    and the request is INPROGRESS, owned by the service account, with the
    token just drawn by [uuid4] as its [checkedOutBy]; on a request checked
    out under a token A, a body that gives another token B is answered 423
    with the in-progress error, and nothing has changed. *)
Theorem checkout_locks nr_id tok w r :
  full_access_to_name_request env = true ->
  upper tok = value CHECKOUT ->
  requests (db w) !! nr_id = Some r ->
  (checkedOutBy r = None ->
   is_request_editable env (stateCd r) = true ->
   forall request_json,
     fst (patch env nr_id tok request_json w)
     = mkResponse 200
         (CheckoutInfo nr_id (Some (uuid4 env)) (Some (clock env 0)) State.INPROGRESS)
     /\ exists r',
         requests (db (snd (patch env nr_id tok request_json w))) !! nr_id = Some r'
         /\ checkedOutBy r' = Some (uuid4 env)
         /\ checkedOutDt r' = Some (clock env 0)
         /\ stateCd r' = State.INPROGRESS
         /\ userId r' = Some (service_account_id env))
  /\ (forall A B j,
        checkedOutBy r = Some A ->
        get (rd_checkedOutBy j) None = Some B ->
        B <> A ->
        patch env nr_id tok (Some j) w
        = (mkResponse 423 (Failure NameRequestIsInProgressError), w)).
Proof.
  intros Ha Ht Hr.
  destruct w as [[rq cm ps] ev nt rc sd]. cbn in Hr.
  split.
  - intros Hnone Hed request_json.
    unfold patch, patch_handler. rewrite Ha.
    exec. rewrite (resolve_known _ _ _ Ht).
    unfold initialize. cbn [value].
    change (String.eqb "CHECKOUT" "CHECKOUT") with true.
    exec. rewrite Hr, Hnone, Hed. exec.
    rewrite !lookup_alter_eq, Hr. cbn [fmap option_fmap option_map].
    unfold body_of. exec.
    unfold validate_patch_request. cbn [rd_stateCd get stateCd set_userId].
    unfold is_request_editable in Hed. cbn [opt_in]. rewrite Hed.
    exec.
    change (has_value "CHECKOUT") with true. exec.
    change (String.length "") with 0%nat. change (Nat.ltb 0 0) with false.
    exec.
    unfold handle_patch_actions. change (by_name "CHECKOUT") with (Some CHECKOUT).
    cbn iota. unfold handle_patch_checkout, update_nr. exec.
    rewrite !lookup_alter_eq, Hr. cbn [fmap option_fmap option_map].
    change (String.eqb "CHECKOUT" "CHECKOUT") with true. cbn iota.
    set (r1 := apply_state_change _ _).
    assert (H1 : stateCd r1 = State.INPROGRESS) by apply apply_state_change_stateCd.
    destruct (apply_state_change_kept State.INPROGRESS
                (set_userId (Some (service_account_id env)) r))
      as (_ & _ & H2 & _). fold r1 in H2. cbn in H2.
    set (r2 := handle_nr_patch _ r1).
    assert (E : checkedOutBy r2 = Some (uuid4 env)
                /\ checkedOutDt r2 = Some (clock env 0)
                /\ stateCd r2 = State.INPROGRESS
                /\ userId r2 = Some (service_account_id env)).
    { subst r2. unfold handle_nr_patch. cbn. auto. }
    destruct E as (E1 & E2 & E3 & E4).
    rewrite E1, E2, E3. split; [reflexivity|].
    exists r2. exec. rewrite ?lookup_alter_eq, ?Hr. auto.
  - intros A B j HA HB Hne.
    unfold patch, patch_handler. rewrite Ha.
    exec. rewrite (resolve_known _ _ _ Ht).
    unfold initialize. cbn [value].
    change (String.eqb "CHECKOUT" "CHECKOUT") with true.
    exec. rewrite Hr, HA. unfold body_of. exec. rewrite HB.
    rewrite bool_decide_eq_false_2 by congruence.
    reflexivity.
Qed.

(** C2, amended.  A full replace (PUT) of a request whose state is not
    DRAFT, COND_RESERVE, RESERVED or PENDING_PAYMENT changes nothing: no
    row is updated and no event is recorded.  The caller who has access is
    told of an error only when the state of the body is not one of these
    four (500, invalid input); otherwise the answer is 200 with the request
    as it was. *)
Theorem put_outside_update_states nr_id request_json w r :
  requests (db w) !! nr_id = Some r ->
  str_in (stateCd r) valid_update_states = false ->
  snd (put env nr_id request_json w) = w
  /\ (forall data,
        full_access_to_name_request env = true ->
        request_json = Some data ->
        fst (put env nr_id request_json w)
        = if opt_in (get (rd_stateCd data) None) valid_update_states
          then mkResponse 200 (Entity r)
          else mkResponse 500 (Failure (InvalidInputError ""))).
Proof.
  intros Hr Hs.
  destruct w as [[rq cm ps] ev nt rc sd]. cbn in Hr.
  unfold put, put_handler.
  destruct (full_access_to_name_request env).
  - exec. rewrite Hr. unfold body_of. destruct request_json as [data|].
    + exec. unfold validate_put_request.
      change (String.length "") with 0%nat. change (Nat.ltb 0 0) with false.
      destruct (opt_in (get (rd_stateCd data) None) valid_update_states) eqn:E.
      * exec. rewrite Hs. exec. rewrite Hr. split; [reflexivity|].
        intros data' _ [= <-]. rewrite E. reflexivity.
      * exec. split; [reflexivity|].
        intros data' _ [= <-]. rewrite E. reflexivity.
    + split; [reflexivity|]. intros ? _ [=].
  - split; [reflexivity|]. intros ? [=].
Qed.

(** C3.  With access to the request, for the action REQUEST_REFUND in any
    letter case and whatever the body: on a request whose state is not DRAFT
    the answer is 423 with the in-progress error, and the world is what it
    was: no state has changed, no payment, and nothing was published. *)
Theorem refund_rejected nr_id tok request_json w r :
  full_access_to_name_request env = true ->
  upper tok = value REQUEST_REFUND ->
  requests (db w) !! nr_id = Some r ->
  stateCd r <> State.DRAFT ->
  patch env nr_id tok request_json w
  = (mkResponse 423 (Failure NameRequestIsInProgressError), w).
Proof.
  intros Ha Ht Hr Hs.
  destruct w as [[rq cm ps] ev nt rc sd]. cbn in Hr.
  unfold patch, patch_handler. rewrite Ha.
  exec. rewrite (resolve_known _ _ _ Ht).
  unfold initialize. cbn [value].
  change (String.eqb "REQUEST_REFUND" "CHECKOUT") with false.
  change (String.eqb "REQUEST_REFUND" "CHECKIN") with false.
  change (String.eqb "REQUEST_REFUND" "REQUEST_REFUND") with true.
  exec. rewrite Hr.
  assert (Hn : is_name_request_refundable (stateCd r) = false).
  { unfold is_name_request_refundable, str_in. cbn [existsb].
    rewrite orb_false_r. apply String.eqb_neq. exact Hs. }
  rewrite Hn. reflexivity.
Qed.

(** C8.  An action of the path that is not in the enumeration, once
    upper-cased, is not rejected: [patch] does with it what it does with
    EDIT. *)
Theorem unknown_action_runs_edit nr_id tok request_json w :
  has_value (upper tok) = false ->
  patch env nr_id tok request_json w = patch env nr_id "EDIT" request_json w.
Proof.
  intros H. unfold patch, patch_handler.
  destruct (full_access_to_name_request env); [|reflexivity].
  destruct w as [[rq cm ps] ev nt rc sd].
  exec. rewrite (resolve_unknown _ _ H).
  rewrite (resolve_known "EDIT" EDIT) by reflexivity. reflexivity.
Qed.

Lemma set_payments_twice a b r : set_payments a (set_payments b r) = set_payments a r.
Proof. reflexivity. Qed.

(** The refund loop from the payment at position [length pre] on, when
    every refund call it makes comes back: it ends normally with the total
    of the receipts, having marked and saved each eligible payment and
    called the gateway for those with an amount. *)
Lemma refund_payments_all_return nr_id ps :
  forall pre r rq cm pst w n v,
    rq !! nr_id = Some r ->
    payments r = pre ++ ps ->
    (forall p, In p ps -> needs_refund_call env p = true -> refund_returns env p) ->
    exists rq' w',
      refund_payments env nr_id (length pre) ps v (mkSt (mkTables rq cm pst) w n)
      = (Val (refunded_total env ps v), mkSt (mkTables rq' cm pst) w' n)
      /\ rq' !! nr_id = Some (set_payments (pre ++ map mark_refund_requested ps) r)
      /\ events w' = events w
      /\ notifications w' = notifications w
      /\ solr_deleted w' = solr_deleted w
      /\ refund_calls w' = refund_calls w ++ refund_tokens env ps
      /\ (db w = mkTables rq cm pst -> db w' = mkTables rq' cm pst).
Proof.
  induction ps as [|p rest IH]; intros pre r rq cm pst w n v Hr Hp Hret.
  - exists rq, w. cbn. rewrite app_nil_r in *. rewrite <- Hp.
    destruct r; cbn. rewrite app_nil_r. auto 10.
  - cbn [refund_payments].
    assert (Hrest : forall q, In q rest ->
                      needs_refund_call env q = true -> refund_returns env q).
    { intros q Hq. apply Hret. right. exact Hq. }
    destruct (str_in (Payment.payment_status_code p) valid_states) eqn:El.
    + set (tok := Payment.payment_token p).
      set (r' := set_payments (pre ++ mark_refund_requested p :: rest) r).
      assert (Hmark : mark_refund_requested p
                      = Payment.set_payment_status_code PaymentState.REFUND_REQUESTED p).
      { unfold mark_refund_requested, eligible. rewrite El. reflexivity. }
      assert (Halter : forall w1,
                 mark_payment nr_id (length pre) PaymentState.REFUND_REQUESTED
                   (mkSt (mkTables rq cm pst) w1 n)
                 = (Val tt,
                    mkSt (mkTables (alter (fun _ => r') nr_id rq) cm pst)
                      (mkWorld (mkTables (alter (fun _ => r') nr_id rq) cm pst)
                         (events w1) (notifications w1) (refund_calls w1)
                         (solr_deleted w1)) n)).
      { intros w1. unfold mark_payment. exec.
        assert (Ea : alter (fun r0 => set_payments
                         (alter (Payment.set_payment_status_code
                                   PaymentState.REFUND_REQUESTED)
                            (length pre) (payments r0)) r0) nr_id rq
                     = alter (fun _ => r') nr_id rq).
        { apply map_eq. intros k. rewrite !lookup_alter.
          case_decide; [subst k|reflexivity]. rewrite Hr. cbn.
          f_equal. subst r'. rewrite Hp.
          replace (length pre) with (length pre + 0)%nat by lia.
          rewrite alter_app_r. cbn. rewrite Hmark. reflexivity. }
        rewrite Ea. reflexivity. }
      assert (Hr' : alter (fun _ => r') nr_id rq !! nr_id = Some r').
      { rewrite lookup_alter_eq, Hr. reflexivity. }
      assert (Hp' : payments r' = (pre ++ [mark_refund_requested p]) ++ rest).
      { subst r'. cbn. rewrite <- app_assoc. reflexivity. }
      assert (Hlen : length (pre ++ [mark_refund_requested p]) = S (length pre)).
      { rewrite length_app. cbn. lia. }
      destruct (Float.nonzero (total (get_payment env tok))) eqn:Ez.
      all: swap 1 2.
      * exec. rewrite Halter. exec.
        destruct (IH _ r' _ cm pst
                    (mkWorld (mkTables (alter (fun _ => r') nr_id rq) cm pst)
                       (events w) (notifications w) (refund_calls w) (solr_deleted w))
                    n (Float.add v (receipt_amount env tok)) Hr' Hp' Hrest)
          as (rq' & w' & E & Hq & He & Hn & Hs & Hc & Hd).
        rewrite Hlen in E. exists rq', w'.
        repeat apply conj.
        -- fold tok. unfold receipt_amount in E. rewrite E.
           cbn [refunded_total fold_left].
           unfold eligible. rewrite El. reflexivity.
        -- rewrite Hq. subst r'. rewrite set_payments_twice.
           rewrite <- app_assoc. reflexivity.
        -- exact He.
        -- exact Hn.
        -- exact Hs.
        -- rewrite Hc. cbn. unfold refund_tokens. cbn [List.filter].
           unfold needs_refund_call at 2, eligible. rewrite El. fold tok. rewrite Ez.
           reflexivity.
        -- intros _. apply Hd. reflexivity.
      * destruct (Hret p (or_introl eq_refl)) as [hs Hhs].
        { unfold needs_refund_call, eligible. rewrite El. fold tok. rewrite Ez.
          reflexivity. }
        fold tok in Hhs.
        exec. unfold call_refund_payment. rewrite Hhs. exec.
        rewrite Halter. exec.
        destruct (IH _ r' _ cm pst
                    (mkWorld (mkTables (alter (fun _ => r') nr_id rq) cm pst)
                       (events w) (notifications w) (refund_calls w ++ [tok])
                       (solr_deleted w))
                    n (Float.add v (receipt_amount env tok)) Hr' Hp' Hrest)
          as (rq' & w' & E & Hq & He & Hn & Hs & Hc & Hd).
        rewrite Hlen in E. exists rq', w'.
        repeat apply conj.
        -- fold tok. unfold receipt_amount in E. rewrite E.
           cbn [refunded_total fold_left].
           unfold eligible. rewrite El. reflexivity.
        -- rewrite Hq. subst r'. rewrite set_payments_twice.
           rewrite <- app_assoc. reflexivity.
        -- exact He.
        -- exact Hn.
        -- exact Hs.
        -- rewrite Hc. cbn. unfold refund_tokens. cbn [List.filter].
           unfold needs_refund_call at 2, eligible. rewrite El. fold tok. rewrite Ez.
           cbn. rewrite <- app_assoc. reflexivity.
        -- intros _. apply Hd. reflexivity.
    + assert (Hp' : payments r = (pre ++ [p]) ++ rest).
      { rewrite Hp, <- app_assoc. reflexivity. }
      assert (Hlen : length (pre ++ [p]) = S (length pre)).
      { rewrite length_app. cbn. lia. }
      destruct (IH _ r rq cm pst w n v Hr Hp' Hrest)
        as (rq' & w' & E & Hq & He & Hn & Hs & Hc & Hd).
      rewrite Hlen in E. exists rq', w'.
      repeat apply conj; try assumption.
      * rewrite E. cbn [refunded_total fold_left]. unfold eligible. rewrite El.
        reflexivity.
      * rewrite Hq. rewrite <- app_assoc. cbn.
        unfold mark_refund_requested at 2, eligible.
        rewrite El. reflexivity.
      * rewrite Hc. unfold refund_tokens. cbn [List.filter].
        unfold needs_refund_call at 2, eligible. rewrite El. reflexivity.
Qed.

(** A refund call that raises leaves the loop at once: the payment it was
    made for is not marked, and the payments after it are not looked at. *)
Lemma refund_payments_raise nr_id i p rest v t w n :
  needs_refund_call env p = true ->
  refund_payment env (Payment.payment_token p) = RefundRaised ->
  refund_payments env nr_id i (p :: rest) v (mkSt t w n)
  = (Raise SBCPaymentException,
     mkSt t (mkWorld (db w) (events w) (notifications w)
               (refund_calls w ++ [Payment.payment_token p]) (solr_deleted w)) n).
Proof.
  intros Hn Hr. unfold needs_refund_call, eligible in Hn.
  apply andb_true_iff in Hn as [He Hz].
  cbn [refund_payments]. rewrite He, Hz. exec.
  unfold call_refund_payment. rewrite Hr. exec. reflexivity.
Qed.

Lemma validate_patchable a r data s :
  patchable env r data = true ->
  validate_patch_request env (value a) r data s = (Val (true, ""), s).
Proof.
  unfold patchable, validate_patch_request. intros H.
  destruct (opt_in _ (request_editable_states env)).
  - exec. destruct a; reflexivity.
  - cbn in H. rewrite H. exec. destruct a; reflexivity.
Qed.

(** A refund request on a draft that passes the validation runs
    [handle_patch_request_refund]. *)
Lemma patch_runs_refund nr_id tok data w r :
  full_access_to_name_request env = true ->
  upper tok = value REQUEST_REFUND ->
  requests (db w) !! nr_id = Some r ->
  stateCd r = State.DRAFT ->
  patchable env r data = true ->
  patch env nr_id tok (Some data) w
  = run (handle_patch_request_refund env data nr_id;;
         nr_model ← row nr_id;
         respond 200 (Entity nr_model)) patch_on_exn w.
Proof.
  intros Ha Ht Hr Hs Hv.
  destruct w as [[rq cm ps] ev nt rc sd]. cbn in Hr.
  unfold patch, patch_handler. rewrite Ha.
  exec. rewrite (resolve_known _ _ _ Ht).
  unfold initialize. cbn [value].
  change (String.eqb "REQUEST_REFUND" "CHECKOUT") with false.
  change (String.eqb "REQUEST_REFUND" "CHECKIN") with false.
  change (String.eqb "REQUEST_REFUND" "REQUEST_REFUND") with true.
  exec. rewrite Hr. unfold is_name_request_refundable. rewrite Hs.
  change (str_in State.DRAFT [State.DRAFT]) with true.
  exec. rewrite Hr. unfold body_of. exec.
  change "REQUEST_REFUND" with (value REQUEST_REFUND).
  rewrite (validate_patchable _ _ _ _ Hv).
  change (String.length "") with 0%nat. change (Nat.ltb 0 0) with false.
  exec. unfold handle_patch_actions.
  change (by_name (value REQUEST_REFUND)) with (Some REQUEST_REFUND).
  cbn iota.
  change (String.eqb (value REQUEST_REFUND) (value CHECKOUT)) with false.
  change (String.eqb (value REQUEST_REFUND) (value CHECKIN)) with false.
  reflexivity.
Qed.

Lemma refund_row_kept data r :
  let r1 := handle_nr_patch data (apply_state_change State.REFUND_REQUESTED r) in
  payments r1 = payments r /\ nrNum r1 = nrNum r
  /\ entity_type_cd r1 = entity_type_cd r
  /\ stateCd r1 = State.REFUND_REQUESTED.
Proof.
  cbn zeta.
  destruct (handle_nr_patch_kept data (apply_state_change State.REFUND_REQUESTED r))
    as (H1 & H2 & H3 & H4 & H5).
  destruct (apply_state_change_kept State.REFUND_REQUESTED r)
    as (_ & _ & _ & G3 & G4 & G5).
  rewrite H1, H3, H4, H5, G3, G4, G5, apply_state_change_stateCd. auto.
Qed.

(** [handle_patch_request_refund] on a request one of whose payments is a
    REAPPLY: it ends normally; the request is REFUND_REQUESTED and saved
    with the payments it had, the other requests are untouched, no refund
    call was made, and the refund confirmation with the amount [0.00] was
    published. *)
Lemma handle_refund_of_renewed_request nr_id data r rq cm ps w n :
  rq !! nr_id = Some r ->
  existsb is_reapply (payments r) = true ->
  exists rq' w',
    handle_patch_request_refund env data nr_id (mkSt (mkTables rq cm ps) w n)
    = (Val tt, mkSt (mkTables rq' cm ps) w' n)
    /\ db w' = mkTables rq' cm ps
    /\ refund_calls w' = refund_calls w
    /\ notifications w'
       = notifications w ++ [mkNotification (nrNum r) "refund" (Some "0.00")]
    /\ (exists r', rq' !! nr_id = Some r'
                   /\ payments r' = payments r
                   /\ stateCd r' = State.REFUND_REQUESTED)
    /\ (forall k, k <> nr_id -> rq' !! k = rq !! k).
Proof.
  intros Hr Hre.
  unfold handle_patch_request_refund, update_nr. exec.
  rewrite !lookup_alter_eq, Hr. cbn [fmap option_fmap option_map].
  destruct (refund_row_kept data r) as (K1 & K2 & K3 & K4).
  set (r1 := handle_nr_patch data (apply_state_change State.REFUND_REQUESTED r)) in *.
  rewrite K1, Hre. exec. unfold update_solr. exec.
  rewrite !lookup_alter_eq, Hr. cbn [fmap option_fmap option_map]. fold r1.
  destruct (opt_in (entity_type_cd r1) solr_entity_types);
    unfold delete_solr_doc; exec; rewrite K2;
    (eexists _, _; split; [reflexivity|]; cbn;
     repeat apply conj;
     [ reflexivity | reflexivity | reflexivity
     | exists r1; rewrite lookup_alter_eq, Hr; auto
     | intros k Hk; rewrite lookup_alter_ne by congruence; reflexivity ]).
Qed.

(** C4.  For every request one of whose payments is a REAPPLY:
    [handle_patch_request_refund], run on it with any body and in any
    state of the session, calls the gateway for no refund, leaves the
    payments of the request as they were (no status is marked) and
    publishes one notification more, the refund confirmation of the
    request with the amount [0.00]; and so does the whole PATCH with the
    action REQUEST_REFUND, answered 200, when the caller has access, the
    request is refundable (a draft) and the body passes the validation. *)
Theorem refund_of_renewed_request nr_id r :
  existsb is_reapply (payments r) = true ->
  (forall data rq cm ps w n,
     rq !! nr_id = Some r ->
     exists rq' w',
       handle_patch_request_refund env data nr_id (mkSt (mkTables rq cm ps) w n)
       = (Val tt, mkSt (mkTables rq' cm ps) w' n)
       /\ refund_calls w' = refund_calls w
       /\ notifications w'
          = notifications w ++ [mkNotification (nrNum r) "refund" (Some "0.00")]
       /\ (payments <$> requests (db w') !! nr_id) = Some (payments r))
  /\ (forall tok data w,
        full_access_to_name_request env = true ->
        upper tok = value REQUEST_REFUND ->
        requests (db w) !! nr_id = Some r ->
        stateCd r = State.DRAFT ->
        patchable env r data = true ->
        let res := patch env nr_id tok (Some data) w in
        status (fst res) = 200
        /\ refund_calls (snd res) = refund_calls w
        /\ notifications (snd res)
           = notifications w ++ [mkNotification (nrNum r) "refund" (Some "0.00")]
        /\ (exists r', requests (db (snd res)) !! nr_id = Some r'
                       /\ payments r' = payments r
                       /\ stateCd r' = State.REFUND_REQUESTED)
        /\ (forall k, k <> nr_id ->
              requests (db (snd res)) !! k = requests (db w) !! k)).
Proof.
  intros Hre. split.
  - intros data rq cm ps w n Hr.
    destruct (handle_refund_of_renewed_request nr_id data r rq cm ps w n Hr Hre)
      as (rq' & w' & E & Hd & Hc & Hn & (r' & Hr' & Hp & _) & _).
    exists rq', w'. repeat apply conj; try assumption.
    rewrite Hd. cbn. rewrite Hr'. cbn. rewrite Hp. reflexivity.
  - intros tok data w Ha Ht Hr Hs Hv res. subst res.
    rewrite (patch_runs_refund _ _ _ _ _ Ha Ht Hr Hs Hv).
    destruct w as [[rq cm ps] ev nt rc sd]. cbn in Hr.
    destruct (handle_refund_of_renewed_request nr_id data r rq cm ps
                (mkWorld (mkTables rq cm ps) ev nt rc sd) 0%nat Hr Hre)
      as (rq' & w' & E & Hd & Hc & Hn & (r' & Hr' & Hp & Hst) & Hk).
    exec. rewrite E. exec. rewrite Hr'. exec.
    rewrite Hd. cbn [requests].
    repeat apply conj;
      [ reflexivity | exact Hc | exact Hn | exists r'; auto | exact Hk ].
Qed.

(** The refund loop does not look at what a refund call answers.  With
    access to the request, for the action REQUEST_REFUND on a draft without
    a REAPPLY payment, whose body passes the validation: when every refund
    call that the loop makes comes back, whatever status the gateway
    answers, the answer is 200 and every eligible payment (APPROVED,
    COMPLETED, PARTIAL) is marked REFUND_REQUESTED in the database, the
    others being as they were; the gateway was called once for each
    eligible payment whose invoice has a total other than zero, in order;
    and the refund confirmation that was published carries the sum of the
    receipt amounts of the eligible payments, added as floats from left to
    right and written with two decimals. *)
Theorem refund_loop_ignores_gateway_status nr_id tok data w r :
  full_access_to_name_request env = true ->
  upper tok = value REQUEST_REFUND ->
  requests (db w) !! nr_id = Some r ->
  stateCd r = State.DRAFT ->
  patchable env r data = true ->
  existsb is_reapply (payments r) = false ->
  (forall p, In p (payments r) ->
     needs_refund_call env p = true -> refund_returns env p) ->
  let res := patch env nr_id tok (Some data) w in
  status (fst res) = 200
  /\ refund_calls (snd res) = refund_calls w ++ refund_tokens env (payments r)
  /\ notifications (snd res)
     = notifications w
       ++ [mkNotification (nrNum r) "refund"
             (Some (format_2f (refunded_total env (payments r) (Float.of_Z 0))))]
  /\ (exists r', requests (db (snd res)) !! nr_id = Some r'
                 /\ payments r' = map mark_refund_requested (payments r)).
Proof.
  intros Ha Ht Hr Hs Hv Hre Hret res. subst res.
  rewrite (patch_runs_refund _ _ _ _ _ Ha Ht Hr Hs Hv).
  destruct w as [[rq cm ps] ev nt rc sd]. cbn in Hr.
  unfold handle_patch_request_refund, update_nr. exec.
  rewrite !lookup_alter_eq, Hr. cbn [fmap option_fmap option_map].
  destruct (refund_row_kept data r) as (K1 & K2 & K3 & K4).
  set (f := fun r0 => handle_nr_patch data (apply_state_change State.REFUND_REQUESTED r0)).
  set (r1 := handle_nr_patch data (apply_state_change State.REFUND_REQUESTED r)) in *.
  rewrite K1, Hre. exec.
  assert (Hr1 : alter f nr_id rq !! nr_id = Some r1).
  { rewrite lookup_alter_eq, Hr. reflexivity. }
  destruct (refund_payments_all_return nr_id (payments r) [] r1 (alter f nr_id rq) cm ps
              (mkWorld (mkTables (alter f nr_id rq) cm ps) ev nt rc sd) 0%nat (Float.of_Z 0)
              Hr1 K1 Hret)
    as (rq' & w' & E & Hq & He & Hn & Hsd & Hc & Hd).
  cbn [length] in E. rewrite E. cbn [app] in Hq.
  destruct w' as [db' ev' nt' rc' sd']. cbn in He, Hn, Hsd, Hc, Hd. subst ev' nt' sd' rc'.
  specialize (Hd eq_refl). subst db'.
  exec. unfold update_solr. exec. rewrite Hq. exec.
  set (r2 := set_payments (map mark_refund_requested (payments r)) r1) in *.
  destruct (opt_in (entity_type_cd r2) solr_entity_types);
    unfold delete_solr_doc; exec; rewrite ?Hq; exec; rewrite K2;
    (repeat apply conj;
     [ reflexivity | reflexivity | reflexivity | exists r2; auto ]).
Qed.

End Facts.

(** On the registry: the draft NR 0000001 is checked out under the token
    that was drawn; a CHECKOUT of NR 0000002 with the token [tok-B], while it
    is checked out under [tok-A], is answered 423 and changes nothing. *)
Lemma checkout_locks_witness :
  (fst (patch Examples.env 1 "checkout" None Examples.registry)
   = mkResponse 200 (CheckoutInfo 1 (Some "8c2f7f0e") (Some 1000) "INPROGRESS")
   /\ exists r',
       requests (db (snd (patch Examples.env 1 "checkout" None Examples.registry))) !! 1
       = Some r'
       /\ checkedOutBy r' = Some "8c2f7f0e"
       /\ checkedOutDt r' = Some 1000
       /\ stateCd r' = "INPROGRESS"
       /\ userId r' = Some 99)
  /\ patch Examples.env 2 "checkout"
       (Some (mkRequestData Absent (Value "tok-B") Absent)) Examples.registry
     = (mkResponse 423 (Failure NameRequestIsInProgressError), Examples.registry).
Proof.
  split.
  - apply (checkout_locks Examples.env 1 "checkout" Examples.registry Examples.nr1);
      reflexivity.
  - apply (checkout_locks Examples.env 2 "checkout" Examples.registry Examples.nr2)
      with (A := "tok-A") (B := "tok-B"); try reflexivity. discriminate.
Defined.

(** C2, as stated, fails on the registry: NR 0000002 is INPROGRESS, which
    is none of the four states, and its full replace with a body whose state
    is DRAFT is not rejected: the answer is 200 with the request. *)
Lemma put_on_inprogress_request_answers_200 :
  str_in (stateCd Examples.nr2) valid_update_states = false
  /\ fst (put Examples.env 2 (Some (mkRequestData (Value "DRAFT") Absent Absent))
            Examples.registry)
     = mkResponse 200 (Entity Examples.nr2).
Proof.
  split; vm_compute; reflexivity.
Qed.

(** On the registry: the full replace of NR 0000002 changes nothing, and
    is answered 200 for a body in state DRAFT and 500 for one in state
    APPROVED. *)
Lemma put_outside_update_states_witness :
  snd (put Examples.env 2 (Some (mkRequestData (Value "DRAFT") Absent Absent))
         Examples.registry) = Examples.registry
  /\ fst (put Examples.env 2 (Some (mkRequestData (Value "DRAFT") Absent Absent))
            Examples.registry)
     = mkResponse 200 (Entity Examples.nr2)
  /\ fst (put Examples.env 2 (Some (mkRequestData (Value "APPROVED") Absent Absent))
            Examples.registry)
     = mkResponse 500 (Failure (InvalidInputError "")).
Proof.
  repeat apply conj.
  - apply (put_outside_update_states Examples.env 2
             (Some (mkRequestData (Value "DRAFT") Absent Absent))
             Examples.registry Examples.nr2); reflexivity.
  - apply (proj2 (put_outside_update_states Examples.env 2
                    (Some (mkRequestData (Value "DRAFT") Absent Absent))
                    Examples.registry Examples.nr2 eq_refl eq_refl)
             (mkRequestData (Value "DRAFT") Absent Absent)); reflexivity.
  - apply (proj2 (put_outside_update_states Examples.env 2
                    (Some (mkRequestData (Value "APPROVED") Absent Absent))
                    Examples.registry Examples.nr2 eq_refl eq_refl)
             (mkRequestData (Value "APPROVED") Absent Absent)); reflexivity.
Defined.

(** On the registry: a refund request on NR 0000005, which is approved. *)
Lemma refund_rejected_witness :
  patch Examples.env 5 "request_refund" (Some Examples.no_fields) Examples.registry
  = (mkResponse 423 (Failure NameRequestIsInProgressError), Examples.registry).
Proof.
  apply (refund_rejected Examples.env 5 "request_refund" (Some Examples.no_fields)
           Examples.registry Examples.nr5); try reflexivity. discriminate.
Defined.

(** On the registry: the refund of the renewed draft NR 0000003. *)
Lemma refund_of_renewed_request_witness :
  status (fst (patch Examples.env 3 "REQUEST_REFUND" (Some Examples.no_fields)
                 Examples.registry)) = 200
  /\ refund_calls (snd (patch Examples.env 3 "REQUEST_REFUND" (Some Examples.no_fields)
                          Examples.registry)) = []
  /\ notifications (snd (patch Examples.env 3 "REQUEST_REFUND" (Some Examples.no_fields)
                           Examples.registry))
     = [mkNotification "NR 0000003" "refund" (Some "0.00")]
  /\ exists r',
      requests (db (snd (patch Examples.env 3 "REQUEST_REFUND" (Some Examples.no_fields)
                           Examples.registry))) !! 3 = Some r'
      /\ payments r' = payments Examples.nr3.
Proof.
  destruct (proj2 (refund_of_renewed_request Examples.env 3 Examples.nr3 eq_refl)
              "REQUEST_REFUND" Examples.no_fields Examples.registry)
    as (H1 & H2 & H3 & (r' & Hr' & Hp & _) & _); try reflexivity.
  repeat apply conj; [exact H1|exact H2|exact H3|].
  exists r'. split; [exact Hr'|exact Hp].
Defined.

(** On the registry: the refund of NR 0000004.  The gateway answers 400 to
    both refund calls; both eligible payments are marked all the same.  The
    confirmation carries the receipt of [pay-f], the float 2.675, which is
    written 2.67 ([pay-h] has no receipt). *)
Lemma refund_loop_ignores_gateway_status_witness :
  refund_payment Examples.env "pay-f" = RefundReturned 400
  /\ status (fst (patch Examples.env 4 "REQUEST_REFUND" (Some Examples.no_fields)
                    Examples.registry)) = 200
  /\ refund_calls (snd (patch Examples.env 4 "REQUEST_REFUND" (Some Examples.no_fields)
                          Examples.registry)) = ["pay-f"; "pay-h"]
  /\ notifications (snd (patch Examples.env 4 "REQUEST_REFUND" (Some Examples.no_fields)
                           Examples.registry))
     = [mkNotification "NR 0000004" "refund" (Some "2.67")]
  /\ exists r',
      requests (db (snd (patch Examples.env 4 "REQUEST_REFUND" (Some Examples.no_fields)
                           Examples.registry))) !! 4 = Some r'
      /\ payments r'
         = [Payment.mk "pay-f" "REFUND_REQUESTED" None;
            Payment.mk "pay-g" "CREATED" None;
            Payment.mk "pay-h" "REFUND_REQUESTED" None].
Proof.
  split; [reflexivity|].
  destruct (refund_loop_ignores_gateway_status Examples.env 4 "REQUEST_REFUND"
              Examples.no_fields Examples.registry Examples.nr4)
    as (H1 & H2 & H3 & r' & Hr' & Hp); try reflexivity.
  - intros p Hin _. exists 400.
    destruct Hin as [<-|[<-|[<-|[]]]]; reflexivity.
  - repeat apply conj; [exact H1|exact H2|exact H3|].
    exists r'. split; [exact Hr'|exact Hp].
Defined.

(** On the registry: the refund call for [pay-b] raises; the loop that
    reaches it ends there. *)
Lemma refund_payments_raise_witness :
  refund_payments Examples.env 1 2
    [Payment.mk "pay-b" "COMPLETED" None; Payment.mk "pay-c" "PARTIAL" None]
    (Float.of_Z 30)
    (mkSt (db Examples.registry) Examples.registry 0)
  = (Raise SBCPaymentException,
     mkSt (db Examples.registry)
       (mkWorld (db Examples.registry) [] [] ["pay-b"] []) 0).
Proof.
  apply (refund_payments_raise Examples.env 1 2%nat
           (Payment.mk "pay-b" "COMPLETED" None)
           [Payment.mk "pay-c" "PARTIAL" None] (Float.of_Z 30)
           (db Examples.registry) Examples.registry 0%nat); reflexivity.
Defined.

(** On the registry: the action [frobnicate] on NR 0000001 is an edit. *)
Lemma unknown_action_runs_edit_witness :
  patch Examples.env 1 "frobnicate" (Some Examples.no_fields) Examples.registry
  = patch Examples.env 1 "EDIT" (Some Examples.no_fields) Examples.registry
  /\ status (fst (patch Examples.env 1 "frobnicate" (Some Examples.no_fields)
                    Examples.registry)) = 200
  /\ events (snd (patch Examples.env 1 "frobnicate" (Some Examples.no_fields)
                    Examples.registry))
     = [mkEvent 7 "PATCH [edit]" 1].
Proof.
  split.
  - apply (unknown_action_runs_edit Examples.env 1 "frobnicate"
             (Some Examples.no_fields) Examples.registry). reflexivity.
  - split; vm_compute; reflexivity.
Defined.

End NameRequestFacts.

(** * Further properties of the handlers *)

(** ** Rules for the assertions *)

Section Rules.
Context {A : Type}.
Implicit Types (P I : St -> Prop) (Q : A -> St -> Prop)
  (E : Response -> St -> Prop) (F : Exn -> St -> Prop).

Lemma triple_conseq P P' (m : M A) Q Q' E E' F F' :
  triple P' m Q' E' F' ->
  (forall s, P s -> P' s) ->
  (forall a s, Q' a s -> Q a s) ->
  (forall r s, E' r s -> E r s) ->
  (forall e s, F' e s -> F e s) ->
  triple P m Q E F.
Proof.
  intros H HP HQ HE HF s Hs. specialize (H s (HP s Hs)).
  destruct (m s) as [[a|r|e] s']; auto.
Qed.

Lemma triple_pre P P' (m : M A) Q E F :
  triple P' m Q E F -> (forall s, P s -> P' s) -> triple P m Q E F.
Proof. intros H HP s Hs. apply H, HP, Hs. Qed.

Lemma triple_ret P (a : A) Q E F :
  (forall s, P s -> Q a s) -> triple P (mret a) Q E F.
Proof. intros H s Hs. apply H, Hs. Qed.

Lemma triple_bind {B : Type} P (m : M B) (k : B -> M A) R Q E F :
  triple P m R E F ->
  (forall b, triple (R b) (k b) Q E F) ->
  triple P (m ≫= k) Q E F.
Proof.
  intros Hm Hk s Hs. specialize (Hm s Hs).
  unfold mbind, M_bind, bind. destruct (m s) as [[b|r|e] s']; [|exact Hm..].
  apply Hk, Hm.
Qed.

(** A first step whose outcome on the state at hand is known. *)
Lemma triple_bind_val {B : Type} s0 (m : M B) (k : B -> M A) b s1 Q E F :
  m s0 = (Val b, s1) ->
  triple (eq s1) (k b) Q E F ->
  triple (eq s0) (m ≫= k) Q E F.
Proof.
  intros Hm Hk s <-. unfold mbind, M_bind, bind. rewrite Hm.
  apply Hk. reflexivity.
Qed.

Lemma triple_bind_raise {B : Type} s0 (m : M B) (k : B -> M A) e s1 Q E F :
  m s0 = (Raise e, s1) -> F e s1 -> triple (eq s0) (m ≫= k) Q E F.
Proof.
  intros Hm Hf s <-. unfold mbind, M_bind, bind. rewrite Hm. exact Hf.
Qed.

Lemma triple_try P (m : M A) h Q E F F' :
  triple P m Q E F' ->
  (forall e, triple (F' e) (h e) Q E F) ->
  triple P (try_except m h) Q E F.
Proof.
  intros Hm Hh s Hs. specialize (Hm s Hs).
  unfold try_except. destruct (m s) as [[a|r|e] s']; [exact Hm..|].
  apply Hh, Hm.
Qed.

Lemma triple_make_response P code msg Q E F :
  (forall s, P s -> E (mkResponse code (Message msg)) s) ->
  triple P (make_response (A := A) code msg) Q E F.
Proof. intros H s Hs. apply H, Hs. Qed.

Lemma triple_respond P code b Q E F :
  (forall s, P s -> E (mkResponse code b) s) ->
  triple P (respond (A := A) code b) Q E F.
Proof. intros H s Hs. apply H, Hs. Qed.

Lemma triple_raise P e Q E F :
  (forall s, P s -> F e s) -> triple P (raise (A := A) e) Q E F.
Proof. intros H s Hs. apply H, Hs. Qed.

(** A step that goes on, whatever the state. *)
Lemma triple_step P (v : St -> A) (g : St -> St) Q E F :
  (forall s, P s -> Q (v s) (g s)) ->
  triple P (fun s => (Val (v s), g s)) Q E F.
Proof. intros H s Hs. apply H, Hs. Qed.

(** A step that reads the state. *)
Lemma triple_read P (f : St -> A) E F :
  triple P (fun s => (Val (f s), s)) (fun a s => P s /\ a = f s) E F.
Proof. intros s Hs. auto. Qed.

Lemma triple_pre_pure (phi : Prop) P (m : M A) Q E F :
  (forall s, P s -> phi) -> (phi -> triple P m Q E F) -> triple P m Q E F.
Proof. intros H1 H2 s Hs. exact (H2 (H1 s Hs) s Hs). Qed.

Lemma keeps_ret I (a : A) E F : keeps I (mret a) E F.
Proof. apply triple_ret. auto. Qed.

Lemma keeps_bind {B : Type} I (m : M B) (k : B -> M A) E F :
  keeps I m E F -> (forall b, keeps I (k b) E F) -> keeps I (m ≫= k) E F.
Proof. intros Hm Hk. eapply triple_bind; [exact Hm|exact Hk]. Qed.

Lemma keeps_try I (m : M A) h E F :
  keeps I m E (fun _ => I) -> (forall e, keeps I (h e) E F) ->
  keeps I (try_except m h) E F.
Proof. intros Hm Hh. eapply triple_try; [exact Hm|exact Hh]. Qed.

Lemma keeps_step I (v : St -> A) (g : St -> St) E F :
  (forall s, I s -> I (g s)) -> keeps I (fun s => (Val (v s), g s)) E F.
Proof. intros H. apply triple_step, H. Qed.

End Rules.

Lemma keeps_when I b (m : M unit) E F : keeps I m E F -> keeps I (when b m) E F.
Proof. intros H. destruct b; [exact H|apply keeps_ret]. Qed.

(** What [run] gives, from what the handler ensures. *)
Lemma triple_run (G : Response -> World -> Prop) (h : M Response) on_exn w P Q E F :
  triple P h Q E F ->
  P (mkSt (db w) w 0) ->
  (forall r s, Q r s -> G r (world s)) ->
  (forall r s, E r s -> G r (world s)) ->
  (forall e s, F e s -> G (on_exn e) (world s)) ->
  G (fst (run h on_exn w)) (snd (run h on_exn w)).
Proof.
  intros H HP HQ HE HF. specialize (H _ HP). unfold run.
  destruct (h _) as [[r|r|e] s']; cbn; auto.
Qed.

(** A program keeps what its steps keep: it is taken apart along its
    binds, branches and handlers; [tac] shows that a step, or a way out,
    is as it should. *)
Ltac keeps_auto tac :=
  try match goal with
      | |- triple ?I ?m (fun _ => ?I) ?E ?F => change (keeps I m E F)
      end;
  repeat first
    [ progress intros
    | assumption
    | solve [auto 2]
    | apply keeps_ret
    | apply keeps_bind
    | apply keeps_try
    | apply keeps_when
    | apply triple_make_response; solve [tac]
    | apply triple_respond; solve [tac]
    | apply triple_raise; solve [tac]
    | match goal with
      | |- keeps _ (if ?b then _ else _) _ _ => destruct b
      | |- keeps _ (match ?x with _ => _ end) _ _ => destruct x
      | |- keeps _ (row _) _ _ => unfold row
      | |- keeps _ (get_row _) _ _ => unfold get_row; apply keeps_step; solve [tac]
      | |- keeps _ (find_by_nr _) _ _ => unfold find_by_nr; apply keeps_step; solve [tac]
      | |- keeps _ (get_inprogress _) _ _ =>
          unfold get_inprogress; apply keeps_step; solve [tac]
      | |- keeps _ (update_row _ _) _ _ => unfold update_row; apply keeps_step; solve [tac]
      | |- keeps _ save_to_db _ _ => unfold save_to_db; apply keeps_step; solve [tac]
      | |- keeps _ (record_event _ _ _) _ _ =>
          unfold record_event; apply keeps_step; solve [tac]
      | |- keeps _ (publish_email_notification _ _ _) _ _ =>
          unfold publish_email_notification; apply keeps_step; solve [tac]
      | |- keeps _ (utcnow _) _ _ => unfold utcnow; apply keeps_step; solve [tac]
      | |- keeps _ (RequestResource.add_comment _) _ _ =>
          unfold RequestResource.add_comment; apply keeps_step; solve [tac]
      | |- keeps _ (NameRequest.delete_solr_doc _) _ _ =>
          unfold NameRequest.delete_solr_doc; apply keeps_step; solve [tac]
      end ].

(** The first [n] steps of a sequence keep [I]; what follows them is left
    to be shown from [I]. *)
Ltac chain n I :=
  lazymatch n with
  | O => idtac
  | S ?n' => apply triple_bind with (R := fun _ => I); [|intros _; chain n' I]
  end.

(** [untouched k' X] is kept by the steps that do not write the row [k']. *)
Ltac untouched_step :=
  let H1 := fresh in
  let H2 := fresh in
  intros [? ? ?] [H1 H2]; split; cbn in *;
  rewrite ?lookup_alter_ne by congruence; assumption.

(** [bystanders ps rc sd] is kept by the steps on the requests. *)
Ltac bystanders_step :=
  let H := fresh in
  intros [? ? ?] H; unfold bystanders in *; cbn in *; tauto.

Module RequestFrame.
Import RequestResource.

Section Facts.
Variable env : Env.

Lemma keeps_add_new_comments I user k cs E F :
  (forall c, keeps I (add_comment c) E F) ->
  (forall s, I s -> F KeyError s) ->
  keeps I (add_new_comments env user k cs) E F.
Proof.
  intros Hc Hf. induction cs as [|c cs IH]; cbn [add_new_comments];
    keeps_auto ltac:(exact Hf).
Qed.

Lemma keeps_consume_names I corp ns E F :
  keeps I (utcnow env) E F -> keeps I (consume_names env corp ns) E F.
Proof.
  intros Hn. induction ns as [|a ns IH]; cbn [consume_names]; keeps_auto fail.
Qed.

(** The demotion writes the caller's request in progress, and no other. *)
Lemma untouched_patch_demote k' X user :
  (forall r, X = Some r -> is_inprogress_of user r = false) ->
  inv (untouched k' X) (patch_demote_inprogress user).
Proof.
  intros HX s Hs. unfold patch_demote_inprogress, mbind, M_bind, bind, get_inprogress.
  destruct (inprogress_key user (sess s)) as [k0|] eqn:Ek; [|exact Hs].
  apply find_row_Some in Ek as (r0 & Hr0 & Hp).
  assert (Hne : k0 <> k').
  { intros ->. destruct Hs as [H1 _]. rewrite Hr0 in H1.
    rewrite (HX r0) in Hp by congruence. discriminate. }
  assert (H : inv (untouched k' X) (update_row k0 revert_existing;; save_to_db)).
  { unfold inv. keeps_auto untouched_step. }
  apply H, Hs.
Qed.

Lemma bystanders_patch_demote ps rc sd user :
  inv (bystanders ps rc sd) (patch_demote_inprogress user).
Proof. unfold inv, patch_demote_inprogress. keeps_auto bystanders_step. Qed.

(** [patch] keeps what its steps keep: the writes of the request it has
    found, the demotion, the comments, the clock, the saves and the logs. *)
Lemma patch_handler_inv I nr j found :
  (forall nrd f, found = Some nrd -> inv I (update_row nrd f)) ->
  inv I (patch_demote_inprogress (jwt_user env)) ->
  inv I save_to_db ->
  (forall u a n, inv I (record_event u a n)) ->
  (forall n o v, inv I (publish_email_notification n o v)) ->
  inv I (utcnow env) ->
  (forall c, inv I (add_comment c)) ->
  triple (fun s => I s /\ nr_key (replace_percent20 nr) (sess s) = found)
    (patch_handler env nr j) (fun _ => I) (fun _ => I) (fun _ => I).
Proof.
  unfold inv. intros Hu Hd Hs He Hp Hn Hc. unfold patch_handler.
  destruct j as [j|]; [|apply triple_make_response; tauto].
  destruct (is_empty j); [apply triple_make_response; tauto|].
  eapply triple_bind; [apply (triple_read _ (fun s => nr_key _ (sess s)))|].
  intros found'. cbn beta.
  apply (triple_pre_pure (found' = found)); [intros s [[_ H] ->]; exact H|].
  intros ->. apply triple_pre with (P' := I); [|tauto].
  destruct found as [nrd|]; [|apply triple_make_response; auto].
  specialize (Hu nrd).
  pose proof (keeps_add_new_comments I (jwt_user env) nrd) as Hcs.
  pose proof (keeps_consume_names I) as Hns.
  unfold patch_state, patch_expiration, consumeName.
  keeps_auto ltac:(auto).
Qed.

(** On whatever body and with whatever outcome, [Request.patch] leaves
    alone every request other than the one it is called for and the one
    that the caller has in progress, and with them the payment-society
    rows; it calls neither the payment gateway nor the search index. *)
Theorem patch_leaves_the_other_requests nr j w k' :
  nr_key (replace_percent20 nr) (db w) <> Some k' ->
  (forall r, requests (db w) !! k' = Some r ->
     is_inprogress_of (jwt_user env) r = false) ->
  let w' := snd (patch env nr j w) in
  requests (db w') !! k' = requests (db w) !! k'
  /\ payment_societies (db w') = payment_societies (db w)
  /\ refund_calls w' = refund_calls w
  /\ solr_deleted w' = solr_deleted w.
Proof.
  intros Hk Hin w'. subst w'. unfold patch. split.
  - apply (triple_run (fun _ w' => requests (db w') !! k' = requests (db w) !! k'))
      with (P := fun s => untouched k' (requests (db w) !! k') s
                          /\ nr_key (replace_percent20 nr) (sess s)
                             = nr_key (replace_percent20 nr) (db w))
           (Q := fun _ => untouched k' (requests (db w) !! k'))
           (E := fun _ => untouched k' (requests (db w) !! k'))
           (F := fun _ => untouched k' (requests (db w) !! k')).
    + apply patch_handler_inv; unfold inv; intros;
        try (apply untouched_patch_demote; exact Hin);
        keeps_auto untouched_step.
    + repeat split.
    + intros _ s [_ H]. exact H.
    + intros _ s [_ H]. exact H.
    + intros _ s [_ H]. exact H.
  - apply (triple_run
             (fun _ w' => payment_societies (db w') = payment_societies (db w)
                          /\ refund_calls w' = refund_calls w
                          /\ solr_deleted w' = solr_deleted w))
      with (P := fun s => bystanders (payment_societies (db w)) (refund_calls w)
                            (solr_deleted w) s
                          /\ nr_key (replace_percent20 nr) (sess s)
                             = nr_key (replace_percent20 nr) (db w))
           (Q := fun _ => bystanders (payment_societies (db w)) (refund_calls w)
                            (solr_deleted w))
           (E := fun _ => bystanders (payment_societies (db w)) (refund_calls w)
                            (solr_deleted w))
           (F := fun _ => bystanders (payment_societies (db w)) (refund_calls w)
                            (solr_deleted w)).
    + apply patch_handler_inv; unfold inv; intros;
        try apply bystanders_patch_demote;
        keeps_auto bystanders_step.
    + repeat split.
    + intros _ s (_ & H). exact H.
    + intros _ s (_ & H). exact H.
    + intros _ s (_ & H). exact H.
Qed.

End Facts.
End RequestFrame.

Module RequestMore.
Import RequestResource.

Section Facts.
Variable env : Env.

Lemma row_val k r t w n : requests t !! k = Some r -> row k (mkSt t w n) = (Val r, mkSt t w n).
Proof. intros H. unfold row, mbind, M_bind, bind, get_row. cbn. rewrite H. reflexivity. Qed.

Lemma row_none k t w n :
  requests t !! k = None -> row k (mkSt t w n) = (Raise AttributeError, mkSt t w n).
Proof. intros H. unfold row, mbind, M_bind, bind, get_row. cbn. rewrite H. reflexivity. Qed.

(** When [Request.patch] is given a state that is valid and that the
    caller may give to the request, the request that the caller has in
    progress, if it is another one, is reverted in the database, however
    the call ends: it is in its previous state, which is cleared, when it
    had a non-empty one, and on HOLD otherwise. *)
Theorem patch_reverts_the_request_in_progress nr j w k r st k0 r0 :
  nr_key (replace_percent20 nr) (db w) = Some k ->
  requests (db w) !! k = Some r ->
  get (in_state j) None = Some st ->
  st <> "" ->
  str_in st State.VALID_STATES = true ->
  valid_state_transition env (jwt_user env) r st = true ->
  inprogress_key (jwt_user env) (db w) = Some k0 ->
  requests (db w) !! k0 = Some r0 ->
  k0 <> k ->
  exists r0',
    requests (db (snd (patch env nr (Some j) w))) !! k0 = Some r0'
    /\ kept r0 r0'
    /\ userId r0' = userId r0
    /\ (if truthy (previousStateCd r0)
        then Some (stateCd r0') = previousStateCd r0 /\ previousStateCd r0' = None
        else stateCd r0' = State.HOLD /\ previousStateCd r0' = previousStateCd r0).
Proof.
  intros Hk Hr Hst Hne Hvs Hv Hk0 Hr0 Hkk.
  exists (revert_existing r0). split; [|split; [apply RequestFacts.revert_existing_kept|split]].
  2:{ unfold revert_existing. destruct (truthy _); reflexivity. }
  2:{ pose proof (RequestFacts.revert_existing_state r0) as H.
      destruct (truthy (previousStateCd r0)); intuition congruence. }
  set (J := untouched k0 (Some (revert_existing r0))).
  unfold patch.
  apply (triple_run (fun _ w' => requests (db w') !! k0 = Some (revert_existing r0)))
    with (P := eq (mkSt (db w) w 0)) (Q := fun _ => J) (E := fun _ => J) (F := fun _ => J);
    [|reflexivity|intros _ s [_ H]; exact H..].
  destruct w as [[rq cm ps] ev nt rc sd]. cbn in Hk, Hr, Hk0, Hr0. cbn [db].
  set (w := mkWorld (mkTables rq cm ps) ev nt rc sd).
  unfold patch_handler. given.
  eapply triple_bind_val; [unfold find_by_nr; cbn; rewrite Hk; reflexivity|].
  eapply triple_bind_val; [apply row_val, Hr|].
  eapply triple_bind with (R := fun _ => J);
    [|intros; unfold J; keeps_auto untouched_step].
  apply triple_try with (F' := fun _ => J);
    [|intros; unfold J; keeps_auto untouched_step].
  rewrite Hst.
  assert (Ht : truthy (Some st) = true)
    by (cbn; apply negb_true_iff, String.eqb_neq, Hne).
  rewrite Ht. cbn [default from_option id].
  assert (Hcs : forall cs, keeps J (add_new_comments env (jwt_user env) k cs)
                             (fun _ => J) (fun _ => J)).
  { intros cs. apply RequestFrame.keeps_add_new_comments; [|auto].
    intros; unfold J; keeps_auto untouched_step. }
  assert (Hns : forall corp ns, keeps J (consume_names env corp ns)
                                  (fun _ => J) (fun _ => J)).
  { intros. apply RequestFrame.keeps_consume_names. unfold J; keeps_auto untouched_step. }
  eapply triple_bind with (R := fun _ => J);
    [|intros; unfold J, patch_expiration, consumeName; keeps_auto untouched_step].
  unfold patch_state. rewrite Hvs. cbn [negb].
  eapply triple_bind_val; [apply row_val, Hr|].
  rewrite Hv. cbn [negb].
  eapply triple_bind with (R := fun _ => J);
    [|intros; unfold J; keeps_auto untouched_step].
  intros s <-.
  destruct (RequestFacts.patch_demote_reverts (jwt_user env) rq cm ps w 0%nat k0 r0 Hk0 Hr0)
    as (rq' & w' & E & Hd & Hq & _).
  rewrite E. split; cbn; [exact Hq|]. rewrite Hd. exact Hq.
Qed.

(** [Request.patch] and the two logs.  An answer other than 200 leaves
    the audit trail and the notification queue as they were, even when the
    demotion of another request was committed on the way.  With the answer
    200 there is one event more, the PATCH of the request by the caller,
    and, when the state of the body is APPROVED, CONDITIONAL or REJECTED,
    one notification more, for the request's number and that state; with
    any other state, or none, nothing is published. *)
Theorem patch_trace nr j w :
  let res := patch env nr j w in
  let state := from_option (fun o => get (in_state o) None) None j in
  (status (fst res) <> 200 ->
   events (snd res) = events w /\ notifications (snd res) = notifications w)
  /\ (status (fst res) = 200 ->
      exists k r,
        nr_key (replace_percent20 nr) (db w) = Some k
        /\ requests (db w) !! k = Some r
        /\ events (snd res) = events w ++ [mkEvent (user_id (jwt_user env)) "PATCH" k]
        /\ notifications (snd res)
           = notifications w
             ++ match state with
                | Some st =>
                    if str_in st [State.APPROVED; State.CONDITIONAL; State.REJECTED]
                    then [mkNotification (nrNum r) st None] else []
                | None => []
                end).
Proof.
  intros res state. subst res.
  set (G := fun (resp : Response) (w' : World) =>
    (status resp <> 200 ->
     events w' = events w /\ notifications w' = notifications w)
    /\ (status resp = 200 ->
        exists k r,
          nr_key (replace_percent20 nr) (db w) = Some k
          /\ requests (db w) !! k = Some r
          /\ events w' = events w ++ [mkEvent (user_id (jwt_user env)) "PATCH" k]
          /\ notifications w'
             = notifications w
               ++ match state with
                  | Some st =>
                      if str_in st [State.APPROVED; State.CONDITIONAL; State.REJECTED]
                      then [mkNotification (nrNum r) st None] else []
                  | None => []
                  end)).
  change (G (fst (patch env nr j w)) (snd (patch env nr j w))).
  set (L0 := fun s : St =>
    events (world s) = events w /\ notifications (world s) = notifications w).
  assert (Hfail : forall resp s, status resp <> 200 -> L0 s -> G resp (world s)).
  { intros resp s H1 H2. split; [intros _; exact H2|intros H; contradiction]. }
  unfold patch.
  apply (triple_run G) with (P := eq (mkSt (db w) w 0))
    (Q := fun r s => False) (E := fun r s => G r (world s))
    (F := fun e s => L0 s);
    [|reflexivity|contradiction|auto|intros e s H; apply Hfail; [discriminate|exact H]].
  unfold patch_handler. destruct j as [j|].
  2:{ apply triple_make_response. intros s <-. apply Hfail; [discriminate|]. split; reflexivity. }
  destruct (is_empty j).
  { apply triple_make_response. intros s <-. apply Hfail; [discriminate|]. split; reflexivity. }
  cbn [from_option] in state.
  eapply triple_bind_val; [reflexivity|].
  cbn [sess]. destruct (nr_key (replace_percent20 nr) (db w)) as [k|] eqn:Hk.
  2:{ apply triple_make_response. intros s <-. apply Hfail; [discriminate|]. split; reflexivity. }
  destruct (requests (db w) !! k) as [r|] eqn:Hr.
  2:{ eapply triple_bind_raise; [apply row_none, Hr|]. split; reflexivity. }
  eapply triple_bind_val; [apply row_val, Hr|].
  set (IA := fun s : St =>
    L0 s /\ exists r', requests (sess s) !! k = Some r' /\ nrNum r' = nrNum r).
  set (ev1 := events w ++ [mkEvent (user_id (jwt_user env)) "PATCH" k]).
  set (IB := fun s : St =>
    (events (world s) = ev1 /\ notifications (world s) = notifications w)
    /\ exists r', requests (sess s) !! k = Some r' /\ nrNum r' = nrNum r).
  apply triple_pre with (P' := IA).
  2:{ intros s <-. split; [split; reflexivity|]. exists r. auto. }
  apply triple_bind with (R := fun _ => IB).
  - (* the guarded block *)
    apply triple_try with (F' := fun _ => IA).
    2:{ intros e. apply triple_make_response. intros s [H _]. apply Hfail; [discriminate|exact H]. }
    assert (Hstep : forall f k', forall s, IA s ->
              (forall r', nrNum (f r') = nrNum r') ->
              IA (set_sess (set_requests (alter f k' (requests (sess s))) (sess s)) s)).
    { intros f k' [t w0 n] ((H1 & H2) & r' & H3 & H4) Hf. split; [split; assumption|].
      cbn in *. rewrite lookup_alter. case_decide.
      - subst k'. rewrite H3. cbn. eexists. split; [reflexivity|]. rewrite Hf. exact H4.
      - exists r'. auto. }
    assert (Hrev : forall r', nrNum (revert_existing r') = nrNum r').
    { intros r'. unfold revert_existing. destruct (truthy _); reflexivity. }
    assert (Hcs : forall cs, keeps IA (add_new_comments env (jwt_user env) k cs)
                               (fun r s => G r (world s)) (fun _ => IA)).
    { intros cs. apply RequestFrame.keeps_add_new_comments; [|auto].
      intros c. unfold add_comment. apply keeps_step.
      intros [t w0 n] H. exact H. }
    assert (Hns : forall corp ns, keeps IA (consume_names env corp ns)
                                    (fun r s => G r (world s)) (fun _ => IA)).
    { intros. apply RequestFrame.keeps_consume_names. unfold utcnow. apply keeps_step.
      intros [t w0 n] H. exact H. }
    unfold patch_state, patch_demote_inprogress, patch_expiration, consumeName.
    chain 5%nat IA.
    1-5: keeps_auto ltac:(first
           [ solve [intros ? [? _]; apply Hfail; [discriminate|assumption]]
           | solve [intros ? ?; assumption]
           | solve [intros ? ?; apply Hstep; [assumption|auto]]
           | solve [intros [? ? ?] ?; assumption] ]).
    unfold record_event. apply triple_step.
    intros [t w0 n] ((H1 & H2) & H3). cbn in *. unfold IB, ev1. cbn. rewrite H1. auto.
  - (* the notification and the answer *)
    intros _ [t w0 n] ((H1 & H2) & r' & H3 & H4). cbn in H1, H2, H3.
    unfold mbind, M_bind, bind. rewrite (row_val k r' t w0 n H3).
    clear Hfail. unfold G. subst state.
    destruct (get (in_state j) None) as [st|]; cbn [opt_in];
      [destruct (str_in st [State.APPROVED; State.CONDITIONAL; State.REJECTED])|];
      cbn;
      (split; [intros H; exfalso; apply H; reflexivity|]);
      intros _; exists k, r; rewrite ?H1, ?H2, ?H4, ?app_nil_r; auto.
Qed.

(** [Request.patch] writes the request it is called for in one piece:
    with an answer other than 200 the request is in the database as it
    was, unless it is the request that the caller has in progress, which
    the demotion writes before the rest. *)
Theorem patch_failure_leaves_the_request nr j w k r :
  nr_key (replace_percent20 nr) (db w) = Some k ->
  requests (db w) !! k = Some r ->
  is_inprogress_of (jwt_user env) r = false ->
  status (fst (patch env nr j w)) <> 200 ->
  requests (db (snd (patch env nr j w))) !! k = Some r.
Proof.
  intros Hk Hr Hin.
  set (G := fun (resp : Response) (w' : World) =>
    status resp <> 200 -> requests (db w') !! k = Some r).
  change (G (fst (patch env nr j w)) (snd (patch env nr j w))).
  set (P1 := untouched k (Some r)).
  set (P2 := fun s : St =>
    requests (db (world s)) !! k = Some r /\ is_Some (requests (sess s) !! k)).
  set (P3 := fun s : St => is_Some (requests (sess s) !! k)).
  assert (H12 : forall s, P1 s -> P2 s).
  { intros s [H1 H2]. split; [exact H2|]. rewrite H1. eauto. }
  assert (Hfail : forall resp s, P2 s -> G resp (world s)).
  { intros resp s [H _] _. exact H. }
  unfold patch.
  apply (triple_run G) with (P := eq (mkSt (db w) w 0))
    (Q := fun r s => False) (E := fun r s => G r (world s))
    (F := fun e s => P2 s);
    [|reflexivity|contradiction|auto|intros e s H; apply Hfail, H].
  unfold patch_handler. destruct j as [j|].
  2:{ apply triple_make_response. intros s <- _. exact Hr. }
  destruct (is_empty j).
  { apply triple_make_response. intros s <- _. exact Hr. }
  eapply triple_bind_val; [unfold find_by_nr; cbn [sess]; rewrite Hk; reflexivity|].
  eapply triple_bind_val; [apply row_val, Hr|].
  apply triple_pre with (P' := P1).
  2:{ intros s <-. split; exact Hr. }
  assert (Hstep : forall f k' s, P2 s ->
            P2 (set_sess (set_requests (alter f k' (requests (sess s))) (sess s)) s)).
  { intros f k' [t w0 n] [H1 H2]. split; [exact H1|].
    cbn in *. rewrite lookup_alter. case_decide; [subst k'|exact H2].
    destruct H2 as [r' H2]. rewrite H2. cbn. eauto. }
  assert (Hstep3 : forall f k' s, P3 s ->
            P3 (set_sess (set_requests (alter f k' (requests (sess s))) (sess s)) s)).
  { intros f k' [t w0 n] H2. unfold P3 in *.
    cbn in *. rewrite lookup_alter. case_decide; [subst k'|exact H2].
    destruct H2 as [r' H2]. rewrite H2. cbn. eauto. }
  apply triple_bind with (R := fun _ => P3).
  - apply triple_try with (F' := fun _ => P2).
    2:{ intros e. apply triple_make_response. intros s H. apply Hfail, H. }
    assert (Hcs : forall cs, keeps P2 (add_new_comments env (jwt_user env) k cs)
                               (fun r s => G r (world s)) (fun _ => P2)).
    { intros cs. apply RequestFrame.keeps_add_new_comments; [|auto].
      intros c. unfold add_comment. apply keeps_step.
      intros [t w0 n] H. exact H. }
    assert (Hns : forall corp ns, keeps P2 (consume_names env corp ns)
                                    (fun r s => G r (world s)) (fun _ => P2)).
    { intros. apply RequestFrame.keeps_consume_names. unfold utcnow. apply keeps_step.
      intros [t w0 n] H. exact H. }
    apply triple_bind with (R := fun _ => P2).
    { (* the STATE block: the demotion comes first *)
      destruct (truthy (get (in_state j) None)); [|apply triple_ret; auto].
      unfold patch_state.
      destruct (negb (str_in _ State.VALID_STATES));
        [apply triple_make_response; intros s H; apply Hfail, H12, H|].
      apply triple_bind with (R := fun _ => P1).
      { apply triple_conseq with (P' := P1) (Q' := fun _ => P1)
          (E' := fun _ => P1) (F' := fun _ => P1);
          [ unfold P1; keeps_auto untouched_step
          | auto
          | intros ? ? H; exact H
          | intros ? ? H; apply Hfail, H12, H
          | intros ? ? H; apply H12, H ]. }
      intros r1. destruct (negb (valid_state_transition env _ r1 _));
        [apply triple_make_response; intros s H; apply Hfail, H12, H|].
      apply triple_bind with (R := fun _ => P2).
      { apply triple_conseq with (P' := P1) (Q' := fun _ => P1)
          (E' := fun _ => P1) (F' := fun _ => P1);
          [ apply RequestFrame.untouched_patch_demote; intros r' [= <-]; exact Hin
          | auto
          | intros ? ? H; apply H12, H
          | intros ? ? H; apply Hfail, H12, H
          | intros ? ? H; apply H12, H ]. }
      intros _.
      keeps_auto ltac:(first
        [ solve [intros ? ?; apply Hfail; assumption]
        | solve [intros ? ?; assumption]
        | solve [intros ? ?; apply Hstep; assumption]
        | solve [intros [? ? ?] ?; assumption] ]). }
    intros _. unfold patch_expiration, consumeName.
    chain 2%nat P2.
    1-2: keeps_auto ltac:(first
        [ solve [intros ? ?; apply Hfail; assumption]
        | solve [intros ? ?; assumption]
        | solve [intros ? ?; apply Hstep; assumption]
        | solve [intros [? ? ?] ?; assumption] ]).
    apply triple_bind with (R := fun _ => P2).
    { keeps_auto ltac:(first
        [ solve [intros ? ?; apply Hfail; assumption]
        | solve [intros ? ?; assumption]
        | solve [intros ? ?; apply Hstep; assumption]
        | solve [intros [? ? ?] ?; assumption] ]). }
    intros _. apply triple_bind with (R := fun _ => P3).
    { unfold save_to_db. apply triple_step. intros [t w0 n] [_ H]. exact H. }
    intros _. unfold record_event. apply triple_step. intros [t w0 n] H. exact H.
  - intros _ [t w0 n] [r' H3]. cbn in H3.
    unfold mbind, M_bind, bind. rewrite (row_val k r' t w0 n H3).
    destruct (opt_in _ _); cbn; intros H; exfalso; apply H; reflexivity.
Qed.

End Facts.
End RequestMore.

Module RequestEdges.
Import RequestResource.

Section Facts.
Variable env : Env.

(** [Request.patch] turns a call down before it writes anything: without
    a body, or with the empty object for a body, whatever the number
    (400); with a body that has a key, for a number that no request has,
    also after [%20] was replaced by a space (404); for a state that is
    not a state (406), and for a state that the caller may not give to the
    request (401; not 403).  In each case the world is what it was. *)
Theorem patch_rejects_without_effect nr w :
  patch env nr None w
  = (mkResponse 400 (Message "No input data provided"), w)
  /\ (forall j,
        is_empty j = true ->
        patch env nr (Some j) w
        = (mkResponse 400 (Message "No input data provided"), w))
  /\ (forall j,
        is_empty j = false ->
        nr_key (replace_percent20 nr) (db w) = None ->
        patch env nr (Some j) w
        = (mkResponse 404
             (Message ("Request:" ++ replace_percent20 nr ++ " not found")%string), w))
  /\ (forall j k r st,
        nr_key (replace_percent20 nr) (db w) = Some k ->
        requests (db w) !! k = Some r ->
        get (in_state j) None = Some st ->
        st <> "" ->
        (str_in st State.VALID_STATES = false ->
         patch env nr (Some j) w
         = (mkResponse 406 (Message "not a valid state"), w))
        /\ (str_in st State.VALID_STATES = true ->
            valid_state_transition env (jwt_user env) r st = false ->
            patch env nr (Some j) w
            = (mkResponse 401
                 (Message "Name Request state transition validation failed."), w))).
Proof.
  destruct w as [[rq cm ps] ev nt rc sd]. cbn [db requests].
  split; [reflexivity|]. split; [|split].
  - intros j He. unfold patch, patch_handler. exec. rewrite He. reflexivity.
  - intros j He Hk. unfold patch, patch_handler. exec. rewrite He. exec.
    rewrite Hk. reflexivity.
  - intros j k r st Hk Hr Hst Hne.
    assert (Ht : truthy (Some st) = true)
      by (cbn; apply negb_true_iff, String.eqb_neq, Hne).
    split.
    + intros Hvs. unfold patch, patch_handler. exec. given. exec.
      rewrite Hk. exec. rewrite Hr. exec.
      rewrite Hst, Ht. unfold patch_state. exec. rewrite Hvs. reflexivity.
    + intros Hvs Hv. unfold patch, patch_handler. exec. given. exec.
      rewrite Hk. exec. rewrite Hr. exec.
      rewrite Hst, Ht. unfold patch_state. exec. rewrite Hvs. exec. rewrite Hr. exec.
      rewrite Hv. reflexivity.
Qed.

(** [Request.put] checks the body before it looks the request up, and
    the names before it writes: no body, or the empty object for a body
    (400), a body that names another request (400), a body with a key but
    without a state (406) or with a state that is not a state (406), a
    number that no request has (404), a state that the caller may not
    give (401), a body without a first name choice (400) or with a third
    but no second (400), and a body without the list of names, on which
    the loop over the names raises (500).  In each case the world is what
    it was; in particular the request that the caller has in progress is
    not put on hold. *)
Theorem put_rejects_without_effect nr w :
  put env nr None w = (Some (mkResponse 400 (Message "No input data provided")), w)
  /\ (forall j,
        is_empty j = true ->
        put env nr (Some j) w
        = (Some (mkResponse 400 (Message "No input data provided")), w))
  /\ (forall j other,
        get (in_nrNum j) None = Some other -> other <> "" -> other <> nr ->
        put env nr (Some j) w
        = (Some (mkResponse 400
                   (Message "Data contains a different NR# than this resource")), w))
  /\ (forall j,
        is_empty j = false ->
        truthy (get (in_nrNum j) None) = false \/ get (in_nrNum j) None = Some nr ->
        (truthy (get (in_state j) None) = false ->
         put env nr (Some j) w = (Some (mkResponse 406 (Message "state not set")), w))
        /\ (forall st,
              get (in_state j) None = Some st -> st <> "" ->
              (str_in st State.VALID_STATES = false ->
               put env nr (Some j) w
               = (Some (mkResponse 406 (Message "not a valid state")), w))
              /\ (str_in st State.VALID_STATES = true ->
                  (nr_key nr (db w) = None ->
                   put env nr (Some j) w
                   = (Some (mkResponse 404
                              (Message ("Request:" ++ nr ++ " not found")%string)), w))
                  /\ (forall k r,
                        nr_key nr (db w) = Some k ->
                        requests (db w) !! k = Some r ->
                        (valid_state_transition env (jwt_user env) r st = false ->
                         put env nr (Some j) w
                         = (Some (mkResponse 401
                                    (Message "you are not authorized to make these changes")),
                            w))
                        /\ (valid_state_transition env (jwt_user env) r st = true ->
                            (get (in_names j) None = None ->
                             put env nr (Some j) w
                             = (Some (mkResponse 500 (Failure TypeError)), w))
                            /\ (forall ns,
                                  get (in_names j) None = Some ns ->
                                  (name_choice_exists ns 1 = false ->
                                   put env nr (Some j) w
                                   = (Some (mkResponse 400
                                              (Message "Data does not include a name choice 1")),
                                      w))
                                  /\ (name_choice_exists ns 1 = true ->
                                      name_choice_exists ns 2 = false ->
                                      name_choice_exists ns 3 = true ->
                                      put env nr (Some j) w
                                      = (Some (mkResponse 400
                                                 (Message
                                                    "Data contains a name choice 3 without a name choice 2")),
                                         w)))))))).
Proof.
  destruct w as [[rq cm ps] ev nt rc sd]. cbn [db requests].
  split; [reflexivity|]. split; [|split].
  - intros j He. unfold put, put_until_demotion. rewrite He. reflexivity.
  - intros j other Hn Hne Hd. unfold put, put_until_demotion.
    assert (He : is_empty j = false).
    { unfold is_empty. destruct (in_nrNum j); try discriminate. reflexivity. }
    rewrite He, Hn.
    assert (Ht : truthy (Some other) = true)
      by (cbn; apply negb_true_iff, String.eqb_neq, Hne).
    rewrite Ht, bool_decide_eq_false_2 by congruence. reflexivity.
  - intros j He Hn.
    assert (Hgo : truthy (get (in_nrNum j) None)
                  && negb (bool_decide (get (in_nrNum j) None = Some nr)) = false).
    { destruct Hn as [Hn|Hn]; [rewrite Hn; reflexivity|].
      rewrite Hn, bool_decide_eq_true_2 by reflexivity. apply andb_false_r. }
    split.
    + intros Hs. unfold put, put_until_demotion. rewrite He, Hgo, Hs. reflexivity.
    + intros st Hst Hne.
      assert (Ht : truthy (Some st) = true)
        by (cbn; apply negb_true_iff, String.eqb_neq, Hne).
      split.
      * intros Hvs. unfold put, put_until_demotion. rewrite He, Hgo, Hst, Ht.
        cbn [negb opt_in]. rewrite Hvs. reflexivity.
      * intros Hvs. split.
        -- intros Hk. unfold put, put_until_demotion. rewrite He, Hgo, Hst, Ht.
           cbn [negb opt_in]. rewrite Hvs. exec. rewrite Hk. reflexivity.
        -- intros k r Hk Hr. split.
           ++ intros Hv. unfold put, put_until_demotion. rewrite He, Hgo, Hst, Ht.
              cbn [negb opt_in]. rewrite Hvs. exec. rewrite Hk. exec. rewrite Hr. exec.
              rewrite Hv. reflexivity.
           ++ intros Hv. split.
              ** intros Hns. unfold put, put_until_demotion. rewrite He, Hgo, Hst, Ht.
                 cbn [negb opt_in]. rewrite Hvs. exec. rewrite Hk. exec. rewrite Hr. exec.
                 rewrite Hv. exec. rewrite Hns. reflexivity.
              ** intros ns Hns. split.
                 --- intros H1. unfold put, put_until_demotion. rewrite He, Hgo, Hst, Ht.
                     cbn [negb opt_in]. rewrite Hvs. exec. rewrite Hk. exec. rewrite Hr. exec.
                     rewrite Hv. exec. rewrite Hns, H1. reflexivity.
                 --- intros H1 H2 H3. unfold put, put_until_demotion. rewrite He, Hgo, Hst, Ht.
                     cbn [negb opt_in]. rewrite Hvs. exec. rewrite Hk. exec. rewrite Hr. exec.
                     rewrite Hv. exec. rewrite Hns, H1, H2, H3. reflexivity.
Qed.

(** The comments of a readable body are added without a failure and
    without a change to the requests or to the world. *)
Lemma comments_added j k rq cm ps w n :
  comments_ok j = true ->
  exists cm',
    match get (in_comments j) None with
    | Some (c :: cs) => add_new_comments env (jwt_user env) k (c :: cs)
    | _ => mret tt
    end (mkSt (mkTables rq cm ps) w n)
    = (Val tt, mkSt (mkTables rq cm' ps) w n).
Proof.
  intros Hc. unfold comments_ok in Hc.
  destruct (get (in_comments j) None) as [[|c cs]|].
  - exists cm. reflexivity.
  - apply RequestFacts.add_new_comments_ok. exact Hc.
  - exists cm. reflexivity.
Qed.

(** A PATCH that takes an existing request to INPROGRESS (the change is
    permitted and the comments of the body are readable) succeeds; the
    request is INPROGRESS and the caller's, and its furnished flag and its
    expiration date are what they were: the flag is set to ['N'] only when
    the state that the request had is the name of a local variable of
    [patch], which no state is. *)
Theorem patch_to_inprogress_keeps_furnished nr j w k r :
  nr_key (replace_percent20 nr) (db w) = Some k ->
  requests (db w) !! k = Some r ->
  get (in_state j) None = Some State.INPROGRESS ->
  valid_state_transition env (jwt_user env) r State.INPROGRESS = true ->
  comments_ok j = true ->
  str_in (stateCd r) patch_locals = false ->
  let res := patch env nr (Some j) w in
  status (fst res) = 200
  /\ notifications (snd res) = notifications w
  /\ exists r',
      requests (db (snd res)) !! k = Some r'
      /\ stateCd r' = State.INPROGRESS
      /\ userId r' = Some (user_id (jwt_user env))
      /\ furnished r' = furnished r
      /\ expirationDate r' = expirationDate r.
Proof.
  intros Hk Hr Hst Hv Hc Hloc res. subst res.
  destruct w as [[rq cm ps] ev nt rc sd]. cbn in Hk, Hr.
  unfold patch, patch_handler. exec. given. exec. rewrite Hk. exec. rewrite Hr. exec.
  rewrite Hst. change (truthy (Some State.INPROGRESS)) with true.
  rewrite (bool_decide_eq_false_2 (Some State.INPROGRESS = Some State.CONSUMED))
    by discriminate.
  exec. unfold patch_state.
  change (str_in State.INPROGRESS State.VALID_STATES) with true.
  exec. rewrite Hr. exec. rewrite Hv. exec.
  destruct (RequestFacts.patch_demote_runs (jwt_user env) rq cm ps
              (mkWorld (mkTables rq cm ps) ev nt rc sd) 0%nat)
    as (rq0 & w0 & E & Hkept & He & Hn & Hd).
  rewrite E. exec.
  destruct (Hkept k r Hr) as (r0 & Hr0 & K0).
  rewrite Hloc. cbn [andb].
  change (str_in State.INPROGRESS (State.COMPLETED_STATE ++ [State.CANCELLED])) with false.
  exec.
  match goal with |- context [mkSt (mkTables ?m cm ps) w0 0%nat] =>
    destruct (comments_added j k m cm ps w0 0%nat Hc) as (cm' & Ec)
  end.
  exec in Ec. rewrite Ec. exec.
  destruct (kept_fields _ _ K0) as (F1 & F2 & F3 & _).
  unfold patch_expiration.
  destruct (has_key (in_previousStateCd j)); exec; rows Hr0; exec; fields;
    change (str_in State.INPROGRESS [State.APPROVED; State.REJECTED; State.CONDITIONAL])
      with false;
    exec; rows Hr0; exec; fields;
    change (opt_in (Some State.INPROGRESS)
              [State.APPROVED; State.CONDITIONAL; State.REJECTED]) with false;
    exec;
    (split; [reflexivity|]); (split; [exact Hn|]);
    rows Hr0; (eexists; split; [reflexivity|]); fields; auto.
Qed.

(** A PATCH whose body has a key, but gives no state (the key [state]
    is absent, null or empty), to an existing request succeeds and changes
    neither the state of the request nor its owner nor its names; it
    demotes no request, reads no comment and publishes nothing.  It writes
    the previous state when the body has the key, be it with null, and
    the expiration rule applies to the state that the request has.  (The
    empty object is no such body: it is answered 400.) *)
Theorem patch_without_state nr j w k r :
  nr_key (replace_percent20 nr) (db w) = Some k ->
  requests (db w) !! k = Some r ->
  is_empty j = false ->
  truthy (get (in_state j) None) = false ->
  let res := patch env nr (Some j) w in
  let due :=
    str_in (stateCd r) decision_states && String.eqb (furnished r) "N"
    && bool_decide (expirationDate r = None) in
  status (fst res) = 200
  /\ notifications (snd res) = notifications w
  /\ comments (db (snd res)) = comments (db w)
  /\ (forall k', k' <> k -> requests (db (snd res)) !! k' = requests (db w) !! k')
  /\ exists r',
      requests (db (snd res)) !! k = Some r'
      /\ stateCd r' = stateCd r /\ userId r' = userId r /\ names r' = names r
      /\ previousStateCd r'
         = (if has_key (in_previousStateCd j)
            then get (in_previousStateCd j) None else previousStateCd r)
      /\ furnished r' = (if due then "Y" else furnished r)
      /\ expirationDate r'
         = (if due
            then Some (create_expiry_date env (clock env 0)
                         (get_expiry_days env (request_action_cd r) (requestTypeCd r)))
            else expirationDate r).
Proof.
  intros Hk Hr He Ht res due. subst res due.
  destruct w as [[rq cm ps] ev nt rc sd]. cbn in Hk, Hr.
  assert (Hcons : bool_decide (get (in_state j) None = Some State.CONSUMED) = false).
  { apply bool_decide_eq_false_2. intros H. rewrite H in Ht. discriminate. }
  assert (Hpub : opt_in (get (in_state j) None)
                   [State.APPROVED; State.CONDITIONAL; State.REJECTED] = false).
  { destruct (get (in_state j) None) as [s|]; [|reflexivity].
    cbn in Ht. apply negb_false_iff, String.eqb_eq in Ht. subst s. reflexivity. }
  unfold patch, patch_handler. exec. given. exec. rewrite Hk. exec. rewrite Hr. exec.
  rewrite Ht, Hcons. exec. unfold patch_expiration, decision_states.
  destruct (has_key (in_previousStateCd j)); exec; rows Hr; exec; fields;
    destruct (str_in (stateCd r) [State.APPROVED; State.REJECTED; State.CONDITIONAL]
              && String.eqb (furnished r) "N"
              && bool_decide (expirationDate r = None));
    exec; rows Hr; exec; fields; rewrite Hpub; exec;
    (repeat apply conj;
     [ reflexivity | reflexivity | reflexivity
     | intros k' Hne; rewrite ?lookup_alter_ne by congruence; reflexivity
     | rows Hr; eexists; split; [reflexivity|]; fields; auto 10 ]).
Qed.

End Facts.
End RequestEdges.

(** ** payment_societies.py, further *)

Module PaymentSocietiesMore.
Import PaymentSocieties.

Lemma nr_key_complete nr t k r :
  requests t !! k = Some r -> nrNum r = nr -> exists k', nr_key nr t = Some k'.
Proof.
  intros Hr Hn. unfold nr_key, find_row.
  destruct (List.find _ _) as [[k' r']|] eqn:E; [cbn; eauto|].
  exfalso. assert (H : In (k, r) (map_to_list (requests t))).
  { apply list_elem_of_In, elem_of_map_to_list. exact Hr. }
  apply (find_none _ _ E) in H. cbn in H.
  apply String.eqb_neq in H. contradiction.
Qed.

Lemma txn_history_rev results :
  PaymentSocietiesSearch.txn_history results = rev results.
Proof.
  unfold PaymentSocietiesSearch.txn_history.
  rewrite <- (app_nil_r (rev results)). generalize (@nil PaymentSocietiesSearch.Transaction).
  induction results as [|x xs IH]; intros acc; cbn; [reflexivity|].
  rewrite IH, <- app_assoc. reflexivity.
Qed.

Lemma get_eq nr w :
  PaymentSocietiesSearch.get nr w
  = match nr_key nr (db w) with
    | None =>
        (404, PaymentSocietiesSearch.Message
                ("Request: " ++ nr ++ " not found in requests table")%string)
    | Some _ =>
        match PaymentSocietiesSearch.filter_by_nrNum nr (db w) with
        | [] =>
            (404, PaymentSocietiesSearch.Message
                    ("Request: " ++ nr ++ " not found in payment_societies table")%string)
        | rows =>
            (200, PaymentSocietiesSearch.History (length rows) (rev rows))
        end
    end.
Proof.
  unfold PaymentSocietiesSearch.get.
  destruct (nr_key nr (db w)); [|reflexivity].
  rewrite txn_history_rev.
  destruct (PaymentSocietiesSearch.filter_by_nrNum nr (db w)) as [|x xs]; [reflexivity|].
  cbn [head]. rewrite length_rev. reflexivity.
Qed.

(** For a number that a request has, the history of GET holds the
    payment-society rows of that number, the latest first, and their
    count; without such a row the answer is 404, as it is for a number
    that no request has.  The third 404 of [get], for an empty history, is
    never given. *)
Theorem get_lists_latest_first nr w :
  PaymentSocietiesSearch.get nr w
  = match nr_key nr (db w) with
    | None =>
        (404, PaymentSocietiesSearch.Message
                ("Request: " ++ nr ++ " not found in requests table")%string)
    | Some _ =>
        match PaymentSocietiesSearch.filter_by_nrNum nr (db w) with
        | [] =>
            (404, PaymentSocietiesSearch.Message
                    ("Request: " ++ nr ++ " not found in payment_societies table")%string)
        | rows =>
            (200, PaymentSocietiesSearch.History (length rows) (rev rows))
        end
    end.
Proof. apply get_eq. Qed.

Section Facts.
Variable env : Env.

(** [PaymentSocieties.post] turns a call down before it writes anything:
    without a body, or with the empty object for a body (400); with a
    body that has a key but not the number of the request, or an empty
    number (406); and for a number that no request has (404). *)
Theorem post_rejects_without_effect w :
  post env None w = (mkResponse 400 (Message "No input data provided"), w)
  /\ (forall j,
        is_empty j = true ->
        post env (Some j) w = (mkResponse 400 (Message "No input data provided"), w))
  /\ (forall j,
        is_empty j = false ->
        truthy (get (in_nrNum j) None) = false ->
        post env (Some j) w
        = (mkResponse 406 (Message "nr_num not set in json input"), w))
  /\ (forall j nr_num,
        get (in_nrNum j) None = Some nr_num ->
        nr_num <> "" ->
        nr_key nr_num (db w) = None ->
        post env (Some j) w
        = (mkResponse 404
             (Message ("Request: " ++ nr_num ++ " not found in requests table")%string),
           w)).
Proof.
  destruct w as [[rq cm ps] ev nt rc sd]. cbn [db].
  split; [reflexivity|]. split; [|split].
  - intros j He. unfold post, post_handler. rewrite He. reflexivity.
  - intros j He H. unfold post, post_handler. rewrite He, H. reflexivity.
  - intros j nr_num Hn Hne Hk. unfold post, post_handler. given. rewrite Hn.
    assert (Ht : truthy (Some nr_num) = true)
      by (cbn; apply negb_true_iff, String.eqb_neq, Hne).
    rewrite Ht. exec. rewrite Hk. reflexivity.
Qed.

(** The world after a POST for an existing request. *)
Lemma post_runs j w nr_num k r :
  get (in_nrNum j) None = Some nr_num ->
  nr_num <> "" ->
  nr_key nr_num (db w) = Some k ->
  requests (db w) !! k = Some r ->
  let nr' := formal_nr_num env (nrNum r) in
  exists rq' r',
    snd (post env (Some j) w)
    = mkWorld
        (mkTables rq' (comments (db w))
           (payment_societies (db w) ++ [society_of j nr']))
        (events w) (notifications w) (refund_calls w) (solr_deleted w)
    /\ rq' !! k = Some r' /\ nrNum r' = nr'
    /\ (forall k', k' <> k -> rq' !! k' = requests (db w) !! k').
Proof.
  intros Hn Hne Hk Hr nr'. subst nr'.
  destruct w as [[rq cm ps] ev nt rc sd]. cbn in Hk, Hr.
  unfold post, post_handler. given. rewrite Hn.
  assert (Ht : truthy (Some nr_num) = true)
    by (cbn; apply negb_true_iff, String.eqb_neq, Hne).
  rewrite Ht. exec. rewrite Hk. exec.
  unfold add_new_nr_number. exec. rewrite Hr. exec.
  rewrite !lookup_alter_eq, Hr. cbn [fmap option_fmap option_map].
  unfold save_payment_society. exec.
  cbn [stateCd nrNum set_nrNum].
  destruct (String.eqb (stateCd r) State.PENDING_PAYMENT); exec;
    (eexists _, _; split; [reflexivity|]); cbn;
    rewrite ?lookup_alter_eq, ?Hr; cbn;
    (repeat apply conj; [reflexivity|reflexivity|]);
    intros k' Hk'; rewrite ?lookup_alter_ne by congruence; reflexivity.
Qed.

(** POST, then GET: after a POST for an existing request, the GET for
    the number that the request then has answers 200; the record just
    posted is the first entry of the history, under the id that follows
    those of the table, and the entries that the number had before follow
    it. *)
Theorem get_after_post j w nr_num k r :
  get (in_nrNum j) None = Some nr_num ->
  nr_num <> "" ->
  nr_key nr_num (db w) = Some k ->
  requests (db w) !! k = Some r ->
  let nr' := formal_nr_num env (nrNum r) in
  let earlier := PaymentSocietiesSearch.filter_by_nrNum nr' (db w) in
  PaymentSocietiesSearch.get nr' (snd (post env (Some j) w))
  = (200,
     PaymentSocietiesSearch.History (S (length earlier))
       (PaymentSocietiesSearch.mkTransaction (length (payment_societies (db w)))
          (society_of j nr')
        :: rev earlier)).
Proof.
  intros Hn Hne Hk Hr nr' earlier.
  destruct (post_runs j w nr_num k r Hn Hne Hk Hr) as (rq' & r' & E & Hr' & Hnum & _).
  fold nr' in E, Hnum. rewrite E, get_eq. cbn [db].
  destruct (nr_key_complete nr' (mkTables rq' (comments (db w))
              (payment_societies (db w) ++ [society_of j nr'])) k r' Hr' Hnum)
    as (k' & ->).
  unfold PaymentSocietiesSearch.filter_by_nrNum. cbn [payment_societies].
  rewrite imap_app, List.filter_app. cbn [imap List.filter PaymentSocietiesSearch.tx_row
    society_of ps_nrNum].
  rewrite String.eqb_refl, Nat.add_0_r.
  fold (PaymentSocietiesSearch.filter_by_nrNum nr' (db w)). fold earlier.
  destruct (earlier ++ [_]) as [|x xs] eqn:Ex; [destruct earlier; discriminate|].
  rewrite <- Ex, length_app, rev_app_distr, Nat.add_1_r. reflexivity.
Qed.

End Facts.
End PaymentSocietiesMore.

(** ** name_request.py, further *)

Module NameRequestMore.
Import NameRequestPatchActions NameRequest.

Lemma upper_ascii_idem c : upper_ascii (upper_ascii c) = upper_ascii c.
Proof. destruct c as [[] [] [] [] [] [] [] []]; reflexivity. Qed.

Lemma upper_idem s : upper (upper s) = upper s.
Proof.
  induction s as [|c s IH]; [reflexivity|].
  cbn. rewrite upper_ascii_idem, IH. reflexivity.
Qed.

Lemma has_value_by_name v :
  has_value v = true -> exists a, by_name v = Some a /\ value a = v.
Proof.
  unfold has_value, by_name. intros H.
  apply existsb_exists in H as (a & Hin & Ha).
  destruct (List.find _ members) as [b|] eqn:E.
  - apply find_some in E as [_ E]. exists b. split; [reflexivity|].
    apply String.eqb_eq. exact E.
  - apply (find_none _ _ E) in Hin. congruence.
Qed.

Section Facts.
Variable env : Env.

(** The action of the path is read without regard to the case of its
    letters: a PATCH does with an action what it does with the action in
    upper case. *)
Theorem patch_action_in_any_case nr_id tok request_json w :
  patch env nr_id tok request_json w = patch env nr_id (upper tok) request_json w.
Proof.
  unfold patch, patch_handler, resolve_action. rewrite upper_idem. reflexivity.
Qed.

(** CHECKIN does not read the body: it asks for no token, so that the
    request is checked in by whoever has access to it, whoever has
    checked it out. *)
Theorem checkin_ignores_the_body nr_id tok b1 b2 w :
  upper tok = value CHECKIN ->
  patch env nr_id tok b1 w = patch env nr_id tok b2 w.
Proof.
  intros Ht. unfold patch, patch_handler.
  destruct (full_access_to_name_request env); [|reflexivity].
  destruct w as [[rq cm ps] ev nt rc sd].
  exec. rewrite !(NameRequestFacts.resolve_known _ _ _ Ht).
  reflexivity.
Qed.

(** The actions that take the body of the call as their data. *)
Lemma initialize_passes a nr_id request_json s :
  a <> CHECKOUT -> a <> CHECKIN -> a <> REQUEST_REFUND ->
  initialize env (value a) nr_id request_json s = (Val request_json, s).
Proof. destruct a; intros; try contradiction; reflexivity. Qed.

(** What [NameRequestFields.patch] and [NameRequestResource.put] answer
    when they turn a call down, the world being left as it was: 403
    without access; 500 with the attribute error for an id that no request
    has, whatever the action; and, for EDIT, CANCEL and RESEND, 500 when
    the state of the body, or that of the request when the body has none,
    is neither request-editable nor contact-editable.  The error then
    carries the message [Invalid request for PATCH] and not the message
    that the validation has composed, which names the state; and when the
    body gives the state as null, composing that message fails (500 with
    the type error). *)
Theorem name_request_rejects_without_effect nr_id tok request_json w :
  (full_access_to_name_request env = false ->
   patch env nr_id tok request_json w
   = (mkResponse 403 (Message "You do not have access to this NameRequest."), w)
   /\ put env nr_id request_json w
      = (mkResponse 403 (Message "You do not have access to this NameRequest."), w))
  /\ (full_access_to_name_request env = true ->
      requests (db w) !! nr_id = None ->
      patch env nr_id tok request_json w = (mkResponse 500 (Failure AttributeError), w)
      /\ put env nr_id request_json w = (mkResponse 500 (Failure AttributeError), w))
  /\ (forall a r data,
        full_access_to_name_request env = true ->
        upper tok = value a ->
        a = EDIT \/ a = CANCEL \/ a = RESEND ->
        requests (db w) !! nr_id = Some r ->
        request_json = Some data ->
        patchable env r data = false ->
        patch env nr_id tok request_json w
        = (mkResponse 500
             (Failure match rd_stateCd data with
                      | Null => TypeError
                      | _ => InvalidInputError "Invalid request for PATCH"
                      end), w)).
Proof.
  destruct w as [[rq cm ps] ev nt rc sd]. cbn [db requests].
  repeat apply conj.
  - intros Ha. unfold patch, put, patch_handler, put_handler. rewrite Ha. split; reflexivity.
  - intros Ha Hr. split.
    + unfold patch, patch_handler, resolve_action. rewrite Ha. exec.
      destruct (has_value (upper tok)) eqn:Eh.
      * destruct (has_value_by_name _ Eh) as (a & Ea & _). rewrite Ea.
        exec. destruct a; unfold initialize; cbn [value];
          repeat match goal with
                 | |- context [String.eqb ?x ?y] =>
                     let b := eval vm_compute in (String.eqb x y) in
                     change (String.eqb x y) with b
                 end;
          exec; rewrite ?Hr; reflexivity.
      * exec. unfold initialize. cbn [value].
        change (String.eqb "EDIT" "CHECKOUT") with false.
        change (String.eqb "EDIT" "CHECKIN") with false.
        change (String.eqb "EDIT" "REQUEST_REFUND") with false.
        exec. rewrite Hr. reflexivity.
    + unfold put, put_handler. rewrite Ha. exec. rewrite Hr. reflexivity.
  - intros a r data Ha Ht Hact Hr -> Hv.
    unfold patch, patch_handler. rewrite Ha. exec.
    rewrite (NameRequestFacts.resolve_known _ _ _ Ht).
    rewrite initialize_passes by (destruct Hact as [->|[->| ->]]; discriminate).
    exec. rewrite Hr. unfold body_of. exec.
    unfold patchable in Hv. apply orb_false_iff in Hv as [Hv1 Hv2].
    unfold validate_patch_request. rewrite Hv1, Hv2.
    destruct (rd_stateCd data) as [| |st]; cbn [get]; exec;
      try reflexivity;
      (assert (Hh : has_value (value a) = true) by (destruct a; reflexivity));
      rewrite Hh; exec;
      match goal with
      | |- context [Nat.ltb 0 (String.length ?m)] =>
          assert (Hl : Nat.ltb 0 (String.length m) = true) by reflexivity;
          rewrite Hl
      end; reflexivity.
Qed.

(** Marking the payment at position [length pre]. *)
Lemma mark_payment_at nr_id pre p rest r rq cm pst w n :
  rq !! nr_id = Some r ->
  payments r = pre ++ p :: rest ->
  let r' :=
    set_payments
      (pre ++ Payment.set_payment_status_code PaymentState.REFUND_REQUESTED p :: rest) r in
  let rq' := <[nr_id := r']> rq in
  mark_payment nr_id (length pre) PaymentState.REFUND_REQUESTED
    (mkSt (mkTables rq cm pst) w n)
  = (Val tt,
     mkSt (mkTables rq' cm pst)
       (mkWorld (mkTables rq' cm pst) (events w) (notifications w) (refund_calls w)
          (solr_deleted w)) n).
Proof.
  intros Hr Hp r' rq'. unfold mark_payment. exec.
  assert (Ea : alter (fun r0 => set_payments
                   (alter (Payment.set_payment_status_code PaymentState.REFUND_REQUESTED)
                      (length pre) (payments r0)) r0) nr_id rq
               = rq').
  { apply map_eq. intros k. subst rq'. rewrite lookup_alter, lookup_insert.
    case_decide; [subst k|reflexivity]. rewrite Hr. cbn.
    f_equal. subst r'. rewrite Hp.
    replace (length pre) with (length pre + 0)%nat by lia.
    rewrite alter_app_r. reflexivity. }
  rewrite Ea. reflexivity.
Qed.

(** The refund loop up to a refund call that raises: the eligible
    payments before it have been marked and saved, the gateway has been
    called for those with an amount and for the payment at which it
    raises; that payment and the ones after it are as they were. *)
Lemma refund_payments_until_raise nr_id before :
  forall pre r rq cm pst w n v p rest,
    rq !! nr_id = Some r ->
    payments r = pre ++ before ++ p :: rest ->
    (forall q, In q before -> needs_refund_call env q = true -> refund_returns env q) ->
    needs_refund_call env p = true ->
    refund_payment env (Payment.payment_token p) = RefundRaised ->
    db w = mkTables rq cm pst ->
    exists rq' w',
      refund_payments env nr_id (length pre) (before ++ p :: rest) v
        (mkSt (mkTables rq cm pst) w n)
      = (Raise SBCPaymentException, mkSt (mkTables rq' cm pst) w' n)
      /\ rq' !! nr_id
         = Some (set_payments (pre ++ map mark_refund_requested before ++ p :: rest) r)
      /\ db w' = mkTables rq' cm pst
      /\ events w' = events w
      /\ notifications w' = notifications w
      /\ refund_calls w'
         = refund_calls w ++ refund_tokens env before ++ [Payment.payment_token p].
Proof.
  induction before as [|b before IH];
    intros pre r rq cm pst w n v p rest Hr Hp Hret Hn Hraise Hdb.
  - cbn [app]. rewrite (NameRequestFacts.refund_payments_raise env nr_id _ p rest v _ w n Hn Hraise).
    exists rq. eexists. split; [reflexivity|]. cbn.
    repeat apply conj; try reflexivity; [|exact Hdb].
    rewrite Hr. f_equal. cbn in Hp. rewrite <- Hp. destruct r; reflexivity.
  - cbn [app refund_payments].
    assert (Hrest : forall q, In q before ->
                      needs_refund_call env q = true -> refund_returns env q).
    { intros q Hq. apply Hret. right. exact Hq. }
    destruct (str_in (Payment.payment_status_code b) valid_states) eqn:El.
    + set (tok := Payment.payment_token b).
      set (b' := Payment.set_payment_status_code PaymentState.REFUND_REQUESTED b).
      set (r' := set_payments (pre ++ b' :: before ++ p :: rest) r).
      assert (Hmark : mark_refund_requested b = b').
      { unfold mark_refund_requested, eligible. rewrite El. reflexivity. }
      assert (Hr' : <[nr_id := r']> rq !! nr_id = Some r') by apply lookup_insert_eq.
      assert (Hp' : payments r' = (pre ++ [b']) ++ before ++ p :: rest).
      { subst r'. cbn. rewrite <- app_assoc. reflexivity. }
      assert (Hlen : length (pre ++ [b']) = S (length pre)).
      { rewrite length_app. cbn. lia. }
      assert (Hfin : forall w1,
                db w1 = mkTables (<[nr_id := r']> rq) cm pst ->
                events w1 = events w -> notifications w1 = notifications w ->
                refund_calls w1
                = refund_calls w ++ (if needs_refund_call env b then [tok] else []) ->
                exists rq' w',
                  refund_payments env nr_id (S (length pre)) (before ++ p :: rest)
                    (Float.add v (receipt_amount env tok))
                    (mkSt (mkTables (<[nr_id := r']> rq) cm pst) w1 n)
                  = (Raise SBCPaymentException, mkSt (mkTables rq' cm pst) w' n)
                  /\ rq' !! nr_id
                     = Some (set_payments
                               (pre ++ map mark_refund_requested (b :: before) ++ p :: rest) r)
                  /\ db w' = mkTables rq' cm pst
                  /\ events w' = events w
                  /\ notifications w' = notifications w
                  /\ refund_calls w'
                     = refund_calls w ++ refund_tokens env (b :: before)
                       ++ [Payment.payment_token p]).
      { intros w1 D1 E1 N1 C1.
        destruct (IH _ r' _ cm pst w1 n (Float.add v (receipt_amount env tok)) p rest
                    Hr' Hp' Hrest Hn Hraise D1)
          as (rq' & w' & E & Hq & Hd & He & Hnn & Hc).
        rewrite Hlen in E. exists rq', w'. repeat apply conj; try assumption.
        - rewrite Hq. subst r'. rewrite NameRequestFacts.set_payments_twice.
          cbn [map app]. rewrite Hmark, <- app_assoc. reflexivity.
        - congruence.
        - congruence.
        - rewrite Hc, C1. unfold refund_tokens. cbn [List.filter].
          destruct (needs_refund_call env b); cbn [map app];
            rewrite <- ?app_assoc; reflexivity. }
      assert (Hpb : payments r = pre ++ b :: before ++ p :: rest) by exact Hp.
      destruct (Float.nonzero (total (get_payment env tok))) eqn:Ez.
      all: swap 1 2.
      * exec. rewrite (mark_payment_at nr_id pre b _ r rq cm pst w n Hr Hpb). exec.
        fold b' r'. unfold receipt_amount in Hfin. fold tok.
        apply Hfin; try reflexivity. cbn.
        unfold needs_refund_call, eligible. rewrite El. fold tok. rewrite Ez.
        cbn. rewrite app_nil_r. reflexivity.
      * destruct (Hret b (or_introl eq_refl)) as [hs Hhs].
        { unfold needs_refund_call, eligible. rewrite El. fold tok. rewrite Ez.
          reflexivity. }
        fold tok in Hhs.
        exec. unfold call_refund_payment. rewrite Hhs. exec.
        rewrite (mark_payment_at nr_id pre b _ r rq cm pst _ n Hr Hpb). exec.
        fold b' r'. unfold receipt_amount in Hfin. fold tok.
        apply Hfin; try reflexivity. cbn.
        unfold needs_refund_call, eligible. rewrite El. fold tok. rewrite Ez.
        reflexivity.
    + assert (Hp' : payments r = (pre ++ [b]) ++ before ++ p :: rest).
      { rewrite Hp, <- app_assoc. reflexivity. }
      assert (Hlen : length (pre ++ [b]) = S (length pre)).
      { rewrite length_app. cbn. lia. }
      destruct (IH _ r rq cm pst w n v p rest Hr Hp' Hrest Hn Hraise Hdb)
        as (rq' & w' & E & Hq & Hd & He & Hnn & Hc).
      rewrite Hlen in E. exists rq', w'.
      repeat apply conj; try assumption.
      * rewrite Hq. rewrite <- app_assoc. cbn.
        unfold mark_refund_requested at 2, eligible.
        rewrite El. reflexivity.
      * rewrite Hc. unfold refund_tokens. cbn [List.filter].
        unfold needs_refund_call at 2, eligible. rewrite El. reflexivity.
Qed.

(** C5.  A refund call that fails blocks the payments after it.  The
    loop of [handle_patch_request_refund] has no exception handler, and
    the only failure of [refund_payment] that it can see is an exception,
    since it drops what the call returns.  The refund of a draft stops at
    the first refund call that raises, with the answer 500: the eligible
    payments before it are marked REFUND_REQUESTED in the database, the
    payment for which the call was made and the payments after it are as
    they were (an eligible one among them is not marked), the gateway was
    not called for these, no notification was published and no event was
    recorded. *)
Theorem refund_stops_at_the_call_that_raises nr_id tok data w r before p rest :
  full_access_to_name_request env = true ->
  upper tok = value REQUEST_REFUND ->
  requests (db w) !! nr_id = Some r ->
  stateCd r = State.DRAFT ->
  patchable env r data = true ->
  existsb is_reapply (payments r) = false ->
  payments r = before ++ p :: rest ->
  (forall q, In q before -> needs_refund_call env q = true -> refund_returns env q) ->
  needs_refund_call env p = true ->
  refund_payment env (Payment.payment_token p) = RefundRaised ->
  let res := patch env nr_id tok (Some data) w in
  fst res = mkResponse 500 (Failure SBCPaymentException)
  /\ refund_calls (snd res)
     = refund_calls w ++ refund_tokens env before ++ [Payment.payment_token p]
  /\ notifications (snd res) = notifications w
  /\ events (snd res) = events w
  /\ exists r', requests (db (snd res)) !! nr_id = Some r'
                /\ payments r' = map mark_refund_requested before ++ p :: rest.
Proof.
  intros Ha Ht Hr Hs Hv Hre Hp Hret Hn Hraise res. subst res.
  rewrite (NameRequestFacts.patch_runs_refund _ _ _ _ _ _ Ha Ht Hr Hs Hv).
  destruct w as [[rq cm ps] ev nt rc sd]. cbn in Hr.
  unfold handle_patch_request_refund, update_nr. exec.
  rewrite !lookup_alter_eq, Hr. cbn [fmap option_fmap option_map].
  destruct (NameRequestFacts.refund_row_kept data r) as (K1 & K2 & K3 & K4).
  set (f := fun r0 => handle_nr_patch data (apply_state_change State.REFUND_REQUESTED r0)).
  set (r1 := handle_nr_patch data (apply_state_change State.REFUND_REQUESTED r)) in *.
  rewrite K1, Hre. exec.
  assert (Hr1 : alter f nr_id rq !! nr_id = Some r1).
  { rewrite lookup_alter_eq, Hr. reflexivity. }
  assert (Hp1 : payments r1 = [] ++ before ++ p :: rest) by (rewrite K1; exact Hp).
  destruct (refund_payments_until_raise nr_id before [] r1 (alter f nr_id rq) cm ps
              (mkWorld (mkTables (alter f nr_id rq) cm ps) ev nt rc sd) 0%nat (Float.of_Z 0)
              p rest Hr1 Hp1 Hret Hn Hraise eq_refl)
    as (rq' & w' & E & Hq & Hd & He & Hnn & Hc).
  cbn [length] in E. rewrite Hp. rewrite E. cbn [app] in Hq.
  cbn. repeat apply conj; try assumption; [reflexivity|].
  rewrite Hd. cbn. rewrite Hq. eexists. split; [reflexivity|]. reflexivity.
Qed.

End Facts.
End NameRequestMore.

Module RollbackFacts.
Import NameRequest NameRequestRollback.

Section Facts.
Variable env : Env.
Variable rollback_actions : list string.

(** A rollback with an action of the enumeration cancels the request
    whatever its state: no transition is checked.  The answer is 200, the
    request is CANCELLED in the database, its document is deleted from the
    search index when its entity type is one of those listed, and the
    rollback is recorded.  ([update_nr], which is not among the sources,
    is taken to set the state and to save.) *)
Theorem rollback_cancels_from_any_state nr_id action data w r :
  full_access_to_name_request env = true ->
  requests (db w) !! nr_id = Some r ->
  has_value rollback_actions action = true ->
  let res := patch env rollback_actions nr_id action (Some data) w in
  exists r',
    fst res = mkResponse 200 (Entity r')
    /\ requests (db (snd res)) !! nr_id = Some r'
    /\ stateCd r' = State.CANCELLED
    /\ solr_deleted (snd res)
       = solr_deleted w
         ++ (if opt_in (entity_type_cd r) solr_entity_types then [nrNum r] else [])
    /\ events (snd res)
       = events w ++ [mkEvent (user_id (jwt_user env)) "PATCH [rollback]" nr_id]
    /\ notifications (snd res) = notifications w.
Proof.
  intros Ha Hr Hv res. subst res.
  destruct w as [[rq cm ps] ev nt rc sd]. cbn in Hr.
  unfold patch, patch_handler, validate_patch_request. rewrite Ha, Hv.
  exec. rewrite Hr. exec.
  change (String.length "") with 0%nat. change (Nat.ltb 0 0) with false.
  unfold body_of. exec.
  unfold handle_patch_rollback, update_nr. exec.
  rewrite !lookup_alter_eq, Hr. cbn [fmap option_fmap option_map].
  set (r1 := handle_nr_patch data (apply_state_change State.CANCELLED r)).
  assert (K : stateCd r1 = State.CANCELLED /\ entity_type_cd r1 = entity_type_cd r
              /\ nrNum r1 = nrNum r).
  { subst r1.
    destruct (NameRequestFacts.handle_nr_patch_kept data
                (apply_state_change State.CANCELLED r)) as (H1 & _ & _ & H4 & H5).
    destruct (NameRequestFacts.apply_state_change_kept State.CANCELLED r)
      as (_ & _ & _ & _ & G4 & G5).
    rewrite H1, H4, H5, G4, G5, NameRequestFacts.apply_state_change_stateCd. auto. }
  destruct K as (K1 & K2 & K3). rewrite K2, K3.
  destruct (opt_in (entity_type_cd r) solr_entity_types);
    unfold delete_solr_doc; exec;
    rewrite ?lookup_alter_eq, ?Hr; cbn [fmap option_fmap option_map]; fold r1;
    exists r1; cbn; rewrite ?lookup_alter_eq, ?Hr, ?app_nil_r; cbn; auto 10.
Qed.

(** A rollback with an action that is not of the enumeration, in the
    letter case of the path, is answered 500 and changes nothing; the
    error carries the message [Invalid request for PATCH], not the message
    [Invalid rollback action] of the validation. *)
Theorem rollback_refuses_other_actions nr_id action request_json w r :
  full_access_to_name_request env = true ->
  requests (db w) !! nr_id = Some r ->
  has_value rollback_actions action = false ->
  patch env rollback_actions nr_id action request_json w
  = (mkResponse 500 (Failure (InvalidInputError "Invalid request for PATCH")), w).
Proof.
  intros Ha Hr Hv.
  destruct w as [[rq cm ps] ev nt rc sd]. cbn in Hr.
  unfold patch, patch_handler, validate_patch_request. rewrite Ha, Hv.
  exec. rewrite Hr. reflexivity.
Qed.

End Facts.
End RollbackFacts.

(** ** requests.py: the sort order of the list *)

Module RequestsListFacts.
Import RequestsList.

Lemma append_assoc (a b c : string) : ((a ++ b) ++ c = a ++ b ++ c)%string.
Proof.
  induction a as [|x a IH]; [reflexivity|].
  change (String x ((a ++ b) ++ c) = String x (a ++ b ++ c))%string.
  f_equal. exact IH.
Qed.

Lemma length_append (a b : string) :
  String.length (a ++ b)%string = (String.length a + String.length b)%nat.
Proof.
  induction a as [|x a IH]; [reflexivity|].
  change (S (String.length (a ++ b)%string) = S (String.length a + String.length b)).
  f_equal. exact IH.
Qed.

(** A list joined with one more element at its end. *)
Lemma join_snoc sep xs x :
  join sep (xs ++ [x])
  = match xs with
    | [] => x
    | _ => (join sep xs ++ sep ++ x)%string
    end.
Proof.
  induction xs as [|a xs IH]; [reflexivity|].
  destruct xs as [|b xs]; [reflexivity|].
  change (join sep ((a :: b :: xs) ++ [x]))
    with (a ++ sep ++ join sep ((b :: xs) ++ [x]))%string.
  rewrite IH. change (join sep (a :: b :: xs)) with (a ++ sep ++ join sep (b :: xs))%string.
  rewrite !append_assoc. reflexivity.
Qed.

(** There is one piece more than there are separators. *)
Lemma length_split_on c s : length (split_on c s) = S (count_char c s).
Proof.
  induction s as [|x s IH]; [reflexivity|].
  cbn [split_on count_char]. destruct (Ascii.eqb x c); cbn [length].
  - rewrite IH. reflexivity.
  - destruct (split_on c s) as [|piece pieces]; [discriminate|]. exact IH.
Qed.

(** A separator at the end leaves an empty piece after it. *)
Lemma split_on_snoc c s :
  split_on c (s ++ String c "")%string = split_on c s ++ [""%string].
Proof.
  induction s as [|x s IH].
  - cbn [split_on]. change ("" ++ String c "")%string with (String c "").
    cbn [split_on]. rewrite Ascii.eqb_refl. reflexivity.
  - change (String x s ++ String c "")%string with (String x (s ++ String c "")%string).
    cbn [split_on]. rewrite IH. destruct (Ascii.eqb x c); [reflexivity|].
    pose proof (length_split_on c s) as Hl.
    destruct (split_on c s) as [|piece pieces]; [discriminate|]. reflexivity.
Qed.

Lemma item_pair_None x : item_pair x = None <-> count_char ":" x <> 1%nat.
Proof.
  unfold item_pair. pose proof (length_split_on ":" x) as H.
  destruct (split_on ":" x) as [|k [|v [|z zs]]]; cbn in H; split; intros G;
    try reflexivity; try discriminate; try lia.
Qed.

Section Facts.
Variable cols : list (string * string).

(** A joined list of terms is empty only when there is no term. *)
Lemma join_terms_length (f : string * string -> string) acc :
  (forall kv, exists t, f kv = (t ++ " NULLS LAST")%string) ->
  Nat.ltb 0 (String.length (join ", " (map f acc)))
  = match acc with [] => false | _ => true end.
Proof.
  intros Hf. destruct acc as [|a acc]; [reflexivity|].
  apply Nat.ltb_lt. destruct (Hf a) as [t Ht].
  destruct acc as [|b acc]; cbn [map join]; rewrite Ht, ?length_append; cbn; lia.
Qed.

Lemma order_loop_eq items :
  forall acc,
    order_loop cols items (join ", " (map (sort_by_term cols) acc))
      (join ", " (map order_list_term acc))
    = pairs ← mapM item_pair items;
      Some (join ", " (map (sort_by_term cols) (acc ++ List.filter (taken cols) pairs)),
            join ", " (map order_list_term (acc ++ List.filter (taken cols) pairs))).
Proof.
  induction items as [|x items IH]; intros acc.
  - cbn. rewrite app_nil_r. reflexivity.
  - cbn [order_loop mapM].
    pose proof (eq_refl (item_pair x)) as Hx. unfold item_pair at 2 in Hx. revert Hx.
    destruct (split_on ":" x) as [|k [|v [|z zs]]]; intros ->; cbn [mbind option_bind];
      try reflexivity.
    change (str_in k (col_keys cols)
            && (String.eqb (lower v) "asc" || String.eqb (lower v) "desc"))
      with (taken cols (k, v)).
    destruct (taken cols (k, v)) eqn:Et.
    + rewrite (join_terms_length (sort_by_term cols)).
      2:{ intros kv. unfold sort_by_term.
          exists (col cols (fst kv) ++ " " ++ lower (snd kv))%string.
          rewrite !append_assoc. reflexivity. }
      assert (E1 : (let '(sort_by, order_list) :=
                      match acc with
                      | [] => (join ", " (map (sort_by_term cols) acc),
                               join ", " (map order_list_term acc))
                      | _ => ((join ", " (map (sort_by_term cols) acc) ++ ", ")%string,
                              (join ", " (map order_list_term acc) ++ ", ")%string)
                      end in
                    order_loop cols items
                      (sort_by ++ col cols k ++ " " ++ lower v ++ " NULLS LAST")%string
                      (order_list ++ k ++ " " ++ lower v ++ " NULLS LAST")%string)
                   = order_loop cols items
                       (join ", " (map (sort_by_term cols) (acc ++ [(k, v)])))
                       (join ", " (map order_list_term (acc ++ [(k, v)])))).
      { rewrite !List.map_app. cbn [map]. rewrite !join_snoc.
        destruct acc as [|a acc]; cbn [map]; [reflexivity|].
        rewrite !append_assoc. reflexivity. }
      destruct acc as [|a acc].
      * cbn [map join] in *. rewrite E1, IH.
        destruct (mapM item_pair items) as [pairs|]; [|reflexivity].
        cbn [mbind option_bind mret option_ret List.filter].
        rewrite Et. reflexivity.
      * rewrite E1, IH.
        destruct (mapM item_pair items) as [pairs|]; [|reflexivity].
        cbn [mbind option_bind mret option_ret List.filter].
        rewrite Et, <- !app_assoc. reflexivity.
    + rewrite IH.
      destruct (mapM item_pair items) as [pairs|]; [|reflexivity].
      cbn [mbind option_bind mret option_ret List.filter].
      rewrite Et. reflexivity.
Qed.

(** The two texts that [Requests.get] makes of the parameter [order],
    when every item of it splits into an attribute and a direction: the
    items whose attribute is one of the model and whose direction, in any
    letter case, is [asc] or [desc], in their order, each as
    attribute (or column), direction in lower case and [NULLS LAST], with
    a comma and a space between them.  The other items leave no trace: no
    text of the caller reaches the ORDER BY clause but the names of the
    model's own attributes. *)
Theorem sort_order_takes_known_columns order :
  sort_order cols order
  = pairs ← mapM item_pair (split_on "," order);
    Some (join ", " (map (sort_by_term cols) (List.filter (taken cols) pairs)),
          join ", " (map order_list_term (List.filter (taken cols) pairs))).
Proof. apply (order_loop_eq (split_on "," order) []). Qed.

(** The loop raises (the unpacking of an item fails) exactly when some
    item between the commas of [order] has no colon, or more than one;
    so it does for an empty [order], and for one that ends with a comma.
    Nothing catches this in [get]. *)
Theorem sort_order_raises order :
  (sort_order cols order = None
   <-> Exists (fun x => count_char ":" x <> 1%nat) (split_on "," order))
  /\ sort_order cols "" = None
  /\ sort_order cols (order ++ ",") = None.
Proof.
  assert (H : forall o, sort_order cols o = None
                <-> Exists (fun x => count_char ":" x <> 1%nat) (split_on "," o)).
  { intros o. unfold sort_order.
    pose proof (order_loop_eq (split_on "," o) []) as Ho.
    cbn [map join app] in Ho. rewrite Ho. clear Ho.
    destruct (mapM item_pair (split_on "," o)) as [pairs|] eqn:E.
    - cbn. split; [discriminate|]. intros Hex. exfalso.
      apply Exists_exists in Hex as (x & Hin & Hx).
      apply item_pair_None in Hx.
      assert (Hn : mapM item_pair (split_on "," o) = None).
      { apply mapM_None. apply Exists_exists. exists x. split; [|exact Hx].
        exact Hin. }
      congruence.
    - cbn. split; [|reflexivity]. intros _.
      apply mapM_None in E. apply Exists_exists in E as (x & Hin & Hx).
      apply Exists_exists. exists x. split; [exact Hin|].
      apply item_pair_None. exact Hx. }
  split; [apply H|]. split; [reflexivity|].
  apply H. rewrite split_on_snoc. apply Exists_app. right. left. cbn. lia.
Qed.

End Facts.
End RequestsListFacts.

(** ** requests.py: the page of a search *)

Module RequestSearchFacts.
Import RequestSearch.

(** For a page number from 1 on and a limit that is not negative, the
    answer of the search holds the rows of the page, which are at most
    [limit], each with its actions, and [hasMore] tells exactly whether
    rows match beyond the page. *)
Theorem page_of_has_more {A : Type} (with_actions : A -> A) matching page limit :
  1 <= page ->
  0 <= limit ->
  let offset := Z.to_nat ((page - 1) * limit) in
  fst (page_of with_actions matching page limit)
  = map with_actions (firstn (Z.to_nat limit) (skipn offset matching))
  /\ Z.of_nat (length (fst (page_of with_actions matching page limit))) <= limit
  /\ (snd (page_of with_actions matching page limit) = true
      <-> page * limit < Z.of_nat (length matching)).
Proof.
  intros Hp Hl offset. unfold page_of. cbn [fst snd]. fold offset.
  assert (Ho : Z.of_nat offset = (page - 1) * limit) by (subst offset; nia).
  split; [|split].
  - f_equal. rewrite firstn_firstn. f_equal. lia.
  - rewrite length_map, firstn_firstn, length_firstn, length_skipn. lia.
  - rewrite Z.ltb_lt, length_firstn, length_skipn. nia.
Qed.

End RequestSearchFacts.

(** ** The receipt mail of the emailer *)

Module NameRequestEmailFacts.
Import NameRequestEmail.

(** The loop keeps the id of the last payment that has the token. *)
Lemma find_payment_id_last payment_token payments :
  find_payment_id payment_token payments
  = pe_id <$> last (List.filter (fun p => String.eqb payment_token (pe_token p)) payments).
Proof.
  unfold find_payment_id.
  assert (H : forall acc,
    fold_left
      (fun payment_id payment =>
         if String.eqb payment_token (pe_token payment)
         then Some (pe_id payment) else payment_id) payments acc
    = match last (List.filter (fun p => String.eqb payment_token (pe_token p)) payments) with
      | Some p => Some (pe_id p)
      | None => acc
      end).
  { induction payments as [|p ps IH]; intros acc; [reflexivity|].
    cbn [fold_left List.filter]. rewrite IH.
    destruct (String.eqb payment_token (pe_token p)); [|reflexivity].
    destruct (List.filter _ ps) as [|q qs] eqn:E; [reflexivity|].
    change (last (p :: q :: qs)) with (last (q :: qs)).
    destruct (last (q :: qs)) eqn:El; [reflexivity|].
    apply last_None in El. discriminate. }
  rewrite H. destruct (last _); reflexivity.
Qed.

Section Facts.
Variable get_bearer_token : option string.
Variable query_nr_number : string -> Z * NrData.
Variable get_nr_payments : Z -> Z * list PaymentEntry.
Variable post_receipt : Z -> Z * string.
Variable b64encode : string -> string.
Variable render : string -> string -> string.

(** When [process] makes a mail, the mail is the receipt of one payment:
    the message names a request that the API knows and gives a payment
    token; the mail goes to the address of the applicant, which is not
    empty, under the subject of the receipt; and it has exactly one
    attachment, the receipt, in base 64, of the last of the payments of
    the request that have the token of the message.  In every other case
    [process] makes no mail. *)
Theorem process_mails_one_receipt email_info mail :
  process get_bearer_token query_nr_number get_nr_payments post_receipt b64encode render
    email_info = Some mail ->
  let nr_number := nrNum_of email_info in
  let payment_token := paymentToken_of email_info in
  let nr_data := snd (query_nr_number nr_number) in
  exists payment,
    payment_token <> ""
    /\ fst (query_nr_number nr_number) = 200
    /\ fst (get_nr_payments (nd_id nr_data)) = 200
    /\ last (List.filter (fun p => String.eqb payment_token (pe_token p))
               (snd (get_nr_payments (nd_id nr_data))))
       = Some payment
    /\ fst (post_receipt (pe_id payment)) = 200
    /\ recipients mail = nd_emailAddress nr_data
    /\ recipients mail <> ""
    /\ subject mail = (nr_number ++ " - Receipt from Corporate Registry")%string
    /\ attachments mail
       = [mkAttachment "Receipt.pdf" (b64encode (snd (post_receipt (pe_id payment))))
            "" "1"].
Proof.
  intros H nr_number payment_token nr_data. revert H.
  unfold process, _get_pdfs, HTTPStatus_OK.
  fold nr_number payment_token. fold nr_data.
  destruct (Z.eqb (fst (query_nr_number nr_number)) 200) eqn:Eq; [|discriminate].
  cbn [negb].
  destruct (negb (truthy get_bearer_token) || _ || _) eqn:Eg; [discriminate|].
  apply orb_false_iff in Eg as [_ Et]. apply String.eqb_neq in Et.
  destruct (Z.eqb (fst (get_nr_payments _)) 200) eqn:Ep; [|discriminate].
  cbn [negb]. rewrite find_payment_id_last.
  destruct (last _) as [payment|] eqn:El; [|discriminate].
  cbn [fmap option_fmap option_map].
  destruct (Z.eqb (pe_id payment) 0); [discriminate|].
  destruct (Z.eqb (fst (post_receipt _)) 200) eqn:Er; [|discriminate].
  cbn [negb].
  destruct (String.eqb (nd_emailAddress _) "") eqn:Ee; [discriminate|].
  intros [= <-]. apply String.eqb_neq in Ee. apply Z.eqb_eq in Eq, Ep, Er.
  exists payment. cbn. auto 15.
Qed.

End Facts.
End NameRequestEmailFacts.

(** ** The further properties, on the registry *)

Module OnTheRegistry.

(** The examiner approves NR 0000003: the draft NR 0000001 and what lies
    beside the requests are left alone. *)
Lemma patch_leaves_the_other_requests_witness :
  requests (db (snd (RequestResource.patch Examples.env "NR 0000003"
                       (Some (Examples.state_only "APPROVED")) Examples.registry))) !! 1
  = Some Examples.nr1
  /\ payment_societies
       (db (snd (RequestResource.patch Examples.env "NR 0000003"
                   (Some (Examples.state_only "APPROVED")) Examples.registry))) = [].
Proof.
  destruct (RequestFrame.patch_leaves_the_other_requests Examples.env "NR 0000003"
              (Some (Examples.state_only "APPROVED")) Examples.registry 1)
    as (H1 & H2 & _).
  - vm_compute. discriminate.
  - intros r H. vm_compute in H. injection H as <-. reflexivity.
  - split; [exact H1|exact H2].
Defined.

(** The examiner approves NR 0000003 while NR 0000002 is in progress for
    them: NR 0000002 is a draft again, and its previous state is cleared. *)
Lemma patch_reverts_the_request_in_progress_witness :
  exists r0',
    requests (db (snd (RequestResource.patch Examples.env "NR 0000003"
                         (Some (Examples.state_only "APPROVED")) Examples.registry))) !! 2
    = Some r0'
    /\ Some (stateCd r0') = Some "DRAFT" /\ previousStateCd r0' = None.
Proof.
  destruct (RequestMore.patch_reverts_the_request_in_progress Examples.env "NR 0000003"
              (Examples.state_only "APPROVED") Examples.registry 3 Examples.nr3
              "APPROVED" 2 Examples.nr2)
    as (r0' & H1 & _ & _ & H2);
    try reflexivity; try discriminate; try (vm_compute; reflexivity).
  exists r0'. split; [exact H1|exact H2].
Defined.

(** NR 0000003 cannot be consumed without a corp number: the answer is
    406 and the request is the draft it was. *)
Lemma patch_failure_leaves_the_request_witness :
  requests (db (snd (RequestResource.patch Examples.env "NR 0000003"
                       (Some (Examples.consume_with Absent)) Examples.registry))) !! 3
  = Some Examples.nr3.
Proof.
  apply (RequestMore.patch_failure_leaves_the_request Examples.env "NR 0000003"
           (Some (Examples.consume_with Absent)) Examples.registry 3 Examples.nr3);
    try reflexivity; vm_compute; try reflexivity; discriminate.
Defined.

(** The empty object is turned down before the request is looked up;
    a body with a key for a request that no one has; a state that is
    none. *)
Lemma patch_rejects_without_effect_witness :
  RequestResource.patch Examples.env "NR 0000009" (Some Scenarios.empty_body)
    Examples.registry
  = (mkResponse 400 (Message "No input data provided"), Examples.registry)
  /\ RequestResource.patch Examples.env "NR 0000009" (Some Scenarios.unread_key)
       Examples.registry
     = (mkResponse 404 (Message "Request:NR 0000009 not found"), Examples.registry)
  /\ RequestResource.patch Examples.env "NR 0000003"
       (Some (Examples.state_only "SHELVED")) Examples.registry
     = (mkResponse 406 (Message "not a valid state"), Examples.registry).
Proof.
  destruct (RequestEdges.patch_rejects_without_effect Examples.env "NR 0000009"
              Examples.registry) as (_ & H400 & H404 & _).
  destruct (RequestEdges.patch_rejects_without_effect Examples.env "NR 0000003"
              Examples.registry) as (_ & _ & _ & H406).
  split; [|split].
  - apply H400. reflexivity.
  - apply H404; [reflexivity|]. vm_compute. reflexivity.
  - apply (H406 (Examples.state_only "SHELVED") 3 Examples.nr3 "SHELVED");
      try reflexivity; try discriminate; vm_compute; reflexivity.
Defined.

(** Replacements of NR 0000003: with the empty object, with a body that
    has a key but no state, and with a third name choice and no second. *)
Lemma put_rejects_without_effect_witness :
  RequestResource.put Examples.env "NR 0000003" (Some Scenarios.empty_body)
    Examples.registry
  = (Some (mkResponse 400 (Message "No input data provided")), Examples.registry)
  /\ RequestResource.put Examples.env "NR 0000003" (Some Scenarios.unread_key)
       Examples.registry
     = (Some (mkResponse 406 (Message "state not set")), Examples.registry)
  /\ RequestResource.put Examples.env "NR 0000003" (Some Scenarios.third_without_second)
       Examples.registry
     = (Some (mkResponse 400
                (Message "Data contains a name choice 3 without a name choice 2")),
        Examples.registry).
Proof.
  destruct (RequestEdges.put_rejects_without_effect Examples.env "NR 0000003"
              Examples.registry) as (_ & H400 & _ & H).
  split; [|split].
  - apply H400. reflexivity.
  - destruct (H Scenarios.unread_key) as (H406 & _);
      [reflexivity|left; reflexivity|].
    apply H406. reflexivity.
  - destruct (H Scenarios.third_without_second) as (_ & H1);
      [reflexivity|left; reflexivity|].
    destruct (H1 "DRAFT") as (_ & H2); [reflexivity|discriminate|].
    destruct H2 as (_ & H3); [reflexivity|].
    destruct (H3 3 Examples.nr3) as (_ & H4); [vm_compute; reflexivity..|].
    destruct H4 as (_ & H5); [reflexivity|].
    apply (H5 [(Some "ACME HOLDINGS LTD.", 1); (Some "ACME GROUP LTD.", 3)]);
      reflexivity.
Defined.

(** The examiner takes up the draft NR 0000001, which stays not
    furnished. *)
Lemma patch_to_inprogress_keeps_furnished_witness :
  status (fst (RequestResource.patch Examples.env "NR 0000001"
                 (Some Scenarios.take_up) Examples.registry)) = 200
  /\ exists r',
      requests (db (snd (RequestResource.patch Examples.env "NR 0000001"
                           (Some Scenarios.take_up) Examples.registry))) !! 1 = Some r'
      /\ stateCd r' = "INPROGRESS" /\ furnished r' = "N".
Proof.
  destruct (RequestEdges.patch_to_inprogress_keeps_furnished Examples.env "NR 0000001"
              Scenarios.take_up Examples.registry 1 Examples.nr1)
    as (H1 & _ & r' & H2 & H3 & _ & H4 & _);
    try reflexivity; try (vm_compute; reflexivity).
  split; [exact H1|]. exists r'. auto.
Defined.

(** A body without state for NR 0000002, which the examiner has in
    progress: it stays in progress, its previous state is now null, the
    comment of the body is not added, and NR 0000003 is as it was. *)
Lemma patch_without_state_witness :
  status (fst (RequestResource.patch Examples.env "NR 0000002"
                 (Some Scenarios.forget_previous) Examples.registry)) = 200
  /\ comments (db (snd (RequestResource.patch Examples.env "NR 0000002"
                          (Some Scenarios.forget_previous) Examples.registry))) = []
  /\ requests (db (snd (RequestResource.patch Examples.env "NR 0000002"
                          (Some Scenarios.forget_previous) Examples.registry))) !! 3
     = Some Examples.nr3
  /\ exists r',
      requests (db (snd (RequestResource.patch Examples.env "NR 0000002"
                           (Some Scenarios.forget_previous) Examples.registry))) !! 2
      = Some r'
      /\ stateCd r' = "INPROGRESS" /\ previousStateCd r' = None.
Proof.
  destruct (RequestEdges.patch_without_state Examples.env "NR 0000002"
              Scenarios.forget_previous Examples.registry 2 Examples.nr2)
    as (H1 & _ & H2 & H3 & r' & H4 & H5 & _ & _ & H6 & _);
    try reflexivity; try (vm_compute; reflexivity).
  repeat apply conj; [exact H1|exact H2|rewrite H3 by discriminate; reflexivity|].
  exists r'. auto.
Defined.

(** A payment for NR 0000006, then the history of NR 0000006. *)
Lemma get_after_post_witness :
  PaymentSocietiesSearch.get "NR 0000006"
    (snd (PaymentSocieties.post Examples.env
            (Some (Examples.society_payment "NR 0000006")) Examples.registry))
  = (200,
     PaymentSocietiesSearch.History 1
       [PaymentSocietiesSearch.mkTransaction 0
          (PaymentSocieties.society_of (Examples.society_payment "NR 0000006")
             "NR 0000006")]).
Proof.
  apply (PaymentSocietiesMore.get_after_post Examples.env
           (Examples.society_payment "NR 0000006") Examples.registry "NR 0000006" 6
           Examples.nr6);
    try reflexivity; try discriminate; vm_compute; reflexivity.
Defined.

(** No payment with the empty object, none without the number of a
    request, none for a request that is not there. *)
Lemma post_rejects_without_effect_witness :
  PaymentSocieties.post Examples.env (Some Scenarios.empty_payment) Examples.registry
  = (mkResponse 400 (Message "No input data provided"), Examples.registry)
  /\ PaymentSocieties.post Examples.env (Some Scenarios.payment_without_number)
       Examples.registry
     = (mkResponse 406 (Message "nr_num not set in json input"), Examples.registry)
  /\ PaymentSocieties.post Examples.env (Some (Examples.society_payment "NR 0000009"))
       Examples.registry
     = (mkResponse 404 (Message "Request: NR 0000009 not found in requests table"),
        Examples.registry).
Proof.
  destruct (PaymentSocietiesMore.post_rejects_without_effect Examples.env
              Examples.registry) as (_ & H400 & H406 & H404).
  split; [|split].
  - apply H400. reflexivity.
  - apply H406; reflexivity.
  - apply (H404 (Examples.society_payment "NR 0000009") "NR 0000009");
      try reflexivity; try discriminate; vm_compute; reflexivity.
Defined.

(** An edit of a request that is not there, and an edit of NR 0000002,
    which is in progress. *)
Lemma name_request_rejects_without_effect_witness :
  NameRequest.patch Examples.env 9 "edit" (Some Examples.no_fields) Examples.registry
  = (mkResponse 500 (Failure AttributeError), Examples.registry)
  /\ NameRequest.patch Examples.env 2 "edit" (Some Examples.no_fields) Examples.registry
     = (mkResponse 500 (Failure (InvalidInputError "Invalid request for PATCH")),
        Examples.registry).
Proof.
  split.
  - destruct (NameRequestMore.name_request_rejects_without_effect Examples.env 9 "edit"
                (Some Examples.no_fields) Examples.registry) as (_ & H & _).
    destruct H as (H & _); [reflexivity|vm_compute; reflexivity|exact H].
  - destruct (NameRequestMore.name_request_rejects_without_effect Examples.env 2 "edit"
                (Some Examples.no_fields) Examples.registry) as (_ & _ & H).
    apply (H NameRequestPatchActions.EDIT Examples.nr2 Examples.no_fields);
      try reflexivity; try (left; reflexivity); vm_compute; reflexivity.
Defined.

(** The draft NR 0000001 is checked in, with the answer 200, whatever
    token the body gives, and without a body. *)
Lemma checkin_ignores_the_body_witness :
  NameRequest.patch Examples.env 1 "checkin"
    (Some (mkRequestData Absent (Value "tok-B") Absent)) Examples.registry
  = NameRequest.patch Examples.env 1 "checkin" None Examples.registry
  /\ status (fst (NameRequest.patch Examples.env 1 "checkin" None Examples.registry))
     = 200.
Proof.
  split; [|vm_compute; reflexivity].
  apply NameRequestMore.checkin_ignores_the_body. reflexivity.
Defined.

(** The refund of NR 0000001, whose payments [pay-a], [pay-b] and
    [pay-c] are eligible, stops at [pay-b], for which the refund call
    raises: [pay-a] is marked, [pay-b] and [pay-c] are not, the gateway
    was called for [pay-a] and [pay-b] only, and nothing was published. *)
Lemma refund_stops_at_the_call_that_raises_witness :
  map (NameRequest.eligible) (payments Examples.nr1) = [false; true; true; true]
  /\ refund_payment Examples.env "pay-b" = RefundRaised
  /\ notifications (snd (NameRequest.patch Examples.env 1 "REQUEST_REFUND"
                           (Some Examples.no_fields) Examples.registry)) = []
  /\ fst (NameRequest.patch Examples.env 1 "REQUEST_REFUND" (Some Examples.no_fields)
         Examples.registry)
  = mkResponse 500 (Failure SBCPaymentException)
  /\ refund_calls (snd (NameRequest.patch Examples.env 1 "REQUEST_REFUND"
                          (Some Examples.no_fields) Examples.registry))
     = ["pay-a"; "pay-b"]
  /\ exists r',
      requests (db (snd (NameRequest.patch Examples.env 1 "REQUEST_REFUND"
                           (Some Examples.no_fields) Examples.registry))) !! 1 = Some r'
      /\ payments r'
         = [Payment.mk "pay-0" "CREATED" None; Payment.mk "pay-a" "REFUND_REQUESTED" None;
            Payment.mk "pay-b" "COMPLETED" None; Payment.mk "pay-c" "PARTIAL" None].
Proof.
  destruct (NameRequestMore.refund_stops_at_the_call_that_raises Examples.env 1
              "REQUEST_REFUND" Examples.no_fields Examples.registry Examples.nr1
              [Payment.mk "pay-0" "CREATED" None; Payment.mk "pay-a" "APPROVED" None]
              (Payment.mk "pay-b" "COMPLETED" None)
              [Payment.mk "pay-c" "PARTIAL" None])
    as (H1 & H2 & H5 & _ & r' & H3 & H4);
    try reflexivity.
  - intros q [<-|[<-|[]]] Hq; [discriminate|]. exists 400. reflexivity.
  - split; [reflexivity|]. split; [reflexivity|]. split; [exact H5|].
    split; [exact H1|]. split; [exact H2|]. exists r'. split; [exact H3|exact H4].
Defined.

(** The approved NR 0000005 is cancelled by the rollback [cancel]; the
    action [CANCEL] is not one. *)
Lemma rollback_cancels_from_any_state_witness :
  exists r',
    fst (NameRequestRollback.patch Examples.env Scenarios.rollback_actions 5 "cancel"
           (Some Examples.no_fields) Examples.registry)
    = mkResponse 200 (Entity r')
    /\ stateCd r' = "CANCELLED".
Proof.
  destruct (RollbackFacts.rollback_cancels_from_any_state Examples.env
              Scenarios.rollback_actions 5 "cancel" Examples.no_fields Examples.registry
              Examples.nr5)
    as (r' & H1 & _ & H2 & _); try reflexivity.
  exists r'. split; [exact H1|exact H2].
Defined.

Lemma rollback_refuses_other_actions_witness :
  NameRequestRollback.patch Examples.env Scenarios.rollback_actions 5 "CANCEL"
    (Some Examples.no_fields) Examples.registry
  = (mkResponse 500 (Failure (InvalidInputError "Invalid request for PATCH")),
     Examples.registry).
Proof.
  apply (RollbackFacts.rollback_refuses_other_actions Examples.env
           Scenarios.rollback_actions 5 "CANCEL" (Some Examples.no_fields)
           Examples.registry Examples.nr5); reflexivity.
Defined.

(** The second page of five rows by two, and the third. *)
Lemma page_of_has_more_witness :
  RequestSearch.page_of (fun r : nat => r) [1; 2; 3; 4; 5]%nat 2 2 = ([3; 4]%nat, true)
  /\ (snd (RequestSearch.page_of (fun r : nat => r) [1; 2; 3; 4; 5]%nat 3 2) = true
      <-> 3 * 2 < 5).
Proof.
  split; [reflexivity|].
  apply (RequestSearchFacts.page_of_has_more (fun r : nat => r) [1; 2; 3; 4; 5]%nat 3 2);
    lia.
Defined.

(** The receipt for the token [tok-1] is the one of the payment 13, the
    later of the two that have the token. *)
Lemma process_mails_one_receipt_witness :
  exists mail payment,
    NameRequestEmail.process (Some "bearer") Scenarios.query_nr_number
      Scenarios.get_nr_payments Scenarios.post_receipt (fun content => content)
      (fun action nr => nr) Scenarios.paid = Some mail
    /\ NameRequestEmail.pe_id payment = 13
    /\ NameRequestEmail.attachments mail
       = [NameRequestEmail.mkAttachment "Receipt.pdf"
            (snd (Scenarios.post_receipt (NameRequestEmail.pe_id payment))) "" "1"].
Proof.
  eexists.
  destruct (NameRequestEmailFacts.process_mails_one_receipt (Some "bearer")
              Scenarios.query_nr_number Scenarios.get_nr_payments Scenarios.post_receipt
              (fun content => content) (fun action nr => nr) Scenarios.paid _ eq_refl)
    as (payment & _ & _ & _ & Hl & _ & _ & _ & _ & Ha).
  exists payment. split; [reflexivity|]. split; [|exact Ha].
  vm_compute in Hl. injection Hl as <-. reflexivity.
Defined.

End OnTheRegistry.
